(** * Portfolio state derivation engine: ledger, position aggregator,
  account valuator, cash-flow classifier, correlation engine and
  rebalance planner.

  Amounts, prices and ratios are Python floats in the source; they are
  modelled by exact rationals [Q] (every finite float is a rational), so
  equalities between amounts are stated with [==] and hold up to the
  rounding of the floating-point operations; where a result can be NaN
  it is a [Py.fval], a rational or NaN.  The module [Binary64] evaluates
  the stock summary on the kernel's binary64 floats.  Integer columns
  (shares, contracts, identifiers) are [Z], and the sums of the int64
  share columns wrap around.  Dates are stored as ISO-8601 text whose
  lexicographic order is the calendar order; they are modelled by their
  day ordinal in [Z].  A nullable column is an [option]; in a frame read
  by [pd.read_sql_query] its NULL is NaN or [None] according to the
  other rows of the frame.  Frames are lists of rows, dictionaries are
  finite maps, and code that may raise returns the exception as a
  value. *)

From Stdlib Require Import QArith Qabs Qround ZArith List String Ascii Lia.
From Stdlib Require PrimFloat Uint63.
From stdpp Require Import gmap strings list fin_maps sorting.

(** ** Python values *)

Module Py.

(** [bool(s)] for an optional string argument: [None] and the empty
    string are falsy. *)
Definition truthy_str (s : option string) : bool :=
  match s with
  | Some s => negb (String.eqb s "")
  | None => false
  end.

(** [bool(x)] for a number. *)
Definition truthy_num (x : Q) : bool := negb (Qeq_bool x 0).

(** [x or 0] on a nullable numeric cell of a row fetched through a
    cursor, where NULL is [None]. *)
Definition or_zero (x : option Q) : Q :=
  match x with
  | Some v => if truthy_num v then v else 0%Q
  | None => 0%Q
  end.

(** A Python float: a finite value or NaN. *)
Inductive fval := Fin (q : Q) | NaN.

(** Arithmetic propagates NaN. *)
Definition lift2 (op : Q → Q → Q) (x y : fval) : fval :=
  match x, y with Fin a, Fin b => Fin (op a b) | _, _ => NaN end.

Definition fplus : fval → fval → fval := lift2 Qplus.
Definition fminus : fval → fval → fval := lift2 Qminus.
Definition ftimes : fval → fval → fval := lift2 Qmult.
Definition fover : fval → fval → fval := lift2 Qdiv.

(** [x > y] and [x < y]: every comparison with NaN is false. *)
Definition fgtb (x y : fval) : bool :=
  match x, y with Fin a, Fin b => negb (Qle_bool a b) | _, _ => false end.
Definition fltb (x y : fval) : bool := fgtb y x.

(** Two results denote the same float. *)
Definition same_float (x y : fval) : Prop :=
  match x, y with
  | Fin a, Fin b => a == b
  | NaN, NaN => True
  | _, _ => False
  end.

(** A nullable numeric column of a frame built by [pd.read_sql_query]:
    as soon as one row of the result holds a value the column is float64
    and NULL reads as NaN; when every row is NULL the column has dtype
    object and NULL reads as [None]. *)
Definition float_column {A V} (col : A → option V) (frame : list A) : bool :=
  existsb (λ r, bool_decide (is_Some (col r))) frame.

(** [row[col] or d] on such a column: NaN is truthy, [None] and 0 are
    not. *)
Definition cell_or {A} (frame : list A) (col : A → option Q) (row : A)
    (d : fval) : fval :=
  match col row with
  | Some v => if truthy_num v then Fin v else d
  | None => if float_column col frame then NaN else d
  end.

(** The value an int64 sum wraps to. *)
Definition wrap64 (z : Z) : Z :=
  ((z + 2 ^ 63) mod 2 ^ 64 - 2 ^ 63)%Z.

Definition Qgtb (x y : Q) : bool := negb (Qle_bool x y).
Definition Qltb (x y : Q) : bool := negb (Qle_bool y x).
Definition Qgeb (x y : Q) : bool := Qle_bool y x.

(** [Series.sum()] / [sum(...)] over rationals. *)
Definition sumQ (l : list Q) : Q := foldr Qplus 0%Q l.
Definition sumZ (l : list Z) : Z := foldr Z.add 0%Z l.

(** [str.upper()] on ASCII letters (ticker symbols are ASCII). *)
Definition upper_ascii (c : ascii) : ascii :=
  let n := nat_of_ascii c in
  if (97 <=? n)%nat && (n <=? 122)%nat then ascii_of_nat (n - 32) else c.

Fixpoint upper (s : string) : string :=
  match s with
  | EmptyString => EmptyString
  | String c r => String (upper_ascii c) (upper r)
  end.

(** Equality test of two strings as a boolean. *)
Definition str_eq (a b : string) : bool := String.eqb a b.

(** [x in [a; b; ...]] for string literals. *)
Definition str_in (x : string) (l : list string) : bool :=
  existsb (String.eqb x) l.

(** [sorted(l, key=...)]: a stable sort.  [before y x] says that the key
    of [y] puts it strictly in front of [x]; elements that neither
    precedes keep the order of the input. *)
Fixpoint insert_sorted {A} (before : A → A → bool) (x : A) (l : list A)
    : list A :=
  match l with
  | [] => [x]
  | y :: r =>
      if before y x then y :: insert_sorted before x r else x :: y :: r
  end.

Definition stable_sort {A} (before : A → A → bool) (l : list A) : list A :=
  foldr (insert_sorted before) [] l.

End Py.

(** ** The ledger store (core/database.py) *)

Module Database.

Definition date := Z.

Record account := {
  account_name : string;
  total_capital : Q;
  cash_reserve : Q;
  conditional_reserve : Q
}.

Record transaction := {
  transaction_id : Z;
  transaction_date : date;
  tx_account_name : string;
  tx_stock_symbol : string;
  transaction_type : string;
  price : Q;
  shares : Z;
  commission : Q
}.

Record option_trade := {
  option_id : Z;
  opt_account_name : string;
  opt_stock_symbol : string;
  option_type : string;
  strike_price : Q;
  expiration_date : date;
  premium_per_share : Q;
  contracts : Z;
  open_date : date;
  close_date : option date;
  close_price_per_share : option Q;
  opening_fee : Q;
  closing_fee : Q;
  status : string
}.

Record cash_flow := {
  flow_id : Z;
  flow_date : date;
  cf_account_name : string;
  flow_type : string;
  related_transaction_id : option Z;
  related_option_id : option Z;
  cf_stock_symbol : option string;
  amount : Q;
  is_realized : bool;
  description : option string;
  auto_generated : bool
}.

Record position_target := {
  pt_stock_symbol : string;
  pt_account_name : string;
  target_type : string;
  target_percentage : option Q;
  target_amount : option Q;
  target_shares : option Z;
  max_percentage : option Q;
  max_amount : option Q;
  max_shares : option Z;
  priority : Z;
  rebalance_threshold : option Q;
  is_active : bool
}.

(** A row of [stock_price_history]; the table has
    [UNIQUE(stock_symbol, price_date)], so it is a finite map from the
    symbol to its rows indexed by date. *)
Record price_row := {
  close_price : Q;
  daily_return : option Q
}.

Record t := {
  accounts : list account;
  transactions : list transaction;
  options_trades : list option_trade;
  cash_flows : list cash_flow;
  position_targets : list position_target;
  stock_price_history : gmap string (gmap Z price_row)
}.

(** [if arg: query += ' AND col = ?'] *)
Definition sel_str (arg : option string) (col : string) : bool :=
  if Py.truthy_str arg then Py.str_eq col (default ""%string arg) else true.

Definition sel_upper (arg : option string) (col : string) : bool :=
  if Py.truthy_str arg then Py.str_eq col (Py.upper (default ""%string arg))
  else true.

Definition sel_from (arg : option date) (col : date) : bool :=
  match arg with Some d => (d <=? col)%Z | None => true end.

Definition sel_to (arg : option date) (col : date) : bool :=
  match arg with Some d => (col <=? d)%Z | None => true end.

(** [ORDER BY d DESC, id DESC] *)
Definition desc2 (d1 i1 d2 i2 : Z) : bool :=
  (d2 <? d1)%Z || ((d1 =? d2)%Z && (i2 <=? i1)%Z).

Definition tx_order (a b : transaction) : Prop :=
  desc2 (transaction_date a) (transaction_id a)
        (transaction_date b) (transaction_id b).

Definition opt_order (a b : option_trade) : Prop :=
  desc2 (open_date a) (option_id a) (open_date b) (option_id b).

Definition cf_order (a b : cash_flow) : Prop :=
  desc2 (flow_date a) (flow_id a) (flow_date b) (flow_id b).

#[global] Instance tx_order_dec a b : Decision (tx_order a b).
Proof. unfold tx_order; apply _. Defined.
#[global] Instance opt_order_dec a b : Decision (opt_order a b).
Proof. unfold opt_order; apply _. Defined.
#[global] Instance cf_order_dec a b : Decision (cf_order a b).
Proof. unfold cf_order; apply _. Defined.

Definition get_transactions (db : t) (account symbol : option string)
    (start_date end_date : option date) : list transaction :=
  merge_sort tx_order
    (filter (λ r : transaction,
               sel_str account (tx_account_name r)
               && sel_upper symbol (tx_stock_symbol r)
               && sel_from start_date (transaction_date r)
               && sel_to end_date (transaction_date r))
            (transactions db)).

Definition get_options_trades (db : t) (account symbol status_ : option string)
    : list option_trade :=
  merge_sort opt_order
    (filter (λ r : option_trade,
               sel_str account (opt_account_name r)
               && sel_upper symbol (opt_stock_symbol r)
               && sel_str status_ (status r))
            (options_trades db)).

Definition get_accounts (db : t) : list account := accounts db.

Definition get_cash_flows (db : t) (account flow_type_ : option string)
    (start_date end_date : option date) : list cash_flow :=
  merge_sort cf_order
    (filter (λ r : cash_flow,
               sel_str account (cf_account_name r)
               && sel_str flow_type_ (flow_type r)
               && sel_from start_date (flow_date r)
               && sel_to end_date (flow_date r))
            (cash_flows db)).

(** [cursor.lastrowid] of an [INTEGER PRIMARY KEY AUTOINCREMENT] insert. *)
Definition next_flow_id (db : t) : Z :=
  (foldr Z.max 0 (map flow_id (cash_flows db)) + 1)%Z.

(** [add_cash_flow]: appends one row and returns the store together with
    the new identifier. *)
Definition add_cash_flow (db : t) (fdate : date) (account ftype : string)
    (amt : Q) (symbol : option string) (rel_tx rel_opt : option Z)
    (realized : bool) (descr : option string) (auto : bool) : t * Z :=
  let fid := next_flow_id db in
  ({| accounts := accounts db;
      transactions := transactions db;
      options_trades := options_trades db;
      cash_flows := cash_flows db ++
        [{| flow_id := fid; flow_date := fdate; cf_account_name := account;
            flow_type := ftype; related_transaction_id := rel_tx;
            related_option_id := rel_opt; cf_stock_symbol := symbol;
            amount := amt; is_realized := realized; description := descr;
            auto_generated := auto |}];
      position_targets := position_targets db;
      stock_price_history := stock_price_history db |}, fid).

(** [update_option_close]: [UPDATE options_trades SET close_date,
    close_price_per_share, closing_fee, status WHERE option_id = ?]. *)
Definition update_option_close (db : t) (option_id_ : Z)
    (close_date_ : option date) (close_price : option Q) (closing_fee_ : Q)
    (status_ : string) : t :=
  {| accounts := accounts db;
     transactions := transactions db;
     options_trades :=
       map (λ o : option_trade,
              if (option_id o =? option_id_)%Z
              then {| option_id := option_id o;
                      opt_account_name := opt_account_name o;
                      opt_stock_symbol := opt_stock_symbol o;
                      option_type := option_type o;
                      strike_price := strike_price o;
                      expiration_date := expiration_date o;
                      premium_per_share := premium_per_share o;
                      contracts := contracts o;
                      open_date := open_date o;
                      close_date := close_date_;
                      close_price_per_share := close_price;
                      opening_fee := opening_fee o;
                      closing_fee := closing_fee_;
                      status := status_ |}
              else o)
           (options_trades db);
     cash_flows := cash_flows db;
     position_targets := position_targets db;
     stock_price_history := stock_price_history db |}.

(** [ORDER BY priority, stock_symbol] *)
Definition pt_order (a b : position_target) : Prop :=
  (priority a <? priority b)%Z
  || ((priority a =? priority b)%Z
      && String.leb (pt_stock_symbol a) (pt_stock_symbol b)).

#[global] Instance pt_order_dec a b : Decision (pt_order a b).
Proof. unfold pt_order; apply _. Defined.

Definition get_position_targets (db : t) (account : option string)
    (is_active_ : bool) : list position_target :=
  merge_sort pt_order
    (filter (λ r : position_target,
               Bool.eqb (is_active r) is_active_
               && sel_str account (pt_account_name r))
            (position_targets db)).

End Database.

(** ** String constants of the ledger (utils/constants.py) *)

Module Const.

Definition BUY : string := "买入".
Definition SELL : string := "卖出".
Definition SELL_CALL : string := "卖Call".
Definition SELL_PUT : string := "卖Put".
Definition BUY_CALL : string := "买Call".
Definition BUY_PUT : string := "买Put".
Definition OPEN : string := "持仓中".
Definition CLOSED : string := "已平仓".
Definition ASSIGNED : string := "被行权".
Definition EXPIRED : string := "到期作废".

Definition STOCK_BUY : string := "股票买入".
Definition STOCK_SELL : string := "股票卖出".
Definition COMMISSION : string := "佣金".
Definition DIVIDEND : string := "分红".
Definition PREMIUM_IN : string := "期权权利金收入".
Definition PREMIUM_OUT : string := "期权权利金支出".
Definition OPTION_CLOSE : string := "期权平仓".
Definition INTEREST : string := "利息".
Definition DEPOSIT : string := "存入".
Definition WITHDRAWAL : string := "取出".
Definition OTHER : string := "其他".

Definition PERCENT : string := "百分比".
Definition AMOUNT : string := "金额".
Definition SHARES : string := "股数".

Definition REDUCE : string := "减仓".
Definition OPEN_POSITION : string := "开仓".
Definition ADD : string := "加仓".
Definition HOLD : string := "持有".
Definition NO_TARGET : string := "未设置目标".

Definition short_types : list string := [SELL_CALL; SELL_PUT].

End Const.

(** ** Portfolio calculator (core/calculator.py) *)

Module Calculator.
Import Database.
#[local] Open Scope Q_scope.

(** *** groupby on [(stock_symbol, account_name)] *)

Definition key := (string * string)%type.

(** Lexicographic order on keys; pandas sorts the groups by key. *)
Definition key_leb (a b : key) : bool :=
  match String.compare a.1 b.1 with
  | Lt => true
  | Eq => String.leb a.2 b.2
  | Gt => false
  end.

Definition key_le (a b : key) : Prop := key_leb a b.

#[global] Instance key_le_dec a b : Decision (key_le a b).
Proof. unfold key_le; apply _. Defined.

Definition group_keys {A} (f : A → key) (l : list A) : list key :=
  merge_sort key_le (remove_dups (map f l)).

Definition group {A} (f : A → key) (k : key) (l : list A) : list A :=
  filter (λ x, f x = k) l.

Definition tx_key (x : transaction) : key :=
  (tx_stock_symbol x, tx_account_name x).

Definition opt_key (x : option_trade) : key :=
  (opt_stock_symbol x, opt_account_name x).

(** *** calculate_stock_summary *)

Definition signed_shares (x : transaction) : Z :=
  if Py.str_eq (transaction_type x) Const.BUY then shares x
  else (- shares x)%Z.

Definition signed_amount (x : transaction) : Q :=
  if Py.str_eq (transaction_type x) Const.BUY
  then - (price x * inject_Z (shares x) + commission x)
  else price x * inject_Z (shares x) - commission x.

(** One row of the aggregated frame, columns
    股票代码, 账户, 当前股数, 净现金流, 总交易股数, 总佣金. *)
Record agg_row := {
  agg_key : key;
  agg_shares : Z;
  agg_amount : Q;
  agg_traded : Z;
  agg_commission : Q
}.

(** The two share columns are int64: their sums wrap around. *)
Definition aggregate (k : key) (g : list transaction) : agg_row :=
  {| agg_key := k;
     agg_shares := Py.wrap64 (Py.sumZ (map signed_shares g));
     agg_amount := Py.sumQ (map signed_amount g);
     agg_traded := Py.wrap64 (Py.sumZ (map shares g));
     agg_commission := Py.sumQ (map commission g) |}.

(** A row of the stock summary; the columns added after the filter are
    平均成本, 总投入, 锁定股数, 可用股数. *)
Record stock_row := {
  sr_symbol : string;
  sr_account : string;
  current_shares : Z;
  net_cash_flow : Q;
  total_traded_shares : Z;
  total_commission : Q;
  avg_cost : Q;
  total_invested : Q;
  locked_shares : Z;
  available_shares : Z
}.

(** [cc_locked]: contracts of the open sold calls per key, times 100. *)
Definition cc_locked (options : list option_trade) : list (key * Z) :=
  let calls :=
    filter (λ o : option_trade, Py.str_eq (option_type o) Const.SELL_CALL)
           options in
  map (λ k, (k, (Py.sumZ (map contracts (group opt_key k calls)) * 100)%Z))
      (group_keys opt_key calls).

(** Left merge on the key followed by [fillna(0)]. *)
Definition merge_locked (locked : list (key * Z)) (k : key) : Z :=
  match list_find (λ e : key * Z, e.1 = k) locked with
  | Some (_, (_, v)) => v
  | None => 0%Z
  end.

Definition average_cost (a : agg_row) : Q :=
  if (0 <? agg_shares a)%Z
  then Qabs (agg_amount a) / inject_Z (agg_shares a)
  else 0.

Definition finish_row (locked : list (key * Z)) (a : agg_row) : stock_row :=
  let avg := average_cost a in
  let lk := merge_locked locked (agg_key a) in
  {| sr_symbol := (agg_key a).1;
     sr_account := (agg_key a).2;
     current_shares := agg_shares a;
     net_cash_flow := agg_amount a;
     total_traded_shares := agg_traded a;
     total_commission := agg_commission a;
     avg_cost := avg;
     total_invested := avg * inject_Z (agg_shares a);
     locked_shares := lk;
     available_shares := (agg_shares a - lk)%Z |}.

Definition calculate_stock_summary (db : t) (account : option string)
    : list stock_row :=
  let transactions := get_transactions db account None None None in
  let summary :=
    map (λ k, aggregate k (group tx_key k transactions))
        (group_keys tx_key transactions) in
  let summary := filter (λ a : agg_row, (0 <? agg_shares a)%Z) summary in
  let options := get_options_trades db None None (Some Const.OPEN) in
  let locked := match options with [] => [] | _ => cc_locked options end in
  map (finish_row locked) summary.

(** *** calculate_options_summary

    The columns 持仓天数 and 剩余天数 read the wall clock and are not part
    of the model. *)

Record option_row := {
  trade : option_trade;
  total_premium : Q;      (* 总权利金 *)
  close_amount : Q;       (* 平仓金额 *)
  net_pnl : Q;            (* 净盈亏 *)
  locked_capital : Q      (* 锁定资本 *)
}.

Definition premium_total (x : option_trade) : Q :=
  premium_per_share x * inject_Z (contracts x) * 100.

(** [close * contracts * 100 if pd.notna(close) else 0] *)
Definition close_total_notna (x : option_trade) : Q :=
  match close_price_per_share x with
  | Some c => c * inject_Z (contracts x) * 100
  | None => 0
  end.

Definition summary_net_pnl (x : option_trade) : Q :=
  if Py.str_in (option_type x) Const.short_types
  then premium_total x - close_total_notna x - opening_fee x - closing_fee x
  else close_total_notna x - premium_total x - opening_fee x - closing_fee x.

Definition csp_locked_capital (x : option_trade) : Q :=
  if Py.str_eq (option_type x) Const.SELL_PUT
     && Py.str_eq (status x) Const.OPEN
  then strike_price x * inject_Z (contracts x) * 100
  else 0.

Definition option_summary_row (x : option_trade) : option_row :=
  {| trade := x;
     total_premium := premium_total x;
     close_amount := close_total_notna x;
     net_pnl := summary_net_pnl x;
     locked_capital := csp_locked_capital x |}.

Definition calculate_options_summary (db : t) (account : option string)
    : list option_row :=
  map option_summary_row (get_options_trades db account None None).

(** *** calculate_account_overview

    [prices] is the outcome of [batch_get_prices]: [None] when the call
    raises (the bare [except] branch), otherwise the returned dictionary. *)

Record overview := {
  ov_total_capital : Q;          (* 总资金 *)
  ov_cash_reserve : Q;           (* 现金储备 *)
  ov_conditional_reserve : Q;    (* 条件性预留 *)
  stock_investment : Q;          (* 已投入股票 *)
  locked_cash : Q;               (* 期权锁定现金 *)
  option_premium_received : Q;   (* 期权权利金收入 *)
  available_cash : Q;            (* 可用现金 *)
  investable_capital : Q;        (* 可投资资金 *)
  available_for_investment : Q;  (* 可用投资额度 *)
  stock_position_pct : Q;        (* 股票仓位占比% *)
  option_locked_pct : Q;         (* 期权锁定占比% *)
  total_used_pct : Q;            (* 总使用资金占比% *)
  available_total : Q;           (* 可用总资金 *)
  holding_count : nat;           (* 持股数量 *)
  open_option_count : nat;       (* 期权持仓数 *)
  current_total_assets : Q;      (* 当前总资产 *)
  ov_net_cash_flow : Q;          (* 净现金流入 *)
  total_pnl : Q;                 (* 总盈亏 *)
  pnl_ratio : Q                  (* 总盈亏比% *)
}.

Definition net_flow_types : list string :=
  [Const.INTEREST; Const.DEPOSIT; Const.WITHDRAWAL].

(** Market value of one holding: the live price when the dictionary has a
    truthy one for the symbol, the cost basis otherwise. *)
Definition holding_value (current_prices : gmap string Q) (stock : stock_row)
    : Q :=
  match current_prices !! sr_symbol stock with
  | Some p =>
      if Py.truthy_num p then p * inject_Z (current_shares stock)
      else total_invested stock
  | None => total_invested stock
  end.

Definition calculate_account_overview (db : t) (account_name_ : string)
    (prices : option (gmap string Q)) : option overview :=
  match filter (λ a : account, Py.str_eq (account_name a) account_name_)
               (get_accounts db) with
  | [] => None
  | account_info :: _ =>
      let total_capital := total_capital account_info in
      let cash_reserve := cash_reserve account_info in
      let conditional_reserve := conditional_reserve account_info in
      let stocks := calculate_stock_summary db (Some account_name_) in
      let stock_investment := Py.sumQ (map total_invested stocks) in
      let options := calculate_options_summary db (Some account_name_) in
      let open_options :=
        filter (λ o : option_row, Py.str_eq (status (trade o)) Const.OPEN)
               options in
      let locked_cash := Py.sumQ (map locked_capital open_options) in
      let option_premium_received :=
        Py.sumQ (map total_premium
          (filter (λ o : option_row,
                     Py.str_in (option_type (trade o)) Const.short_types)
                  open_options)) in
      let used_capital := stock_investment + locked_cash in
      let available_cash := total_capital - used_capital in
      let investable_capital := total_capital - cash_reserve in
      let available_for_investment := investable_capital - used_capital in
      let pct (x : Q) : Q :=
        if Py.Qgtb total_capital 0 then x / total_capital * 100 else 0 in
      let cash_flows := get_cash_flows db (Some account_name_) None None None in
      let relevant_flows :=
        filter (λ f : cash_flow, Py.str_in (flow_type f) net_flow_types)
               cash_flows in
      let net_cash_flow := Py.sumQ (map amount relevant_flows) in
      let current_stock_value :=
        match stocks with
        | [] => 0
        | _ =>
            match prices with
            | Some current_prices =>
                Py.sumQ (map (holding_value current_prices) stocks)
            | None => stock_investment
            end
        end in
      let current_total_assets :=
        current_stock_value + available_cash + locked_cash in
      let total_pnl := current_total_assets - total_capital - net_cash_flow in
      let base_capital := total_capital + net_cash_flow in
      let pnl_ratio :=
        if Py.Qgtb base_capital 0 then total_pnl / base_capital * 100
        else 0 in
      Some {| ov_total_capital := total_capital;
              ov_cash_reserve := cash_reserve;
              ov_conditional_reserve := conditional_reserve;
              stock_investment := stock_investment;
              locked_cash := locked_cash;
              option_premium_received := option_premium_received;
              available_cash := available_cash;
              investable_capital := investable_capital;
              available_for_investment := available_for_investment;
              stock_position_pct := pct stock_investment;
              option_locked_pct := pct locked_cash;
              total_used_pct := pct (stock_investment + locked_cash);
              available_total := available_cash + conditional_reserve;
              holding_count := length stocks;
              open_option_count := length open_options;
              current_total_assets := current_total_assets;
              ov_net_cash_flow := net_cash_flow;
              total_pnl := total_pnl;
              pnl_ratio := pnl_ratio |}
  end.

(** *** calculate_realized_pnl *)

(** [(opt['close_price_per_share'] or 0) * opt['contracts'] * 100] on a
    row of the frame [options]: a missing close price reads as NaN when
    another row of the frame has one, and NaN is truthy. *)
Definition close_total_or0 (options : list option_trade) (opt : option_trade)
    : Py.fval :=
  Py.ftimes
    (Py.ftimes (Py.cell_or options close_price_per_share opt (Py.Fin 0))
               (Py.Fin (inject_Z (contracts opt))))
    (Py.Fin 100).

(** Body of the loop over the closed options. *)
Definition realized_pnl_of (options : list option_trade) (opt : option_trade)
    : Py.fval :=
  let premium :=
    Py.Fin (premium_per_share opt * inject_Z (contracts opt) * 100) in
  let close_amount := close_total_or0 options opt in
  let fees := Py.Fin (opening_fee opt + closing_fee opt) in
  if Py.str_in (option_type opt) Const.short_types
  then Py.fminus (Py.fminus premium close_amount) fees
  else Py.fminus (Py.fminus close_amount premium) fees.

(** [frame[frame['close_date'] >= str(d)]]: a missing close date compares
    false. *)
Definition closed_from (d : option date) (o : option_trade) : bool :=
  match d with
  | Some d => match close_date o with Some c => (d <=? c)%Z | None => false end
  | None => true
  end.

Definition closed_to (d : option date) (o : option_trade) : bool :=
  match d with
  | Some d => match close_date o with Some c => (c <=? d)%Z | None => false end
  | None => true
  end.

Record realized := {
  option_realized : Py.fval;   (* 期权已实现盈亏 *)
  stock_realized : Q;          (* 股票已实现盈亏 *)
  total_realized : Py.fval     (* 总已实现盈亏 *)
}.

Definition calculate_realized_pnl (db : t) (account symbol : option string)
    (start_date end_date : option date) : realized :=
  let options := get_options_trades db account symbol None in
  let closed_options :=
    filter (λ o : option_trade, negb (Py.str_eq (status o) Const.OPEN))
           options in
  let closed_options :=
    filter (λ o : option_trade, closed_from start_date o) closed_options in
  let closed_options :=
    filter (λ o : option_trade, closed_to end_date o) closed_options in
  let option_realized :=
    fold_left (λ acc opt, Py.fplus acc (realized_pnl_of options opt))
              closed_options (Py.Fin 0) in
  {| option_realized := option_realized;
     stock_realized := 0;
     total_realized := option_realized |}.

(** *** calculate_unrealized_pnl *)

(** A row of the frame with the added columns 当前价格, 市值, 未实现盈亏
    and 未实现盈亏%; [None] is a cell that is not a finite number (NaN
    for a symbol without price, NaN or an infinity after a division by a
    zero cost basis). *)
Record unrealized_row := {
  u_stock : stock_row;
  u_price : option Q;          (* 当前价格 *)
  u_market_value : option Q;   (* 市值 *)
  u_pnl : option Q;            (* 未实现盈亏 *)
  u_pnl_pct : option Q         (* 未实现盈亏% *)
}.

Definition unrealized_of (d : gmap string Q) (s : stock_row)
    : unrealized_row :=
  let price_ := d !! sr_symbol s in
  let value := (λ p, inject_Z (current_shares s) * p) <$> price_ in
  {| u_stock := s;
     u_price := price_;
     u_market_value := value;
     u_pnl := (λ v, v - total_invested s) <$> value;
     u_pnl_pct :=
       if Py.truthy_num (total_invested s)
       then (λ v, (v / total_invested s - 1) * 100) <$> value
       else None |}.

Definition calculate_unrealized_pnl (db : t) (account : option string)
    (current_prices : option (gmap string Q)) : list unrealized_row :=
  let stocks := calculate_stock_summary db account in
  match stocks, current_prices with
  | [], _ => []
  | _, None => []
  | _, Some d =>
      if bool_decide (d = ∅) then [] else map (unrealized_of d) stocks
  end.

End Calculator.

(** ** The stock summary in binary64 (core/calculator.py)

    The arithmetic of [calculate_stock_summary] over the kernel's
    binary64 floats instead of the rationals, to evaluate the rounding of
    the code on a concrete ledger.  A stored amount is the float nearest
    to its decimal value.  The locked shares are left out. *)

Module Binary64.
Import Database.

Definition float := PrimFloat.float.

(** An integer as a float, for the integers of a ledger (below 2^63 in
    absolute value). *)
Definition of_Z (z : Z) : float :=
  match z with
  | Z0 => PrimFloat.zero
  | Zpos _ => PrimFloat.of_uint63 (Uint63.of_Z z)
  | Zneg p => PrimFloat.opp (PrimFloat.of_uint63 (Uint63.of_Z (Zpos p)))
  end.

(** The float nearest to an amount. *)
Definition of_Q (q : Q) : float :=
  PrimFloat.div (of_Z (Qnum q)) (of_Z (Zpos (Qden q))).

Definition signed_amount (x : transaction) : float :=
  if Py.str_eq (transaction_type x) Const.BUY
  then PrimFloat.opp
         (PrimFloat.add (PrimFloat.mul (of_Q (price x)) (of_Z (shares x)))
                        (of_Q (commission x)))
  else PrimFloat.sub (PrimFloat.mul (of_Q (price x)) (of_Z (shares x)))
                     (of_Q (commission x)).

(** The sum of a float column in a group: pandas adds the values with
    Kahan's compensated summation. *)
Definition group_sum (l : list float) : float :=
  fst (fold_left
         (λ '(total, compensation) x,
            let y := PrimFloat.sub x compensation in
            let t := PrimFloat.add total y in
            (t, PrimFloat.sub (PrimFloat.sub t total) y))
         l (PrimFloat.zero, PrimFloat.zero)).

Record stock_row := {
  sr_symbol : string;
  sr_account : string;
  current_shares : Z;
  net_cash_flow : float;
  avg_cost : float;
  total_invested : float
}.

Definition finish_row (k : Calculator.key) (n : Z) (net : float) : stock_row :=
  let avg :=
    if (0 <? n)%Z then PrimFloat.div (PrimFloat.abs net) (of_Z n)
    else PrimFloat.zero in
  {| sr_symbol := k.1;
     sr_account := k.2;
     current_shares := n;
     net_cash_flow := net;
     avg_cost := avg;
     total_invested := PrimFloat.mul avg (of_Z n) |}.

Definition calculate_stock_summary (db : t) (account : option string)
    : list stock_row :=
  let transactions := get_transactions db account None None None in
  let summary :=
    map (λ k,
           let g := Calculator.group Calculator.tx_key k transactions in
           (k, Py.wrap64 (Py.sumZ (map Calculator.signed_shares g)),
            group_sum (map signed_amount g)))
        (Calculator.group_keys Calculator.tx_key transactions) in
  let summary :=
    filter (λ a : Calculator.key * Z * float, (0 <? a.1.2)%Z) summary in
  map (λ a : Calculator.key * Z * float, finish_row a.1.1 a.1.2 a.2) summary.

End Binary64.

(** ** Cash-flow manager (core/cash_flow.py) *)

Module CashFlow.
Import Database.
#[local] Open Scope Q_scope.

Section Generate.

(** Python's rendering of a float and of an integer inside an f-string;
    only the descriptions of the generated rows depend on them. *)
Variable str_of_float : Q → string.
Variable str_of_int : Z → string.

Definition find_transaction (db : t) (tid : Z) : option transaction :=
  head (filter (λ r : transaction, (transaction_id r =? tid)%Z)
               (transactions db)).

Definition trade_description (verb : string) (trans : transaction) : string :=
  (verb ++ " " ++ tx_stock_symbol trans ++ " "
   ++ str_of_int (shares trans) ++ "股 @ $"
   ++ str_of_float (price trans))%string.

(** [auto_generate_from_transaction]: returns the store after the inserts
    and the identifier of the trade row ([None] when the transaction does
    not exist). *)
Definition auto_generate_from_transaction (db : t) (transaction_id_ : Z)
    : t * option Z :=
  match find_transaction db transaction_id_ with
  | None => (db, None)
  | Some trans =>
      let total_amount := price trans * inject_Z (shares trans) in
      let '(flow_type_, amount_, description_) :=
        if Py.str_eq (transaction_type trans) Const.BUY
        then (Const.STOCK_BUY,
              - (total_amount + commission trans),
              trade_description "买入" trans)
        else (Const.STOCK_SELL,
              total_amount - commission trans,
              trade_description "卖出" trans) in
      let '(db1, flow_id_) :=
        add_cash_flow db (transaction_date trans) (tx_account_name trans)
          flow_type_ amount_ (Some (tx_stock_symbol trans))
          (Some transaction_id_) None true (Some description_) true in
      let db2 :=
        if Py.Qgtb (commission trans) 0
        then fst (add_cash_flow db1 (transaction_date trans)
                    (tx_account_name trans) Const.COMMISSION
                    (- commission trans) (Some (tx_stock_symbol trans))
                    (Some transaction_id_) None true
                    (Some (tx_stock_symbol trans ++ " 交易佣金")%string) true)
        else db1 in
      (db2, Some flow_id_)
  end.

End Generate.

(** The rows a call has appended to the cash-flow table. *)
Definition generated_rows (before after : t) : list cash_flow :=
  drop (length (cash_flows before)) (cash_flows after).

(** *** get_cash_flow_statement *)

Definition operating_types : list string :=
  [Const.DIVIDEND; Const.PREMIUM_IN; Const.PREMIUM_OUT; Const.OPTION_CLOSE;
   Const.INTEREST].
Definition investing_types : list string := [Const.STOCK_BUY; Const.STOCK_SELL].
Definition financing_types : list string := [Const.DEPOSIT; Const.WITHDRAWAL].

Definition str_le (a b : string) : Prop := String.leb a b.

#[global] Instance str_le_dec a b : Decision (str_le a b).
Proof. unfold str_le; apply _. Defined.

(** [frame.groupby('flow_type')['amount'].sum().to_dict()] *)
Definition group_sum (flows : list cash_flow) : list (string * Q) :=
  map (λ k, (k, Py.sumQ (map amount
               (filter (λ f : cash_flow, Py.str_eq (flow_type f) k) flows))))
      (merge_sort str_le (remove_dups (map flow_type flows))).

Record bucket := {
  detail : list (string * Q);   (* 明细 *)
  subtotal : Q                  (* 小计 *)
}.

Record statement := {
  operating : option bucket;    (* 经营活动现金流 *)
  investing : option bucket;    (* 投资活动现金流 *)
  financing : option bucket;    (* 融资活动现金流 *)
  commissions : option Q;       (* 佣金支出 *)
  net : Q                       (* 净现金流 *)
}.

Definition isin (types : list string) (flows : list cash_flow)
    : list cash_flow :=
  filter (λ f : cash_flow, Py.str_in (flow_type f) types) flows.

Definition make_bucket (types : list string) (flows : list cash_flow)
    : bucket :=
  let part := isin types flows in
  {| detail := group_sum part; subtotal := Py.sumQ (map amount part) |}.

Definition get_cash_flow_statement (db : t) (account : option string)
    (start_date end_date : option date) : statement :=
  let flows := get_cash_flows db account None start_date end_date in
  match flows with
  | [] => {| operating := None; investing := None; financing := None;
             commissions := None; net := 0 |}
  | _ =>
      let operating_ := make_bucket operating_types flows in
      let investing_ := make_bucket investing_types flows in
      let financing_ := make_bucket financing_types flows in
      let commission_total :=
        Py.sumQ (map amount
          (filter (λ f : cash_flow, Py.str_eq (flow_type f) Const.COMMISSION)
                  flows)) in
      {| operating := Some operating_;
         investing := Some investing_;
         financing := Some financing_;
         commissions := Some commission_total;
         net := subtotal operating_ + subtotal investing_
                + subtotal financing_ + commission_total |}
  end.

(** *** auto_generate_from_option *)

(** Outcome of an insert: [flow_date] is [NOT NULL] in the schema, so a
    row without date is refused with [sqlite3.IntegrityError]. *)
Inductive stored (A : Type) := Stored (a : A) | IntegrityError.
Arguments Stored {A} a.
Arguments IntegrityError {A}.

Section GenerateOption.

Variable str_of_float : Q → string.
Variable str_of_int : Z → string.

Definition find_option (db : t) (oid : Z) : option option_trade :=
  head (filter (λ r : option_trade, (option_id r =? oid)%Z)
               (options_trades db)).

Definition option_description (verb : string) (o : option_trade) : string :=
  (verb ++ " " ++ opt_stock_symbol o ++ " " ++ option_type o ++ " $"
   ++ str_of_float (strike_price o) ++ " "
   ++ str_of_int (contracts o) ++ "张")%string.

(** [auto_generate_from_option]: one row at the opening (the premium
    net of the opening fee) or at the close (the close premium and the
    closing fee), dated by the open or the close date of the trade. *)
Definition auto_generate_from_option (db : t) (option_id_ : Z)
    (is_close : bool) : stored (t * option Z) :=
  match find_option db option_id_ with
  | None => Stored (db, None)
  | Some o =>
      let contracts_ := contracts o in
      let premium := premium_per_share o * inject_Z contracts_ * 100 in
      let short := Py.str_in (option_type o) Const.short_types in
      let '(flow_type_, amount_, description_, flow_date_) :=
        if negb is_close then
          if short
          then (Const.PREMIUM_IN, premium - opening_fee o,
                option_description "卖出" o, Some (open_date o))
          else (Const.PREMIUM_OUT, - (premium + opening_fee o),
                option_description "买入" o, Some (open_date o))
        else
          let close_premium :=
            Py.or_zero (close_price_per_share o) * inject_Z contracts_ * 100 in
          if short
          then (Const.OPTION_CLOSE, - (close_premium + closing_fee o),
                option_description "平仓" o, close_date o)
          else (Const.OPTION_CLOSE, close_premium - closing_fee o,
                option_description "平仓" o, close_date o) in
      match flow_date_ with
      | None => IntegrityError
      | Some d =>
          let '(db1, flow_id_) :=
            add_cash_flow db d (opt_account_name o) flow_type_ amount_
              (Some (opt_stock_symbol o)) None (Some option_id_) true
              (Some description_) true in
          Stored (db1, Some flow_id_)
      end
  end.

End GenerateOption.

(** *** calculate_realized_vs_unrealized *)




End CashFlow.

(** ** Correlation analyzer (core/correlation.py) *)

Module Correlation.
Import Database.
#[local] Open Scope Q_scope.

(** A float cell of a frame: a finite value or NaN. *)
Abbreviation fval := Py.fval.
Abbreviation Fin := Py.Fin.
Abbreviation NaN := Py.NaN.

Definition fabs (x : fval) : fval :=
  match x with Fin q => Fin (Qabs q) | NaN => NaN end.

(** Comparisons with a finite bound; every comparison with NaN is false. *)
Definition fge (x : fval) (b : Q) : bool :=
  match x with Fin q => Py.Qgeb q b | NaN => false end.
Definition fgt (x : fval) (b : Q) : bool :=
  match x with Fin q => Py.Qgtb q b | NaN => false end.

Definition fmul (w : Q) (x : fval) : fval :=
  match x with Fin q => Fin (w * q) | NaN => NaN end.
Definition fadd (x y : fval) : fval :=
  match x, y with Fin a, Fin b => Fin (a + b) | _, _ => NaN end.
Definition fdiv (x : fval) (d : Q) : fval :=
  match x with Fin q => Fin (q / d) | NaN => NaN end.
Definition one_minus (x : fval) : fval :=
  match x with Fin q => Fin (1 - q) | NaN => NaN end.

Definition finite (x : fval) : option Q :=
  match x with Fin q => Some q | NaN => None end.

(** [Series.mean()], [Series.max()] and [Series.min()] skip NaN and are
    NaN on a series without finite values. *)
Definition nanmean (l : list fval) : fval :=
  match omap finite l with
  | [] => NaN
  | xs => Fin (Py.sumQ xs / inject_Z (Z.of_nat (length xs)))
  end.

Definition Qmax (a b : Q) : Q := if Py.Qgtb b a then b else a.
Definition Qmin (a b : Q) : Q := if Py.Qltb b a then b else a.

Definition nanmax (l : list fval) : fval :=
  match omap finite l with
  | [] => NaN
  | x :: xs => Fin (foldl Qmax x xs)
  end.

Definition nanmin (l : list fval) : fval :=
  match omap finite l with
  | [] => NaN
  | x :: xs => Fin (foldl Qmin x xs)
  end.

(** A correlation frame: its labels (index and columns coincide) and its
    cells. *)
Record corr_matrix := {
  columns : list string;
  entry : string → string → fval
}.

(** Outcome of code that may raise [KeyError]. *)
Inductive exn (A : Type) := Return (a : A) | KeyError (label : string).
Arguments Return {A} a.
Arguments KeyError {A} label.

#[global] Instance exn_ret : MRet exn := λ A a, Return a.
#[global] Instance exn_bind : MBind exn := λ A B f x,
  match x with Return a => f a | KeyError l => KeyError l end.

(** [corr_matrix.loc[r, c]]: the column is looked up first, then the
    row. *)
Definition loc (m : corr_matrix) (r c : string) : exn fval :=
  if bool_decide (c ∈ columns m) then
    if bool_decide (r ∈ columns m) then Return (entry m r c)
    else KeyError r
  else KeyError c.

Definition enumerate {A} (l : list A) : list (nat * A) :=
  imap (λ i x, (i, x)) l.

(** The columns of [frame.where(triu(ones, k=1))] over the labels [ls]:
    column [j] keeps the rows above the diagonal. *)
Definition upper_columns (ls : list string) (e : string → string → fval)
    : list (list fval) :=
  imap (λ j cj, map (λ ri, e ri cj) (take j ls)) ls.

(** [frame.where(mask).mean().mean()] *)
Definition upper_mean (ls : list string) (e : string → string → fval) : fval :=
  nanmean (map nanmean (upper_columns ls e)).

Definition upper_max (ls : list string) (e : string → string → fval) : fval :=
  nanmax (map nanmax (upper_columns ls e)).

Definition upper_min (ls : list string) (e : string → string → fval) : fval :=
  nanmin (map nanmin (upper_columns ls e)).

(** *** identify_correlation_clusters *)

Record cluster := {
  symbols : list string;
  avg_correlation : fval;
  size_ : nat
}.

(** One step of the inner loop over [enumerate(symbols)]. *)
Definition absorb (m : corr_matrix) (threshold : Q) (i : nat) (sym1 : string)
    (st : gset string * list string) (e : nat * string)
    : exn (gset string * list string) :=
  let '(visited, cluster_) := st in
  let '(j, sym2) := e in
  if negb (i =? j)%nat && negb (bool_decide (sym2 ∈ visited)) then
    c ← loc m sym1 sym2 ;
    if fge (fabs c) threshold
    then Return (visited ∪ {[sym2]}, cluster_ ++ [sym2])
    else Return (visited, cluster_)
  else Return (visited, cluster_).

Fixpoint foldM {A S} (f : S → A → exn S) (l : list A) (s : S) : exn S :=
  match l with
  | [] => Return s
  | x :: r => s' ← f s x ; foldM f r s'
  end.

(** One step of the outer loop. *)
Definition grow (m : corr_matrix) (threshold : Q)
    (st : gset string * list cluster) (e : nat * string)
    : exn (gset string * list cluster) :=
  let '(visited, clusters) := st in
  let '(i, sym1) := e in
  if bool_decide (sym1 ∈ visited) then Return (visited, clusters)
  else
    '(visited', cluster_) ←
      foldM (absorb m threshold i sym1) (enumerate (columns m))
            (visited ∪ {[sym1]}, [sym1]) ;
    if (1 <? length cluster_)%nat
    then Return (visited',
                 clusters ++
                 [{| symbols := cluster_;
                     avg_correlation := upper_mean cluster_ (entry m);
                     size_ := length cluster_ |}])
    else Return (visited', clusters).

Definition identify_correlation_clusters (corr : option corr_matrix)
    (threshold : Q) : exn (list cluster) :=
  match corr with
  | None => Return []
  | Some m =>
      st ← foldM (grow m threshold) (enumerate (columns m)) (∅, []) ;
      Return st.2
  end.

(** *** calculate_effective_n *)

(** [{sym: 1/n for sym in holdings}] *)
Definition equal_weights (holdings : list string) : gmap string Q :=
  list_to_map (map (λ sym, (sym, 1 / inject_Z (Z.of_nat (length holdings))))
                   holdings).

(** The pairs visited by the two nested loops under [if i < j]. *)
Definition upper_pairs (holdings : list string) : list (string * string) :=
  flat_map (λ '(i, sym1),
              omap (λ '(j, sym2),
                      if (i <? j)%nat then Some (sym1, sym2) else None)
                   (enumerate holdings))
           (enumerate holdings).

Definition weigh (m : corr_matrix) (weights : gmap string Q)
    (st : fval * Q) (p : string * string) : exn (fval * Q) :=
  let '(weighted_corr, total_weight) := st in
  let w := default 0 (weights !! p.1) * default 0 (weights !! p.2) in
  c ← loc m p.1 p.2;
  Return (fadd weighted_corr (fmul w (fabs c)), total_weight + w).

(** [max(1, x)]: the first argument wins unless the second is greater. *)
Definition max1 (x : fval) : Q :=
  match x with
  | Fin q => if Py.Qgtb q 1 then q else 1
  | NaN => 1
  end.

Definition calculate_effective_n (holdings : list string)
    (corr : option corr_matrix) (weights : option (gmap string Q)) : exn Q :=
  let n := length holdings in
  if (n =? 0)%nat then Return 0
  else
    let weights := default (equal_weights holdings) weights in
    let hhi := Py.sumQ (map (λ kw : string * Q, kw.2 * kw.2)
                            (map_to_list weights)) in
    let basic_effective_n :=
      if Py.Qgtb hhi 0 then 1 / hhi else inject_Z (Z.of_nat n) in
    adjusted_effective_n ←
      match corr with
      | Some m =>
          '(weighted_corr, total_weight) ←
            foldM (weigh m weights) (upper_pairs holdings) (Fin 0, 0);
          if Py.Qgtb total_weight 0 then
            let avg_corr := fdiv weighted_corr total_weight in
            Return (fmul basic_effective_n (one_minus avg_corr))
          else Return (Fin basic_effective_n)
      | None => Return (Fin basic_effective_n)
      end;
    Return (max1 adjusted_effective_n).

(** *** calculate_diversification_score *)

Record details := {
  count_score : Z;
  corr_score : Z;
  effective_score : Z;
  sector_score : Z;
  holding_count : nat;
  d_avg_correlation : option fval;
  effective_n : Q;
  unique_sectors : nat
}.

Record diversification := {
  score : Z;
  rating : string;
  details_ : option details;
  recommendations : list string
}.

Definition NO_HOLDINGS : string := "无持仓".
Definition EXCELLENT : string := "优秀".
Definition GOOD : string := "良好".
Definition FAIR : string := "一般".
Definition POOR : string := "较差".

Definition rec_add : string := "添加投资标的".
Definition rec_count : string := "建议增加持股数量至5只以上".
Definition rec_corr : string := "持仓相关性较高，建议增加低相关性标的".
Definition rec_effective : string := "有效持股数较低，可能存在过度集中".
Definition rec_sector : string := "板块集中度较高，建议增加其他板块投资".

Definition score_count (n : nat) : Z :=
  if (15 <=? n)%nat then 25
  else if (10 <=? n)%nat then 20
  else if (5 <=? n)%nat then 15
  else if (3 <=? n)%nat then 10
  else 5.

Definition score_corr (avg_corr : fval) : Z :=
  if fge avg_corr (8 # 10) then 5
  else if fge avg_corr (6 # 10) then 15
  else if fge avg_corr (4 # 10) then 25
  else 35.

Definition score_effective (effective_ratio : Q) : Z :=
  if Py.Qgeb effective_ratio (8 # 10) then 20
  else if Py.Qgeb effective_ratio (6 # 10) then 15
  else if Py.Qgeb effective_ratio (4 # 10) then 10
  else 5.

Definition score_sector (unique : nat) : Z :=
  if (5 <=? unique)%nat then 20
  else if (3 <=? unique)%nat then 15
  else if (2 <=? unique)%nat then 10
  else 5.

Definition rate (total_score : Z) : string :=
  if (80 <=? total_score)%Z then EXCELLENT
  else if (60 <=? total_score)%Z then GOOD
  else if (40 <=? total_score)%Z then FAIR
  else POOR.

(** [[sector_data.get(sym) for sym in holdings if sector_data.get(sym)]] *)
Definition sectors_of (sector_data : gmap string string)
    (holdings : list string) : list string :=
  omap (λ sym, match sector_data !! sym with
               | Some s => if Py.truthy_str (Some s) then Some s else None
               | None => None
               end) holdings.

Definition when (b : bool) (s : string) : list string :=
  if b then [s] else [].

Definition calculate_diversification_score (holdings : list string)
    (corr : option corr_matrix) (weights : option (gmap string Q))
    (sector_data : option (gmap string string)) : exn diversification :=
  let n := length holdings in
  if (n =? 0)%nat then
    Return {| score := 0; rating := NO_HOLDINGS; details_ := None;
              recommendations := [rec_add] |}
  else
    let count_score_ := score_count n in
    let avg_corr :=
      match corr with
      | Some m => Some (upper_mean (columns m) (entry m))
      | None => None
      end in
    let corr_score_ :=
      match avg_corr with Some a => score_corr a | None => 35%Z end in
    effective_n_ ← calculate_effective_n holdings corr weights;
    let effective_ratio :=
      if (0 <? n)%nat then effective_n_ / inject_Z (Z.of_nat n) else 0 in
    let effective_score_ := score_effective effective_ratio in
    let '(sector_score_, unique_sectors_) :=
      match sector_data with
      | Some sd =>
          if bool_decide (sd = ∅) then (10%Z, 0%nat)
          else
            let unique := length (remove_dups (sectors_of sd holdings)) in
            (score_sector unique, unique)
      | None => (10%Z, 0%nat)
      end in
    let total_score :=
      (count_score_ + corr_score_ + effective_score_ + sector_score_)%Z in
    let recommendations_ :=
      when (n <? 5)%nat rec_count
      ++ when (match avg_corr with Some a => fgt a (6 # 10) | None => false end)
              rec_corr
      ++ when (Py.Qltb effective_ratio (5 # 10)) rec_effective
      ++ when (unique_sectors_ <? 3)%nat rec_sector in
    Return {| score := total_score;
              rating := rate total_score;
              details_ := Some {| count_score := count_score_;
                                  corr_score := corr_score_;
                                  effective_score := effective_score_;
                                  sector_score := sector_score_;
                                  holding_count := n;
                                  d_avg_correlation := avg_corr;
                                  effective_n := effective_n_;
                                  unique_sectors := unique_sectors_ |};
              recommendations := recommendations_ |}.

(** *** get_high_correlation_pairs *)

Record high_pair := {
  symbol1 : string;
  symbol2 : string;
  correlation : fval
}.

(** Body of the two nested loops under [if i < j]. *)
Definition collect_pair (m : corr_matrix) (threshold : Q)
    (pairs : list high_pair) (p : string * string) : exn (list high_pair) :=
  corr ← loc m p.1 p.2;
  if fge (fabs corr) threshold
  then Return (pairs ++ [{| symbol1 := p.1; symbol2 := p.2;
                            correlation := corr |}])
  else Return pairs.

(** [x < y] on floats; false when either is NaN. *)
Definition flt (x y : fval) : bool :=
  match x, y with
  | Fin a, Fin b => Py.Qltb a b
  | _, _ => false
  end.

(** [sorted(pairs, key=lambda x: abs(x['correlation']), reverse=True)]:
    a stable sort in which a pair moves in front of another one only when
    its key is strictly greater. *)
Definition pair_before (a b : high_pair) : bool :=
  flt (fabs (correlation b)) (fabs (correlation a)).

Definition get_high_correlation_pairs (corr : option corr_matrix)
    (threshold : Q) : exn (list high_pair) :=
  match corr with
  | None => Return []
  | Some m =>
      pairs ← foldM (collect_pair m threshold) (upper_pairs (columns m)) [];
      Return (Py.stable_sort pair_before pairs)
  end.

(** *** calculate_correlation_matrix *)

Section Matrix.

(** [DataFrame.corr()] on two aligned columns (Pearson's coefficient,
    NaN for a constant column); the function is pandas' own. *)
Variable pearson : list Q → list Q → fval.

(** The query on [stock_price_history] for one symbol, as the series
    [df.set_index('price_date')['daily_return']]. *)
Definition query_returns (db : t) (symbol : string)
    (start_date end_date : date) : gmap Z (option Q) :=
  daily_return <$>
    filter (λ kv : Z * price_row, (start_date ≤ kv.1 ∧ kv.1 ≤ end_date)%Z)
           (default ∅ (stock_price_history db !! symbol)).

(** [d[k] = v] on an insertion-ordered dictionary. *)
Definition dict_set {V} (d : list (string * V)) (k : string) (v : V)
    : list (string * V) :=
  if bool_decide (k ∈ d.*1)
  then map (λ e : string * V, if bool_decide (e.1 = k) then (k, v) else e) d
  else d ++ [(k, v)].

(** Body of the loop over the holdings: a symbol without rows in the
    window is left out. *)
Definition collect_step (db : t) (start_date end_date : date)
    (returns_data : list (string * gmap Z (option Q))) (symbol : string)
    : list (string * gmap Z (option Q)) :=
  let df := query_returns db symbol start_date end_date in
  if bool_decide (df = ∅) then returns_data
  else dict_set returns_data symbol df.

Definition collect_returns (db : t) (holdings : list string)
    (start_date end_date : date) : list (string * gmap Z (option Q)) :=
  foldl (collect_step db start_date end_date) [] holdings.

(** Index of [pd.DataFrame(returns_data)]: the sorted union of the
    indexes of the series. *)
Definition frame_index (data : list (string * gmap Z (option Q))) : list Z :=
  merge_sort Z.le (elements (⋃ (dom <$> data.*2) : gset Z)).

(** A cell of the frame: NaN ([None]) where the series has no row at the
    date or a NULL return. *)
Definition cell (s : gmap Z (option Q)) (d : Z) : option Q := mjoin (s !! d).

(** [returns_df.dropna()]: the dates whose row has no NaN. *)
Definition dropna (data : list (string * gmap Z (option Q))) : list Z :=
  filter (λ d, forallb (λ e : string * gmap Z (option Q),
                          bool_decide (is_Some (cell e.2 d))) data)
         (frame_index data).

Definition column_values (s : gmap Z (option Q)) (dates : list Z) : list Q :=
  omap (cell s) dates.

Record stats := {
  max_correlation : fval;
  min_correlation : fval;
  st_avg_correlation : fval;
  lookback_period : Z;
  calculation_date : date;
  st_symbols : list string
}.

Definition lookup_series (data : list (string * gmap Z (option Q)))
    (k : string) : option (gmap Z (option Q)) :=
  snd <$> head (filter (λ e : string * gmap Z (option Q), e.1 = k) data).

Definition corr_of (data : list (string * gmap Z (option Q)))
    (dates : list Z) : corr_matrix :=
  {| columns := data.*1;
     entry := λ r c,
       match lookup_series data r, lookup_series data c with
       | Some sr, Some sc =>
           pearson (column_values sr dates) (column_values sc dates)
       | _, _ => NaN
       end |}.

(** [today] is [datetime.now().date()]; the result [None] stands for the
    pair [(None, None)]. *)
Definition calculate_correlation_matrix (db : t) (holdings : list string)
    (lookback_days : Z) (today : date) : option (corr_matrix * stats) :=
  if (length holdings <? 2)%nat then None
  else
    let end_date := today in
    let start_date := (end_date - lookback_days)%Z in
    let returns_data := collect_returns db holdings start_date end_date in
    if (length returns_data <? 2)%nat then None
    else
      let returns_df := dropna returns_data in
      if (length returns_df <? 10)%nat then None
      else
        let corr := corr_of returns_data returns_df in
        Some (corr,
              {| max_correlation := upper_max (columns corr) (entry corr);
                 min_correlation := upper_min (columns corr) (entry corr);
                 st_avg_correlation := upper_mean (columns corr) (entry corr);
                 lookback_period := lookback_days;
                 calculation_date := today;
                 st_symbols := holdings |}).

End Matrix.

End Correlation.

(** ** Attribution (core/attribution.py) *)

Module Attribution.
Import Database.
#[local] Open Scope Q_scope.

(** Body of the loop over the options closed in the period, rows of the
    frame [options]. *)
Definition strategy_pnl_of (options : list option_trade) (opt : option_trade)
    : Py.fval :=
  let premium :=
    Py.Fin (premium_per_share opt * inject_Z (contracts opt) * 100) in
  let close_amount :=
    Py.ftimes
      (Py.ftimes (Py.cell_or options close_price_per_share opt (Py.Fin 0))
                 (Py.Fin (inject_Z (contracts opt))))
      (Py.Fin 100) in
  let fees := Py.Fin (opening_fee opt + closing_fee opt) in
  if Py.str_in (option_type opt) Const.short_types
  then Py.fminus (Py.fminus premium close_amount) fees
  else Py.fminus (Py.fminus close_amount premium) fees.

Definition closed_in_period (start_date end_date : date) (o : option_trade)
    : bool :=
  negb (Py.str_eq (status o) Const.OPEN)
  && Calculator.closed_from (Some start_date) o
  && Calculator.closed_to (Some end_date) o.

Definition _calculate_strategy_alpha (db : t) (account : string)
    (start_date end_date : date) : Py.fval :=
  let options := get_options_trades db (Some account) None None in
  match options with
  | [] => Py.Fin 0
  | _ =>
      let closed :=
        filter (λ o : option_trade, closed_in_period start_date end_date o)
               options in
      match closed with
      | [] => Py.Fin 0
      | _ =>
          let total_pnl :=
            fold_left (λ acc opt, Py.fplus acc (strategy_pnl_of options opt))
                      closed (Py.Fin 0) in
          match filter (λ a : Database.account,
                          Py.str_eq (account_name a) account)
                       (get_accounts db) with
          | [] => Py.Fin 0
          | account_info :: _ =>
              let total_capital := total_capital account_info in
              if Py.Qgtb total_capital 0
              then Py.fover total_pnl (Py.Fin total_capital)
              else Py.Fin 0
          end
      end
  end.

End Attribution.

(** ** Position manager (decision/position_manager.py) *)

Module PositionManager.
Import Database.
#[local] Open Scope Q_scope.

(** Python's [round(x)]: to the nearest integer, ties to the even one. *)
Definition py_round (x : Q) : Z :=
  let f := Qfloor x in
  let r := x - inject_Z f in
  if Py.Qltb r (1 # 2) then f
  else if Py.Qgtb r (1 # 2) then (f + 1)%Z
  else if Z.even f then f else (f + 1)%Z.

(** [target[col] or d] on one of the two share columns of the frame of
    targets, an integer column that turns float64 as soon as it mixes
    NULL and values; the result [None] is NaN. *)
Definition or_z (targets : list position_target)
    (col : position_target → option Z) (target : position_target) (d : Z)
    : option Z :=
  match col target with
  | Some v => Some (if (v =? 0)%Z then d else v)
  | None => if Py.float_column col targets then None else Some d
  end.

(** A share count as a float. *)
Definition of_count (n : option Z) : Py.fval :=
  match n with Some n => Py.Fin (inject_Z n) | None => Py.NaN end.

(** A holding with the price columns 当前价格, 当前市值, 盈亏金额, 盈亏%. *)
Record priced_stock := {
  stock : Calculator.stock_row;
  ps_price : option Q;
  ps_market_value : option Q;
  ps_pnl_amount : option Q;
  ps_pnl_pct : option Q
}.

Definition truthy_cell (x : option Q) : bool :=
  match x with Some v => Py.truthy_num v | None => false end.

Definition dict_truthy (d : gmap string Q) : bool := negb (bool_decide (d = ∅)).

Definition price_stock (current_prices : gmap string Q)
    (x : Calculator.stock_row) : priced_stock :=
  let price_ :=
    if dict_truthy current_prices
    then current_prices !! Calculator.sr_symbol x else None in
  let value :=
    if truthy_cell price_
    then (λ p, p * inject_Z (Calculator.current_shares x)) <$> price_
    else None in
  let pnl :=
    if truthy_cell value
    then (λ v, v - Calculator.total_invested x) <$> value else None in
  let pct :=
    if Py.truthy_num (Calculator.total_invested x)
    then (λ g, g / Calculator.total_invested x * 100) <$> pnl else None in
  {| stock := x; ps_price := price_; ps_market_value := value;
     ps_pnl_amount := pnl; ps_pnl_pct := pct |}.

Record analysis_row := {
  a_symbol : string;               (* 股票代码 *)
  a_current_shares : Z;            (* 当前股数 *)
  a_current_amount : Q;            (* 当前金额 *)
  a_avg_cost : Q;                  (* 平均成本 *)
  a_current_price : option Q;      (* 当前价格 *)
  a_market_value : option Q;       (* 当前市值 *)
  a_pnl_amount : option Q;         (* 盈亏金额 *)
  a_pnl_pct : option Q;            (* 盈亏% *)
  a_target_type : option string;   (* 目标类型 *)
  a_target_amount : option Py.fval;      (* 目标金额 *)
  a_max_amount : option Py.fval;         (* 最大限额 *)
  a_deviation_amount : option Py.fval;   (* 偏离金额 *)
  a_deviation_pct : option Py.fval;      (* 偏离% *)
  a_threshold : option Py.fval;          (* 再平衡阈值% *)
  needs_rebalance : bool;          (* 需要再平衡 *)
  action : option string;          (* 建议操作 *)
  action_shares : option Z;        (* 建议股数 *)
  a_priority : option Z            (* 优先级 *)
}.

(** Outcome of code that may divide by a zero price or convert NaN to an
    integer. *)
Inductive raising (A : Type) := Ok (a : A) | ZeroDivisionError | ValueError.
Arguments Ok {A} a.
Arguments ZeroDivisionError {A}.
Arguments ValueError {A}.

#[global] Instance raising_ret : MRet raising := λ A a, Ok a.
#[global] Instance raising_bind : MBind raising := λ A B f x,
  match x with
  | Ok a => f a
  | ZeroDivisionError => ZeroDivisionError
  | ValueError => ValueError
  end.

Fixpoint mapR {A B} (f : A → raising B) (l : list A) : raising (list B) :=
  match l with
  | [] => Ok []
  | x :: r => y ← f x; ys ← mapR f r; Ok (y :: ys)
  end.

(** [target['max_shares'] or int(target_shares_value * 1.5)]: the
    conversion is evaluated only for a falsy cell (0 or None), and
    [int] of NaN raises [ValueError]. *)
Definition max_shares_or (targets : list position_target)
    (target : position_target) (target_shares_value : option Z)
    : raising (option Z) :=
  let fallback :=
    match target_shares_value with
    | Some n => Ok (Some (Z.quot (n * 3) 2))
    | None => ValueError
    end in
  match max_shares target with
  | Some v => if (v =? 0)%Z then fallback else Ok (Some v)
  | None => if Py.float_column max_shares targets then Ok None else fallback
  end.

(** Target and ceiling in dollars, by target type; [targets] is the
    frame the row [target] is read from. *)
Definition target_amounts (targets : list position_target)
    (total_capital_ : Q) (current_prices : gmap string Q) (avg_cost_ : Q)
    (target : position_target) : raising (Py.fval * Py.fval) :=
  if Py.str_eq (target_type target) Const.PERCENT then
    Ok (Py.fover
          (Py.ftimes (Py.Fin total_capital_)
             (Py.cell_or targets target_percentage target (Py.Fin 0)))
          (Py.Fin 100),
        Py.fover
          (Py.ftimes (Py.Fin total_capital_)
             (Py.cell_or targets max_percentage target (Py.Fin 100)))
          (Py.Fin 100))
  else if Py.str_eq (target_type target) Const.SHARES then
    let current_price :=
      if dict_truthy current_prices
      then current_prices !! pt_stock_symbol target else Some avg_cost_ in
    let target_shares_value := or_z targets target_shares target 0 in
    max_shares_value ← max_shares_or targets target target_shares_value;
    let target_amount_ :=
      if truthy_cell current_price
      then Py.ftimes (of_count target_shares_value)
                     (Py.Fin (default 0 current_price))
      else Py.Fin 0 in
    let max_amount_ :=
      if truthy_cell current_price
      then Py.ftimes (of_count max_shares_value)
                     (Py.Fin (default 0 current_price))
      else Py.ftimes target_amount_ (Py.Fin (3 # 2)) in
    Ok (target_amount_, max_amount_)
  else
    let target_amount_ := Py.cell_or targets target_amount target (Py.Fin 0) in
    Ok (target_amount_,
        Py.cell_or targets max_amount target
          (Py.ftimes target_amount_ (Py.Fin (3 # 2)))).

(** Suggested action and share count.  Every comparison with NaN is
    false, so a NaN difference falls through to 持有. *)
Definition suggest (targets : list position_target)
    (current_prices : gmap string Q) (target : position_target)
    (current_shares_ : Z) (avg_cost_ : Q) (deviation_amount : Py.fval)
    : raising (string * Z) :=
  let opening := if (current_shares_ =? 0)%Z then Const.OPEN_POSITION
                 else Const.ADD in
  if Py.str_eq (target_type target) Const.SHARES then
    match or_z targets target_shares target 0 with
    | Some target_shares_value =>
        let shares_diff := (current_shares_ - target_shares_value)%Z in
        if (0 <? shares_diff)%Z then Ok (Const.REDUCE, shares_diff)
        else if (shares_diff <? 0)%Z then Ok (opening, Z.abs shares_diff)
        else Ok (Const.HOLD, 0%Z)
    | None => Ok (Const.HOLD, 0%Z)
    end
  else
    let by_cost (x : Q) : Z :=
      if Py.Qgtb avg_cost_ 0 then py_round (x / avg_cost_) else 0%Z in
    match deviation_amount with
    | Py.Fin deviation_amount =>
        if Py.Qgtb deviation_amount 0
        then Ok (Const.REDUCE, by_cost deviation_amount)
        else if Py.Qltb deviation_amount 0 then
          match (if dict_truthy current_prices
                 then current_prices !! pt_stock_symbol target else None) with
          | Some p =>
              if Py.truthy_num p
              then Ok (opening, py_round (Qabs deviation_amount / p))
              else ZeroDivisionError
          | None => Ok (opening, by_cost (Qabs deviation_amount))
          end
        else Ok (Const.HOLD, 0%Z)
    | Py.NaN => Ok (Const.HOLD, 0%Z)
    end.

(** Body of the loop over the targets. *)
Definition analyze_target (targets : list position_target)
    (total_capital_ : Q) (current_prices : gmap string Q)
    (stocks : list priced_stock) (target : position_target)
    : raising analysis_row :=
  let symbol := pt_stock_symbol target in
  let current_holding :=
    head (filter (λ s : priced_stock,
                    Py.str_eq (Calculator.sr_symbol (stock s)) symbol)
                 stocks) in
  let '(current_amount, current_shares_, avg_cost_) :=
    match current_holding with
    | Some h => (Calculator.total_invested (stock h),
                 Calculator.current_shares (stock h),
                 Calculator.avg_cost (stock h))
    | None => (0, 0%Z, 0)
    end in
  '(target_amount_, max_amount_) ←
    target_amounts targets total_capital_ current_prices avg_cost_ target;
  let deviation_amount := Py.fminus (Py.Fin current_amount) target_amount_ in
  let deviation_pct :=
    if Py.fgtb target_amount_ (Py.Fin 0)
    then Py.ftimes
           (Py.fminus (Py.fover (Py.Fin current_amount) target_amount_)
                      (Py.Fin 1))
           (Py.Fin 100)
    else Py.Fin 0 in
  let threshold := Py.cell_or targets rebalance_threshold target (Py.Fin 10) in
  let needs_rebalance_ := Py.fgtb (Correlation.fabs deviation_pct) threshold in
  '(action_, action_shares_) ←
    suggest targets current_prices target current_shares_ avg_cost_
            deviation_amount;
  let '(price_, value, pnl, pct) :=
    match current_holding with
    | Some h => (ps_price h, ps_market_value h, ps_pnl_amount h, ps_pnl_pct h)
    | None =>
        (if dict_truthy current_prices then current_prices !! symbol else None,
         None, None, None)
    end in
  Ok {| a_symbol := symbol;
        a_current_shares := current_shares_;
        a_current_amount := current_amount;
        a_avg_cost := avg_cost_;
        a_current_price := price_;
        a_market_value := value;
        a_pnl_amount := pnl;
        a_pnl_pct := pct;
        a_target_type := Some (target_type target);
        a_target_amount := Some target_amount_;
        a_max_amount := Some max_amount_;
        a_deviation_amount := Some deviation_amount;
        a_deviation_pct := Some deviation_pct;
        a_threshold := Some threshold;
        needs_rebalance := needs_rebalance_;
        action := Some action_;
        action_shares := Some action_shares_;
        a_priority := Some (priority target) |}.

(** A holding without target, or every holding when no target is set
    ([label] is the text of 建议操作, [prio] the value of 优先级). *)
Definition untargeted_row (label : option string) (prio : option Z)
    (s : priced_stock) : analysis_row :=
  {| a_symbol := Calculator.sr_symbol (stock s);
     a_current_shares := Calculator.current_shares (stock s);
     a_current_amount := Calculator.total_invested (stock s);
     a_avg_cost := Calculator.avg_cost (stock s);
     a_current_price := ps_price s;
     a_market_value := ps_market_value s;
     a_pnl_amount := ps_pnl_amount s;
     a_pnl_pct := ps_pnl_pct s;
     a_target_type := None; a_target_amount := None; a_max_amount := None;
     a_deviation_amount := None; a_deviation_pct := None;
     a_threshold := None;
     needs_rebalance := false;
     action := label;
     action_shares := None;
     a_priority := prio |}.

(** [sort_values('优先级')]: the key of [a] is strictly smaller than the
    key of [b]. *)
Definition priority_before (a b : analysis_row) : bool :=
  (default 0 (a_priority a) <? default 0 (a_priority b))%Z.

(** The order of a frame sorted by 优先级. *)
Definition by_priority (a b : analysis_row) : Prop :=
  (default 0 (a_priority a) <=? default 0 (a_priority b))%Z.

Section Analysis.

(** [utils.data_fetcher.batch_get_prices], the price lookup capability. *)
Variable batch_get_prices : list string → gmap string Q.

(** The prices used by the analysis: the dictionary passed by the caller,
    or the prices fetched for the held and the targeted symbols. *)
Definition resolve_prices (stocks : list Calculator.stock_row)
    (targets : list position_target)
    (current_prices : option (gmap string Q)) : gmap string Q :=
  match current_prices with
  | Some d => d
  | None =>
      let held := remove_dups (map Calculator.sr_symbol stocks) in
      let symbols :=
        held ++ filter (λ s, s ∉ held)
                       (remove_dups (map pt_stock_symbol targets)) in
      match symbols with
      | [] => ∅
      | _ => batch_get_prices symbols
      end
  end.

(** [get_position_analysis]; [None] is the empty frame returned for an
    unknown account.  The holdings without target are a Python set in the
    source; here they are taken in the order of the summary, before the
    final sort by 优先级, which is modelled as a stable sort: rows of
    equal priority stay in their order of arrival. *)
Definition get_position_analysis (db : t) (account : string)
    (current_prices : option (gmap string Q))
    : raising (option (list analysis_row)) :=
  match filter (λ a : Database.account, Py.str_eq (account_name a) account)
               (get_accounts db) with
  | [] => Ok None
  | account_info :: _ =>
      let total_capital_ := total_capital account_info in
      let stocks := Calculator.calculate_stock_summary db (Some account) in
      let targets := get_position_targets db (Some account) true in
      let current_prices := resolve_prices stocks targets current_prices in
      let stocks := map (price_stock current_prices) stocks in
      match targets with
      | [] => Ok (Some (map (untargeted_row None None) stocks))
      | _ =>
          analysis ← mapR (analyze_target targets total_capital_
                             current_prices stocks)
                          targets;
          let stocks_without_targets :=
            filter (λ s, s ∉ map pt_stock_symbol targets)
                   (remove_dups (map (λ s, Calculator.sr_symbol (stock s))
                                     stocks)) in
          let without :=
            omap (λ symbol,
                    head (filter (λ s : priced_stock,
                                    Py.str_eq (Calculator.sr_symbol (stock s))
                                              symbol) stocks))
                 stocks_without_targets in
          Ok (Some (Py.stable_sort priority_before
                      (analysis ++
                       map (untargeted_row (Some Const.NO_TARGET) (Some 999%Z))
                           without)))
      end
  end.

End Analysis.

(** *** check_position_limits *)

(** [POSITION_LIMITS['max_single_stock_pct']] of config.py. *)
Definition max_single_stock_pct : Q := 15.

(** The dictionaries returned by [check_position_limits], by reason. *)
Inductive limit_check :=
  | AccountMissing                                   (* 账户不存在 *)
  | OverSingleStock (current_pct new_pct max_allowed : Q)
  | OverMaxAmount (limit max_allowed : Q)
  | OverMaxPercentage (limit max_allowed : Q)
  | WithinLimits (current_pct new_pct remaining_capacity : Q).

Definition ok (c : limit_check) : bool :=
  match c with WithinLimits _ _ _ => true | _ => false end.

(** [limit and x > limit] on a nullable limit: a missing limit (NULL, read
    as None or NaN) and a limit of 0 never trip. *)
Definition exceeds (limit : option Q) (x : Q) : bool :=
  match limit with
  | Some v => Py.truthy_num v && Py.Qgtb x v
  | None => false
  end.

Definition check_position_limits (db : t) (account symbol : string)
    (additional_amount : Q) : raising limit_check :=
  match filter (λ a : Database.account, Py.str_eq (account_name a) account)
               (get_accounts db) with
  | [] => Ok AccountMissing
  | account_info :: _ =>
      let total_capital_ := total_capital account_info in
      let stocks := Calculator.calculate_stock_summary db (Some account) in
      let current_amount :=
        match filter (λ s : Calculator.stock_row,
                        Py.str_eq (Calculator.sr_symbol s) (Py.upper symbol))
                     stocks with
        | [] => 0
        | s :: _ => Calculator.total_invested s
        end in
      let new_amount := current_amount + additional_amount in
      if negb (Py.truthy_num total_capital_) then ZeroDivisionError
      else
        let new_pct := new_amount / total_capital_ * 100 in
        let within :=
          WithinLimits (current_amount / total_capital_ * 100) new_pct
            (total_capital_ * max_single_stock_pct / 100 - new_amount) in
        if Py.Qgtb new_pct max_single_stock_pct then
          Ok (OverSingleStock (current_amount / total_capital_ * 100) new_pct
                (total_capital_ * max_single_stock_pct / 100 - current_amount))
        else
          match filter (λ t : position_target,
                          Py.str_eq (pt_stock_symbol t) (Py.upper symbol))
                       (get_position_targets db (Some account) true) with
          | [] => Ok within
          | target :: _ =>
              if exceeds (max_amount target) new_amount then
                Ok (OverMaxAmount (default 0 (max_amount target))
                      (default 0 (max_amount target) - current_amount))
              else if exceeds (max_percentage target) new_pct then
                Ok (OverMaxPercentage (default 0 (max_percentage target))
                      (total_capital_ * default 0 (max_percentage target) / 100
                       - current_amount))
              else Ok within
          end
  end.

(** *** calculate_portfolio_weight *)

Record weight_row := {
  w_symbol : string;        (* 股票代码 *)
  w_shares : Z;             (* 当前股数 *)
  w_invested : Q;           (* 总投入 *)
  w_weight : Correlation.fval   (* 权重% *)
}.

(** Division of two float columns: a zero divisor gives NaN or an
    infinity, never an exception; neither is a finite value. *)
Definition column_div (x d : Q) : Correlation.fval :=
  if Py.truthy_num d then Correlation.Fin (x / d) else Correlation.NaN.

Definition calculate_portfolio_weight (db : t) (account : option string)
    : list weight_row :=
  let stocks := Calculator.calculate_stock_summary db account in
  match stocks with
  | [] => []
  | _ =>
      let total_investment :=
        Py.sumQ (map Calculator.total_invested stocks) in
      map (λ s : Calculator.stock_row,
             {| w_symbol := Calculator.sr_symbol s;
                w_shares := Calculator.current_shares s;
                w_invested := Calculator.total_invested s;
                w_weight :=
                  Correlation.fmul 100
                    (column_div (Calculator.total_invested s)
                                total_investment) |})
          stocks
  end.

End PositionManager.

(** ** Reference formulas of the specification *)

Module Spec.
Import Database.
#[local] Open Scope Q_scope.

(** A short option type is a sold call or a sold put. *)
Definition is_short (o : option_trade) : Prop :=
  option_type o = Const.SELL_CALL ∨ option_type o = Const.SELL_PUT.

#[global] Instance is_short_dec o : Decision (is_short o).
Proof. unfold is_short; apply _. Defined.

Definition premium_total (o : option_trade) : Q :=
  premium_per_share o * inject_Z (contracts o) * 100.

(** A missing close price gives a close total of 0. *)
Definition close_total (o : option_trade) : Q :=
  match close_price_per_share o with
  | Some c => c * inject_Z (contracts o) * 100
  | None => 0
  end.

Definition total_fees (o : option_trade) : Q := opening_fee o + closing_fee o.

(** [premium_total - close_total - total_fees] for a short type,
    [close_total - premium_total - total_fees] otherwise. *)
Definition realized_pnl (o : option_trade) : Q :=
  if decide (is_short o)
  then premium_total o - close_total o - total_fees o
  else close_total o - premium_total o - total_fees o.

(** The open sold puts of an account. *)
Definition open_put_of (name : string) (o : option_trade) : bool :=
  Py.str_eq (opt_account_name o) name
  && Py.str_eq (status o) Const.OPEN
  && Py.str_eq (option_type o) Const.SELL_PUT.

(** The flow types of the fixed enumerations of the statement. *)
Definition enumerated_types : list string :=
  CashFlow.operating_types ++ CashFlow.investing_types
  ++ CashFlow.financing_types ++ [Const.COMMISSION].

(** Subtotal of a bucket of the statement, 0 for the empty bucket of a
    statement without rows. *)
Definition subtotal_of (b : option CashFlow.bucket) : Q :=
  match b with Some b => CashFlow.subtotal b | None => 0 end.

(** Amount of a row counted under the types [types]. *)
Definition counted (types : list string) (f : cash_flow) : Q :=
  if Py.str_in (flow_type f) types then amount f else 0.

(** *** Insufficient-data guard of the correlation matrix *)

(** A symbol has return data when the query of its price history over
    the window is not empty. *)
Definition has_data (db : Database.t) (start_date end_date : Z)
    (s : string) : Prop :=
  Correlation.query_returns db s start_date end_date ≠ ∅.

Definition symbols_with_data (db : Database.t) (holdings : list string)
    (start_date end_date : Z) : gset string :=
  filter (has_data db start_date end_date) (list_to_set holdings).




(** State of the dictionary of series while the returns are collected:
    its keys are distinct and each holds the non-empty query of its
    symbol. *)
Definition returns_ok (db : Database.t) (start_date end_date : Z)
    (d : list (string * gmap Z (option Q))) : Prop :=
  NoDup d.*1
  ∧ ∀ e, e ∈ d →
      e.2 = Correlation.query_returns db e.1 start_date end_date
      ∧ has_data db start_date end_date e.1.

(** State of the outer loop of the clustering: the symbols of the
    clusters found so far are pairwise distinct, visited and labels of
    the frame, and every cluster has at least two of them. *)
Definition clusters_ok (m : Correlation.corr_matrix) (V : gset string)
    (cs : list Correlation.cluster) : Prop :=
  NoDup (concat (map Correlation.symbols cs))
  ∧ (∀ s, s ∈ concat (map Correlation.symbols cs)
          → s ∈ V ∧ s ∈ Correlation.columns m)
  ∧ (∀ c, c ∈ cs → 2 ≤ length (Correlation.symbols c)
                   ∧ Correlation.size_ c = length (Correlation.symbols c)).

(** *** Rebalance consistency *)

(** The holding of a symbol in the summary of an account, as the
    analysis looks it up. *)
Definition holding (db : Database.t) (account symbol : string)
    : option Calculator.stock_row :=
  head (filter (λ s : Calculator.stock_row,
                  Py.str_eq (Calculator.sr_symbol s) symbol)
               (Calculator.calculate_stock_summary db (Some account))).

Definition shares_of (h : option Calculator.stock_row) : Z :=
  match h with Some h => Calculator.current_shares h | None => 0%Z end.

Definition avg_cost_of (h : option Calculator.stock_row) : Q :=
  match h with Some h => Calculator.avg_cost h | None => 0 end.

Definition held_shares (db : Database.t) (account symbol : string) : Z :=
  shares_of (holding db account symbol).

Definition held_avg_cost (db : Database.t) (account symbol : string) : Q :=
  avg_cost_of (holding db account symbol).

Definition invested_of (h : option Calculator.stock_row) : Q :=
  match h with Some h => Calculator.total_invested h | None => 0 end.

(** Cost basis of the holding of a symbol, 0 when nothing is held. *)
Definition held_amount (db : Database.t) (account symbol : string) : Q :=
  invested_of (holding db account symbol).

(** The price a share target is valued at: the price of the symbol in
    the dictionary when the dictionary is not empty, the average cost of
    the holding otherwise. *)
Definition valuation_price (prices : gmap string Q) (symbol : string)
    (avg : Q) : option Q :=
  if PositionManager.dict_truthy prices then prices !! symbol else Some avg.

(** Deviation in percent of the cost basis [invested] from [count]
    shares valued at [price_]: [(invested / target_amount - 1) * 100]
    with [target_amount = count * price], and 0 when there is no usable
    price or the target amount is not positive. *)
Definition share_target_deviation (count : Z) (invested : Q)
    (price_ : option Q) : Q :=
  match price_ with
  | Some p =>
      if Py.truthy_num p && Py.Qgtb (inject_Z count * p) 0
      then (invested / (inject_Z count * p) - 1) * 100
      else 0
  | None => 0
  end.

(** A share target whose count reads as NaN (no count stored while
    another target of the frame has one) and whose ceiling cell is falsy
    (a stored 0, or nothing stored in a frame without ceilings): the
    ceiling is then computed from the count. *)
Definition count_unreadable (targets : list position_target)
    (target : position_target) : Prop :=
  target_type target = Const.SHARES
  ∧ target_shares target = None
  ∧ Py.float_column target_shares targets = true
  ∧ (max_shares target = Some 0%Z
     ∨ (max_shares target = None
        ∧ Py.float_column max_shares targets = false)).

(** An amount or percentage target above the cost basis [invested] of
    its holding while the dictionary holds a price of 0 for its symbol. *)
Definition zero_priced (targets : list position_target) (total_capital_ : Q)
    (prices : gmap string Q) (invested avg : Q) (target : position_target)
    : Prop :=
  target_type target ≠ Const.SHARES
  ∧ (∃ p, prices !! pt_stock_symbol target = Some p ∧ p == 0)
  ∧ ∃ ta ma,
      PositionManager.target_amounts targets total_capital_ prices avg target
      = PositionManager.Ok (Py.Fin ta, ma)
      ∧ invested < ta.

(** *** Further reference notions *)


(** The external flows of an account: interest, deposits and
    withdrawals. *)
Definition external_flow_of (name : string) (f : cash_flow) : bool :=
  Py.str_eq (cf_account_name f) name
  && Py.str_in (flow_type f) Calculator.net_flow_types.

(** Gain of the holdings at the live prices over their cost basis; no
    gain is booked when the prices could not be fetched. *)
Definition unrealized_gain (prices : option (gmap string Q))
    (stocks : list Calculator.stock_row) : Q :=
  match prices with
  | Some d =>
      Py.sumQ (map (λ s, Calculator.holding_value d s
                         - Calculator.total_invested s) stocks)
  | None => 0
  end.

(** The high-correlation pair that a couple of labels gives, if any. *)
Definition high_pair_of (m : Correlation.corr_matrix) (threshold : Q)
    (p : string * string) : option Correlation.high_pair :=
  if Correlation.fge (Correlation.fabs (Correlation.entry m p.1 p.2)) threshold
  then Some {| Correlation.symbol1 := p.1; Correlation.symbol2 := p.2;
               Correlation.correlation := Correlation.entry m p.1 p.2 |}
  else None.

(** A cluster as a star: a seed at a position [i] of the labels and at
    least one member, every member at a later position and correlated
    with the seed at the threshold or above. *)
Definition star (m : Correlation.corr_matrix) (threshold : Q)
    (c : Correlation.cluster) : Prop :=
  ∃ i seed rest,
    Correlation.symbols c = seed :: rest
    ∧ rest ≠ []
    ∧ Correlation.columns m !! i = Some seed
    ∧ ∀ s, s ∈ rest →
        ∃ j, (i < j)%nat
             ∧ Correlation.columns m !! j = Some s
             ∧ Correlation.fge
                 (Correlation.fabs (Correlation.entry m seed s)) threshold
               = true.

End Spec.

(** ** Scenarios: concrete ledgers *)

Module Scenarios.
Import Database.
#[local] Open Scope Q_scope.

(** The purchase of the cash-flow scenario: 10 shares at 20 with a
    commission of 5. *)
Definition buy_10_at_20 : transaction :=
  {| transaction_id := 1%Z; transaction_date := 0%Z;
     tx_account_name := "长期账户"; tx_stock_symbol := "NVDA";
     transaction_type := Const.BUY; price := 20; shares := 10%Z;
     commission := 5 |}.

Definition store_buy_10_at_20 : Database.t :=
  {| accounts := []; transactions := [buy_10_at_20]; options_trades := [];
     cash_flows := []; position_targets := []; stock_price_history := ∅ |}.

Definition long_term : string := "长期账户".

Definition long_term_account (capital : Q) : account :=
  {| account_name := long_term; total_capital := capital;
     cash_reserve := 0; conditional_reserve := 0 |}.

(** An account of 1000 from which 2000 were withdrawn. *)
Definition store_withdrawn : Database.t :=
  {| accounts := [long_term_account 1000]; transactions := [];
     options_trades := [];
     cash_flows :=
       [{| flow_id := 1%Z; flow_date := 0%Z; cf_account_name := long_term;
           flow_type := Const.WITHDRAWAL; related_transaction_id := None;
           related_option_id := None; cf_stock_symbol := None;
           amount := - (2000); is_realized := true; description := None;
           auto_generated := false |}];
     position_targets := []; stock_price_history := ∅ |}.

(** The valuation scenario: 150000 of capital and one purchase of 100
    NVDA at 100 with a commission of 1. *)
Definition buy_100_nvda : transaction :=
  {| transaction_id := 1%Z; transaction_date := 1%Z;
     tx_account_name := long_term; tx_stock_symbol := "NVDA";
     transaction_type := Const.BUY; price := 100; shares := 100%Z;
     commission := 1 |}.

Definition store_nvda : Database.t :=
  {| accounts := [long_term_account 150000]; transactions := [buy_100_nvda];
     options_trades := []; cash_flows := []; position_targets := [];
     stock_price_history := ∅ |}.

Definition nvda_at (p : Q) : gmap string Q := {[ "NVDA"%string := p ]}.

(** The cash-secured put scenario: one open sold put, strike 50, two
    contracts, next to an open covered call. *)
Definition sold_option (id : Z) (kind : string) (strike : Q) (n : Z)
    : option_trade :=
  {| option_id := id; opt_account_name := long_term;
     opt_stock_symbol := "NVDA"; option_type := kind;
     strike_price := strike; expiration_date := 30%Z;
     premium_per_share := 1; contracts := n; open_date := 1%Z;
     close_date := None; close_price_per_share := None;
     opening_fee := 0; closing_fee := 0; status := Const.OPEN |}.

Definition store_csp : Database.t :=
  {| accounts := [long_term_account 150000]; transactions := [];
     options_trades := [sold_option 1 Const.SELL_PUT 50 2;
                        sold_option 2 Const.SELL_CALL 120 1];
     cash_flows := []; position_targets := [];
     stock_price_history := ∅ |}.

(** Two purchases of NVDA at 100 without commission, 60 and 40 shares. *)
Definition buy_nvda_at_100 (id n : Z) : transaction :=
  {| transaction_id := id; transaction_date := id;
     tx_account_name := long_term; tx_stock_symbol := "NVDA";
     transaction_type := Const.BUY; price := 100; shares := n;
     commission := 0 |}.




(** Two purchases of 2^62 shares each. *)
Definition store_wrapped : Database.t :=
  {| accounts := [long_term_account 150000];
     transactions := [buy_nvda_at_100 1 (2 ^ 62); buy_nvda_at_100 2 (2 ^ 62)];
     options_trades := []; cash_flows := []; position_targets := [];
     stock_price_history := ∅ |}.


(** A frame over AAPL and MSFT (correlation 1/2) and three holdings, the
    third without price history. *)
Definition corr_aapl_msft : Correlation.corr_matrix :=
  {| Correlation.columns := ["AAPL"; "MSFT"]%string;
     Correlation.entry := λ r c,
       if String.eqb r c then Correlation.Fin 1 else Correlation.Fin (1 # 2) |}.

Definition three_holdings : list string := ["AAPL"; "MSFT"; "NVDA"]%string.

(** Ten days of returns for AAPL and MSFT, none for NVDA. *)
Definition ten_days (r : Q) : gmap Z price_row :=
  list_to_map
    (map (λ d : Z, (d, {| close_price := 100; daily_return := Some r |}))
         [1; 2; 3; 4; 5; 6; 7; 8; 9; 10]%Z).

Definition store_history : Database.t :=
  {| accounts := []; transactions := []; options_trades := [];
     cash_flows := []; position_targets := [];
     stock_price_history :=
       {[ "AAPL"%string := ten_days (1 # 100);
          "MSFT"%string := ten_days (2 # 100) ]} |}.

(** A stand-in for pandas' correlation of two columns. *)
Definition no_corr (x y : list Q) : Correlation.fval := Correlation.NaN.

(** The rebalance scenario: 10 shares of NVDA bought at 100, a target of
    10 shares with the default threshold of 10 percent. *)
Definition buy_10_nvda : transaction :=
  {| transaction_id := 1%Z; transaction_date := 1%Z;
     tx_account_name := long_term; tx_stock_symbol := "NVDA";
     transaction_type := Const.BUY; price := 100; shares := 10%Z;
     commission := 0 |}.

Definition target_10_nvda : position_target :=
  {| pt_stock_symbol := "NVDA"; pt_account_name := long_term;
     target_type := Const.SHARES; target_percentage := None;
     target_amount := None; target_shares := Some 10%Z;
     max_percentage := None; max_amount := None; max_shares := None;
     priority := 5%Z; rebalance_threshold := Some 10; is_active := true |}.

Definition store_target : Database.t :=
  {| accounts := [long_term_account 150000]; transactions := [buy_10_nvda];
     options_trades := []; cash_flows := [];
     position_targets := [target_10_nvda]; stock_price_history := ∅ |}.

(** A price lookup that finds nothing. *)
Definition no_prices (symbols : list string) : gmap string Q := ∅.


(** A sold put closed at a profit: premium 2 per share on 1 contract,
    bought back at 0.5, fees 1 and 1. *)
Definition closed_put : option_trade :=
  {| option_id := 1%Z; opt_account_name := long_term;
     opt_stock_symbol := "NVDA"; option_type := Const.SELL_PUT;
     strike_price := 50; expiration_date := 30%Z;
     premium_per_share := 2; contracts := 1%Z; open_date := 1%Z;
     close_date := Some 10%Z; close_price_per_share := Some (1 # 2);
     opening_fee := 1; closing_fee := 1; status := Const.CLOSED |}.

Definition store_closed_put : Database.t :=
  {| accounts := [long_term_account 150000]; transactions := [];
     options_trades := [closed_put]; cash_flows := [];
     position_targets := []; stock_price_history := ∅ |}.

(** The closed put next to a second sold put, premium 3 per share on 1
    contract with an opening fee of 1, that expired worthless:
    [update_option_close] has stored its close date and the status
    到期作废 without a close price. *)
Definition open_put_2 : option_trade :=
  {| option_id := 2%Z; opt_account_name := long_term;
     opt_stock_symbol := "NVDA"; option_type := Const.SELL_PUT;
     strike_price := 50; expiration_date := 12%Z;
     premium_per_share := 3; contracts := 1%Z; open_date := 2%Z;
     close_date := None; close_price_per_share := None;
     opening_fee := 1; closing_fee := 0; status := Const.OPEN |}.

Definition store_two_puts : Database.t :=
  {| accounts := [long_term_account 150000]; transactions := [];
     options_trades := [closed_put; open_put_2]; cash_flows := [];
     position_targets := []; stock_price_history := ∅ |}.

Definition store_expired_put : Database.t :=
  update_option_close store_two_puts 2 (Some 12%Z) None 0 Const.EXPIRED.

(** The row of the expired put after the update. *)
Definition expired_put : option_trade :=
  {| option_id := 2%Z; opt_account_name := long_term;
     opt_stock_symbol := "NVDA"; option_type := Const.SELL_PUT;
     strike_price := 50; expiration_date := 12%Z;
     premium_per_share := 3; contracts := 1%Z; open_date := 2%Z;
     close_date := Some 12%Z; close_price_per_share := None;
     opening_fee := 1; closing_fee := 0; status := Const.EXPIRED |}.

(** The same holding with a target of 30 shares. *)
Definition target_30_nvda : position_target :=
  {| pt_stock_symbol := "NVDA"; pt_account_name := long_term;
     target_type := Const.SHARES; target_percentage := None;
     target_amount := None; target_shares := Some 30%Z;
     max_percentage := None; max_amount := None; max_shares := None;
     priority := 5%Z; rebalance_threshold := Some 10; is_active := true |}.

Definition store_target_30 : Database.t :=
  {| accounts := [long_term_account 150000]; transactions := [buy_10_nvda];
     options_trades := []; cash_flows := [];
     position_targets := [target_30_nvda]; stock_price_history := ∅ |}.

(** Two share targets without ceilings, AAPL without a stored count
    ahead of NVDA with one: in the frame of targets the count of AAPL
    reads as NaN. *)
Definition target_aapl_no_count : position_target :=
  {| pt_stock_symbol := "AAPL"; pt_account_name := long_term;
     target_type := Const.SHARES; target_percentage := None;
     target_amount := None; target_shares := None;
     max_percentage := None; max_amount := None; max_shares := None;
     priority := 1%Z; rebalance_threshold := Some 10; is_active := true |}.

Definition store_no_count : Database.t :=
  {| accounts := [long_term_account 150000]; transactions := [buy_10_nvda];
     options_trades := []; cash_flows := [];
     position_targets := [target_10_nvda; target_aapl_no_count];
     stock_price_history := ∅ |}.

(** A stand-in for Python's rendering of a number in a description. *)
Definition no_text {A} (x : A) : string := "#".

End Scenarios.

(** * Properties *)

Set Warnings "-clear-no-such-hyp".

(** ** Sums *)

Section Sums.
#[local] Open Scope Q_scope.


Lemma sumQ_perm (l1 l2 : list Q) :
  l1 ≡ₚ l2 → Py.sumQ l1 == Py.sumQ l2.
Proof.
  induction 1 as [|x l l' _ IH|x y l|l l' l'' _ IH1 _ IH2]; simpl.
  - reflexivity.
  - rewrite IH. reflexivity.
  - ring.
  - rewrite IH1. exact IH2.
Qed.

Lemma sumQ_map_perm {A} (f : A → Q) (l1 l2 : list A) :
  l1 ≡ₚ l2 → Py.sumQ (map f l1) == Py.sumQ (map f l2).
Proof. intros H. apply sumQ_perm. by apply Permutation_map. Qed.

Lemma sumQ_map_ext {A} (f g : A → Q) (l : list A) :
  (∀ x, x ∈ l → f x == g x) → Py.sumQ (map f l) == Py.sumQ (map g l).
Proof.
  induction l as [|x l IH]; simpl; intros H.
  - reflexivity.
  - rewrite (H x) by left. rewrite IH; [reflexivity|].
    intros y Hy. apply H. by right.
Qed.

Lemma fold_left_sumQ {A} (f : A → Q) (l : list A) (a : Q) :
  fold_left (λ acc x, acc + f x) l a == a + Py.sumQ (map f l).
Proof.
  revert a. induction l as [|x l IH]; intros a; simpl.
  - ring.
  - rewrite IH. ring.
Qed.

End Sums.

Section Filters.
#[local] Open Scope Q_scope.

Lemma sumQ_filter {A} (b : A → bool) (f : A → Q) (l : list A) :
  Py.sumQ (map f (filter (λ x, Is_true (b x)) l))
  == Py.sumQ (map (λ x, if b x then f x else 0) l).
Proof.
  induction l as [|x l IH]; simpl.
  - reflexivity.
  - rewrite filter_cons. destruct (decide (b x)) as [Hb|Hb].
    + apply Is_true_true in Hb. rewrite Hb. simpl. rewrite IH. reflexivity.
    + apply Is_true_false in Hb. rewrite Hb. rewrite IH. ring.
Qed.

Lemma filter_map_comm {A B} (g : A → B) (b : B → bool) (l : list A) :
  filter (λ y, Is_true (b y)) (map g l)
  = map g (filter (λ x, Is_true (b (g x))) l).
Proof.
  induction l as [|x l IH]; simpl; [done|].
  rewrite !filter_cons. destruct (decide (b (g x))); simpl; by rewrite IH.
Qed.

End Filters.

Section Enumerate.

Lemma enumerate_elem {A} (l : list A) (e : nat * A) :
  e ∈ Correlation.enumerate l → e.2 ∈ l.
Proof.
  unfold Correlation.enumerate. intros He.
  apply list_elem_of_lookup in He as [k Hk].
  apply list_lookup_imap_Some in Hk as (x & Hx & ->).
  simpl. by eapply list_elem_of_lookup_2.
Qed.

End Enumerate.

Section StableSort.
Context {A : Type} (before : A → A → bool).

Lemma insert_sorted_Permutation (x : A) (l : list A) :
  Py.insert_sorted before x l ≡ₚ x :: l.
Proof.
  induction l as [|y l IH]; [done|]. cbn.
  destruct (before y x); [|done].
  rewrite IH. apply Permutation_swap.
Qed.

Lemma stable_sort_Permutation (l : list A) : Py.stable_sort before l ≡ₚ l.
Proof.
  induction l as [|x l IH]; [done|]. cbn.
  fold (Py.stable_sort before l).
  by rewrite insert_sorted_Permutation, IH.
Qed.

(** The result is sorted: no element strictly precedes the one in front
    of it. *)
Lemma insert_sorted_Sorted (x : A) (l : list A) :
  (∀ a b, before a b = true → before b a = false) →
  Sorted (λ a b, before b a = false) l →
  Sorted (λ a b, before b a = false) (Py.insert_sorted before x l).
Proof.
  intros Hasym Hs. induction Hs as [|y l Hs IH Hhd]; cbn.
  { repeat constructor. }
  destruct (before y x) eqn:E.
  - constructor; [exact IH|].
    destruct Hhd as [|z l Hyz]; cbn.
    + constructor. by apply Hasym.
    + destruct (before z x); constructor; [done|by apply Hasym].
  - constructor; [by constructor|]. by constructor.
Qed.

Lemma stable_sort_Sorted (l : list A) :
  (∀ a b, before a b = true → before b a = false) →
  Sorted (λ a b, before b a = false) (Py.stable_sort before l).
Proof.
  intros Hasym. induction l as [|x l IH]; cbn; [constructor|].
  by apply insert_sorted_Sorted.
Qed.

(** Stability: a sort that moves nothing strictly forward changes
    nothing. *)
Lemma stable_sort_fixed (l : list A) :
  (∀ a b, a ∈ l → b ∈ l → before a b = false) →
  Py.stable_sort before l = l.
Proof.
  induction l as [|x l IH]; intros H; [done|]. cbn.
  fold (Py.stable_sort before l). rewrite IH.
  - destruct l as [|y l]; [done|]. cbn.
    by rewrite (H y x) by (set_solver).
  - intros a b Ha Hb. apply H; by right.
Qed.

Lemma Sorted_weaken (R1 R2 : A → A → Prop) (l : list A) :
  (∀ a b, R1 a b → R2 a b) → Sorted R1 l → Sorted R2 l.
Proof.
  intros H Hs. induction Hs as [|x l Hs IH Hhd]; constructor; [done|].
  destruct Hhd; constructor. by apply H.
Qed.

End StableSort.

(** ** Cash flows generated from a transaction *)

Section GeneratedRows.
Import Database CashFlow Scenarios.
#[local] Open Scope Q_scope.

Variable str_of_float : Q → string.
Variable str_of_int : Z → string.

(** Rows of a purchase: one trade row of [-(p*s + c)] and, when the
    commission is positive, one commission row of [-c]. *)
Lemma auto_generate_buy_amounts db tid trans :
  find_transaction db tid = Some trans →
  transaction_type trans = Const.BUY →
  map amount
    (generated_rows db
       (auto_generate_from_transaction str_of_float str_of_int db tid).1)
  = if Py.Qgtb (commission trans) 0
    then [- (price trans * inject_Z (shares trans) + commission trans);
          - commission trans]
    else [- (price trans * inject_Z (shares trans) + commission trans)].
Proof.
  intros Hfind Hbuy. unfold auto_generate_from_transaction.
  rewrite Hfind, Hbuy. simpl.
  unfold generated_rows, add_cash_flow. simpl.
  destruct (Py.Qgtb (commission trans) 0); simpl.
  - rewrite <- app_assoc. by rewrite drop_app_length.
  - by rewrite drop_app_length.
Qed.

(** Sum of the rows of a purchase: the commission is counted twice when
    it is positive. *)
Lemma auto_generate_buy_sum db tid trans :
  find_transaction db tid = Some trans →
  transaction_type trans = Const.BUY →
  Py.sumQ (map amount
    (generated_rows db
       (auto_generate_from_transaction str_of_float str_of_int db tid).1))
  == if Py.Qgtb (commission trans) 0
     then - (price trans * inject_Z (shares trans) + 2 * commission trans)
     else - (price trans * inject_Z (shares trans) + commission trans).
Proof.
  intros Hfind Hbuy. rewrite (auto_generate_buy_amounts _ _ _ Hfind Hbuy).
  destruct (Py.Qgtb (commission trans) 0); simpl; ring.
Qed.

(** C1 (evaluation at the failing input).  For the purchase of 10 shares
    at 20 with commission 5, [auto_generate_from_transaction] appends a
    trade row of -205 and a commission row of -5: the generated rows sum
    to -210, not to -(20*10 + 5) = -205. *)
Theorem auto_generate_buy_counts_commission_twice :
  let after :=
    (auto_generate_from_transaction str_of_float str_of_int
       store_buy_10_at_20 1%Z).1 in
  map amount (generated_rows store_buy_10_at_20 after) = [- (20 * 10 + 5); - (5)]
  ∧ Py.sumQ (map amount (generated_rows store_buy_10_at_20 after)) == - (210)
  ∧ ¬ Py.sumQ (map amount (generated_rows store_buy_10_at_20 after))
      == - (20 * 10 + 5).
Proof.
  simpl. split; [|split].
  - vm_compute. reflexivity.
  - vm_compute. reflexivity.
  - vm_compute. discriminate.
Qed.

End GeneratedRows.

(** ** Account overview *)

Section Overview.
Import Database Calculator Scenarios.
#[local] Open Scope Q_scope.

Lemma Qgtb_true x y : Py.Qgtb x y = true ↔ y < x.
Proof.
  unfold Py.Qgtb. rewrite negb_true_iff.
  split.
  - intros H. apply Qnot_le_lt. intros Hle.
    apply Qle_bool_iff in Hle. congruence.
  - intros H. destruct (Qle_bool x y) eqn:E; [|done].
    apply Qle_bool_iff in E. exfalso. by apply (Qlt_not_le _ _ H).
Qed.

Lemma Qgtb_false x y : Py.Qgtb x y = false ↔ x <= y.
Proof.
  unfold Py.Qgtb. rewrite negb_false_iff. apply Qle_bool_iff.
Qed.

(** C3 (amended).  The profit ratio of the overview is
    [total_pnl / (total_capital + net_cash_flow) * 100] when the
    denominator is positive and 0 when it is zero or negative. *)
Theorem pnl_ratio_guard db name prices ov :
  calculate_account_overview db name prices = Some ov →
  let base := ov_total_capital ov + ov_net_cash_flow ov in
  (0 < base → pnl_ratio ov == total_pnl ov / base * 100)
  ∧ (base <= 0 → pnl_ratio ov = 0).
Proof.
  unfold calculate_account_overview.
  destruct (filter _ (get_accounts db)) as [|info rest]; [done|].
  intros [= <-]. cbn [ov_total_capital ov_net_cash_flow pnl_ratio total_pnl].
  split.
  - intros Hpos. apply Qgtb_true in Hpos. rewrite Hpos. reflexivity.
  - intros Hneg. apply Qgtb_false in Hneg. by rewrite Hneg.
Qed.

Lemma pnl_ratio_guard_witness :
  (∃ ov, calculate_account_overview store_nvda long_term
           (Some (nvda_at 110)) = Some ov
         ∧ pnl_ratio ov == 999 / 150000 * 100)
  ∧ (∃ ov, calculate_account_overview store_withdrawn long_term None = Some ov
           ∧ pnl_ratio ov = 0).
Proof.
  split; eexists; (split; [vm_compute; reflexivity|]).
  - etransitivity.
    + apply (pnl_ratio_guard store_nvda long_term (Some (nvda_at 110))).
      * vm_compute; reflexivity.
      * vm_compute; reflexivity.
    + vm_compute; reflexivity.
  - apply (pnl_ratio_guard store_withdrawn long_term None).
    + vm_compute; reflexivity.
    + vm_compute. discriminate.
Defined.

(** C3 as stated fails: with a capital of 1000 and a withdrawal of 2000
    the denominator is -1000 and the profit is 2000, yet the reported
    ratio is 0 and not -200. *)
Lemma pnl_ratio_nonzero_base_counterexample :
  ¬ (∀ db name prices ov,
       calculate_account_overview db name prices = Some ov →
       ¬ ov_total_capital ov + ov_net_cash_flow ov == 0 →
       pnl_ratio ov
       == total_pnl ov / (ov_total_capital ov + ov_net_cash_flow ov) * 100).
Proof.
  intros H.
  destruct (calculate_account_overview store_withdrawn long_term None)
    as [ov|] eqn:E; [|vm_compute in E; discriminate].
  pose proof (H _ _ _ _ E) as Hc.
  vm_compute in E. injection E as <-.
  assert (Hn : ¬ 1000 + - (2000) == 0) by (vm_compute; discriminate).
  specialize (Hc Hn). vm_compute in Hc. discriminate.
Qed.

(** ** Cash locked by cash-secured puts *)

Lemma sel_str_name name col :
  name ≠ ""%string → sel_str (Some name) col = Py.str_eq col name.
Proof.
  intros Hne. unfold sel_str, Py.truthy_str.
  destruct (String.eqb name "") eqn:E; [|done].
  apply String.eqb_eq in E. done.
Qed.

(** C6.  [locked_cash] of the overview is the sum of
    [strike * contracts * 100] over the open sold puts of the account;
    the locked-capital column of every sold call is 0. *)
Theorem locked_cash_open_sell_puts db name prices ov :
  name ≠ ""%string →
  calculate_account_overview db name prices = Some ov →
  locked_cash ov
  == Py.sumQ (map (λ o, strike_price o * inject_Z (contracts o) * 100)
                  (filter (λ o, Is_true (Spec.open_put_of name o))
                          (options_trades db)))
  ∧ (∀ r, r ∈ calculate_options_summary db (Some name) →
          option_type (trade r) = Const.SELL_CALL → locked_capital r = 0).
Proof.
  intros Hne. unfold calculate_account_overview.
  destruct (filter _ (get_accounts db)) as [|info rest]; [done|].
  intros [= <-]. cbn [locked_cash]. split.
  - unfold calculate_options_summary, get_options_trades.
    rewrite filter_map_comm, map_map, sumQ_filter.
    rewrite (sumQ_map_perm _ _ _ (merge_sort_Permutation _ _)).
    rewrite !sumQ_filter. apply sumQ_map_ext. intros o _.
    cbn [trade locked_capital option_summary_row].
    rewrite (sel_str_name _ _ Hne). unfold sel_upper, sel_str, Spec.open_put_of.
    cbn [Py.truthy_str]. unfold csp_locked_capital.
    destruct (Py.str_eq (opt_account_name o) name),
      (Py.str_eq (status o) Const.OPEN),
      (Py.str_eq (option_type o) Const.SELL_PUT); simpl; reflexivity.
  - intros r Hr Hcall. unfold calculate_options_summary in Hr.
    apply list_elem_of_In, in_map_iff in Hr as (o & <- & _).
    unfold option_summary_row in *. simpl in *.
    unfold csp_locked_capital. rewrite Hcall. reflexivity.
Qed.

Lemma locked_cash_open_sell_puts_witness :
  ∃ ov, calculate_account_overview store_csp long_term None = Some ov
        ∧ locked_cash ov == 50 * 2 * 100.
Proof.
  eexists. split; [vm_compute; reflexivity|].
  etransitivity.
  - apply (locked_cash_open_sell_puts store_csp long_term None).
    + discriminate.
    + vm_compute; reflexivity.
  - vm_compute; reflexivity.
Defined.

End Overview.

(** ** Realized profit of an option *)

Section RealizedPnl.
Import Database Scenarios.
#[local] Open Scope Q_scope.



Lemma float_column_true {A V} (col : A → option V) (frame : list A) x :
  x ∈ frame → is_Some (col x) → Py.float_column col frame = true.
Proof.
  intros Hx Hv. unfold Py.float_column. apply existsb_exists.
  exists x. split; [by apply list_elem_of_In|by apply bool_decide_eq_true].
Qed.

(** A missing close price in a frame that holds one elsewhere reads as
    NaN, and the profit of the option is NaN. *)
Lemma realized_pnl_of_missing (options : list option_trade) o :
  close_price_per_share o = None →
  Py.float_column close_price_per_share options = true →
  Calculator.realized_pnl_of options o = Py.NaN.
Proof.
  intros Hc Hf. unfold Calculator.realized_pnl_of, Calculator.close_total_or0,
    Py.cell_or. rewrite Hc, Hf. by destruct (Py.str_in _ _).
Qed.

Lemma fplus_NaN_r (x : Py.fval) : Py.fplus x Py.NaN = Py.NaN.
Proof. by destruct x. Qed.

(** Once NaN, the running total of the loop stays NaN. *)
Lemma fold_fplus_NaN {A} (f : A → Py.fval) (l : list A) :
  fold_left (λ acc x, Py.fplus acc (f x)) l Py.NaN = Py.NaN.
Proof. induction l as [|x l IH]; [done|]. exact IH. Qed.

Lemma fold_fplus_elem_NaN {A} (f : A → Py.fval) (l : list A) x acc :
  x ∈ l → f x = Py.NaN →
  fold_left (λ acc x, Py.fplus acc (f x)) l acc = Py.NaN.
Proof.
  revert acc. induction l as [|y l IH]; intros acc Hx Hf.
  { by apply elem_of_nil in Hx. }
  cbn [fold_left]. apply elem_of_cons in Hx as [ <- | Hx ].
  - rewrite Hf, fplus_NaN_r. apply fold_fplus_NaN.
  - by apply IH.
Qed.

(** C7 fails on the code.  In the ledger of the expired put, read
    through [get_options_trades], the closed put has a close price and
    the expired one has none: the net-profit column of
    [calculate_options_summary] gives the reference values 299 and 148
    for the two trades, while the loops of [calculate_realized_pnl] and
    of [_calculate_strategy_alpha] read the missing close price as NaN
    and return NaN. *)
Theorem realized_pnl_formulas_diverge :
  let closed :=
    filter (λ r : Calculator.option_row,
              negb (Py.str_eq (status (Calculator.trade r)) Const.OPEN))
           (Calculator.calculate_options_summary store_expired_put
              (Some long_term)) in
  map (λ r, close_price_per_share (Calculator.trade r)) closed
  = [None; Some (1 # 2)]
  ∧ Forall2 Qeq (map Calculator.net_pnl closed) [299; 148]
  ∧ Forall2 Qeq (map (λ r, Spec.realized_pnl (Calculator.trade r)) closed)
                [299; 148]
  ∧ Calculator.option_realized
      (Calculator.calculate_realized_pnl store_expired_put (Some long_term)
         None None None) = Py.NaN
  ∧ Calculator.total_realized
      (Calculator.calculate_realized_pnl store_expired_put (Some long_term)
         None None None) = Py.NaN
  ∧ Attribution._calculate_strategy_alpha store_expired_put long_term
      0%Z 30%Z = Py.NaN.
Proof.
  cbv zeta. split; [vm_compute; reflexivity|].
  split; [repeat constructor; vm_compute; reflexivity|].
  split; [repeat constructor; vm_compute; reflexivity|].
  split; [vm_compute; reflexivity|].
  split; vm_compute; reflexivity.
Qed.

(** X8.  A missing close price poisons the realized profit: when an
    option counted by [calculate_realized_pnl] (not open, inside the
    date window) has no close price while another option of the same
    query has one, both 期权已实现盈亏 and 总已实现盈亏 are NaN. *)
Theorem realized_pnl_nan_on_missing_close_price db account symbol
    start_date end_date o o' :
  o ∈ get_options_trades db account symbol None →
  status o ≠ Const.OPEN →
  Calculator.closed_from start_date o = true →
  Calculator.closed_to end_date o = true →
  close_price_per_share o = None →
  o' ∈ get_options_trades db account symbol None →
  is_Some (close_price_per_share o') →
  Calculator.option_realized
    (Calculator.calculate_realized_pnl db account symbol start_date end_date)
  = Py.NaN
  ∧ Calculator.total_realized
      (Calculator.calculate_realized_pnl db account symbol start_date end_date)
    = Py.NaN.
Proof.
  intros Ho Hst Hfrom Hto Hc Ho' Hc'.
  unfold Calculator.calculate_realized_pnl.
  cbn [Calculator.option_realized Calculator.total_realized].
  set (options := get_options_trades db account symbol None) in *.
  assert (Hnan : fold_left
            (λ acc opt, Py.fplus acc (Calculator.realized_pnl_of options opt))
            (filter (λ o, Is_true (Calculator.closed_to end_date o))
               (filter (λ o, Is_true (Calculator.closed_from start_date o))
                  (filter (λ o, Is_true (negb (Py.str_eq (status o) Const.OPEN)))
                          options)))
            (Py.Fin 0) = Py.NaN).
  { apply (fold_fplus_elem_NaN _ _ o).
    - apply list_elem_of_filter. split; [by apply Is_true_true|].
      apply list_elem_of_filter. split; [by apply Is_true_true|].
      apply list_elem_of_filter. split; [|done].
      apply Is_true_true, negb_true_iff. apply String.eqb_neq. exact Hst.
    - apply realized_pnl_of_missing; [done|].
      by apply (float_column_true _ _ o'). }
  by split.
Qed.

Lemma realized_pnl_nan_on_missing_close_price_witness :
  Calculator.option_realized
    (Calculator.calculate_realized_pnl store_expired_put (Some long_term)
       None None None) = Py.NaN
  ∧ Calculator.total_realized
      (Calculator.calculate_realized_pnl store_expired_put (Some long_term)
         None None None) = Py.NaN.
Proof.
  apply (realized_pnl_nan_on_missing_close_price store_expired_put
           (Some long_term) None None None
           expired_put closed_put).
  - vm_compute. apply list_elem_of_here.
  - vm_compute. discriminate.
  - reflexivity.
  - reflexivity.
  - reflexivity.
  - vm_compute. apply list_elem_of_further, list_elem_of_here.
  - by eexists.
Defined.

End RealizedPnl.

(** ** Cash-flow statement *)

Section Statement.
Import Database CashFlow Spec.
#[local] Open Scope Q_scope.

(** Evaluates the comparisons of two string constants in the goal. *)
Ltac eval_eqb :=
  repeat match goal with
  | |- context [String.eqb ?a ?b] =>
      let v := eval vm_compute in (String.eqb a b) in
      change (String.eqb a b) with v
  end.

Lemma sumQ_map_plus {A} (f g : A → Q) (l : list A) :
  Py.sumQ (map (λ x, f x + g x) l) == Py.sumQ (map f l) + Py.sumQ (map g l).
Proof.
  induction l as [|x l IH]; simpl; [ring|]. rewrite IH. ring.
Qed.

Lemma isin_sum types flows :
  Py.sumQ (map amount (isin types flows)) == Py.sumQ (map (counted types) flows).
Proof. unfold isin. by rewrite sumQ_filter. Qed.

Lemma counted_enumerated (f : cash_flow) :
  counted enumerated_types f
  == counted operating_types f + counted investing_types f
     + counted financing_types f + counted [Const.COMMISSION] f.
Proof.
  unfold counted, enumerated_types, operating_types, investing_types,
    financing_types, Py.str_in.
  cbn [existsb app].
  repeat match goal with
  | |- context [String.eqb (flow_type f) ?c] =>
      let E := fresh "E" in
      destruct (String.eqb (flow_type f) c) eqn:E;
      [apply String.eqb_eq in E; rewrite E; eval_eqb; cbn [orb]; ring|]
  end.
  cbn [orb]. ring.
Qed.

Lemma enumerated_sum flows :
  Py.sumQ (map amount (isin enumerated_types flows))
  == Py.sumQ (map amount (isin operating_types flows))
     + Py.sumQ (map amount (isin investing_types flows))
     + Py.sumQ (map amount (isin financing_types flows))
     + Py.sumQ (map amount (isin [Const.COMMISSION] flows)).
Proof.
  rewrite !isin_sum, <- !sumQ_map_plus.
  apply sumQ_map_ext. intros f _. apply counted_enumerated.
Qed.

Lemma commission_isin flows :
  filter (λ f : cash_flow, Is_true (Py.str_eq (flow_type f) Const.COMMISSION))
         flows
  = isin [Const.COMMISSION] flows.
Proof.
  unfold isin. apply list_filter_iff. intros f.
  unfold Py.str_in, Py.str_eq. cbn [existsb]. by rewrite orb_false_r.
Qed.

Lemma complement_sum (types : list string) flows :
  Py.sumQ (map amount (isin types flows))
  + Py.sumQ (map amount
      (filter (λ f : cash_flow, Is_true (negb (Py.str_in (flow_type f) types)))
              flows))
  == Py.sumQ (map amount flows).
Proof.
  unfold isin. rewrite !sumQ_filter, <- sumQ_map_plus.
  apply sumQ_map_ext. intros f _.
  destruct (Py.str_in (flow_type f) types); simpl; ring.
Qed.

(** C10.  In the cash-flow statement the net is the sum of the amounts
    of the rows whose type belongs to the fixed enumerations (operating,
    investing, financing, commission); each subtotal sums the rows of its
    own types only, so a row of any other type enters no subtotal, and the
    net falls short of the sum over all rows by exactly the rows of other
    types. *)
Theorem statement_net_over_enumerated_types db account start_date end_date :
  let flows := get_cash_flows db account None start_date end_date in
  let st := get_cash_flow_statement db account start_date end_date in
  net st == Py.sumQ (map amount (isin enumerated_types flows))
  ∧ subtotal_of (operating st)
    == Py.sumQ (map amount (isin operating_types flows))
  ∧ subtotal_of (investing st)
    == Py.sumQ (map amount (isin investing_types flows))
  ∧ subtotal_of (financing st)
    == Py.sumQ (map amount (isin financing_types flows))
  ∧ default 0 (commissions st)
    == Py.sumQ (map amount (isin [Const.COMMISSION] flows))
  ∧ net st
    + Py.sumQ (map amount
        (filter (λ f : cash_flow,
                   Is_true (negb (Py.str_in (flow_type f)
                                            enumerated_types)))
                flows))
    == Py.sumQ (map amount flows).
Proof.
  intros flows st.
  assert (Hnet : net st
                 == Py.sumQ (map amount (isin enumerated_types flows))).
  { subst st. unfold get_cash_flow_statement. fold flows.
    rewrite enumerated_sum. destruct flows as [|f0 rest] eqn:E.
    - cbn. ring.
    - rewrite <- E. cbn [net make_bucket subtotal].
      rewrite commission_isin. reflexivity. }
  split; [exact Hnet|].
  repeat split.
  - subst st. unfold get_cash_flow_statement. fold flows.
    destruct flows; cbn; reflexivity.
  - subst st. unfold get_cash_flow_statement. fold flows.
    destruct flows; cbn; reflexivity.
  - subst st. unfold get_cash_flow_statement. fold flows.
    destruct flows; cbn; reflexivity.
  - subst st. unfold get_cash_flow_statement. fold flows.
    destruct flows as [|f0 rest] eqn:E; [cbn; reflexivity|].
    rewrite <- E. cbn [commissions default]. by rewrite commission_isin.
  - rewrite Hnet. apply complement_sum.
Qed.

End Statement.

(** ** Stock summary *)

Section StockSummary.
Import Database Calculator Scenarios.
#[local] Open Scope Q_scope.


(** A row of the summary is the finished aggregate of the group of its
    key, and that group holds a positive number of shares. *)
Lemma stock_summary_row db account r :
  r ∈ calculate_stock_summary db account →
  ∃ locked,
    let g := group tx_key (sr_symbol r, sr_account r)
                   (get_transactions db account None None None) in
    r = finish_row locked (aggregate (sr_symbol r, sr_account r) g)
    ∧ (0 < Py.wrap64 (Py.sumZ (map signed_shares g)))%Z.
Proof.
  unfold calculate_stock_summary. intros Hr.
  apply list_elem_of_In, in_map_iff in Hr as (a & <- & Ha).
  apply list_elem_of_In, list_elem_of_filter in Ha as [Hpos Ha].
  apply list_elem_of_In, in_map_iff in Ha as (k & <- & _).
  eexists. cbn [finish_row sr_symbol sr_account agg_key aggregate].
  rewrite <- surjective_pairing. split; [reflexivity|].
  cbn in Hpos. apply Is_true_true in Hpos. by apply Z.ltb_lt in Hpos.
Qed.






End StockSummary.

(** ** Correlation clusters *)

Section Clusters.
Import Correlation.

Variable m : corr_matrix.
Variable threshold : Q.

Lemma loc_columns r c :
  r ∈ columns m → c ∈ columns m → loc m r c = Return (entry m r c).
Proof.
  intros Hr Hc. unfold loc.
  by rewrite !bool_decide_true by done.
Qed.

Lemma absorb_step i sym1 j sym2 (V : gset string) cl :
  sym1 ∈ columns m → sym2 ∈ columns m →
  absorb m threshold i sym1 (V, cl) (j, sym2)
  = Return (if negb (i =? j)%nat && negb (bool_decide (sym2 ∈ V))
               && fge (fabs (entry m sym1 sym2)) threshold
            then ((V ∪ {[sym2]}), cl ++ [sym2]) else (V, cl)).
Proof.
  intros H1 H2. unfold absorb.
  destruct (negb (i =? j)%nat && negb (bool_decide (sym2 ∈ V))); [|done].
  rewrite (loc_columns _ _ H1 H2). cbn.
  by destruct (fge (fabs (entry m sym1 sym2)) threshold).
Qed.

(** The inner loop only appends symbols that were not visited, each
    once, and marks them visited. *)
Lemma absorb_fold i sym1 (l : list (nat * string)) (V : gset string) cl :
  sym1 ∈ columns m →
  (∀ e, e ∈ l → e.2 ∈ columns m) →
  ∃ new,
    foldM (absorb m threshold i sym1) l (V, cl)
    = Return ((V ∪ list_to_set new), cl ++ new)
    ∧ NoDup new
    ∧ ∀ s, s ∈ new → (s ∉ V) ∧ s ∈ columns m.
Proof.
  intros Hsym1. revert V cl.
  induction l as [|[j sym2] l IH]; intros V cl Hl.
  - exists []. simpl. split; [|split].
    + f_equal. f_equal; [set_solver | by rewrite app_nil_r].
    + constructor.
    + intros s Hs. by apply elem_of_nil in Hs.
  - assert (Hsym2 : sym2 ∈ columns m) by (apply (Hl (j, sym2)); left).
    assert (Hl' : ∀ e, e ∈ l → e.2 ∈ columns m)
      by (intros e He; apply Hl; by right).
    cbn [foldM]. rewrite (absorb_step _ _ _ _ _ _ Hsym1 Hsym2). cbn [mbind exn_bind].
    destruct (negb (i =? j)%nat && negb (bool_decide (sym2 ∈ V))
              && fge (fabs (entry m sym1 sym2)) threshold) eqn:Hc.
    + apply andb_true_iff in Hc as [Hc _].
      apply andb_true_iff in Hc as [_ Hv].
      apply negb_true_iff, bool_decide_eq_false in Hv.
      destruct (IH (V ∪ {[sym2]}) (cl ++ [sym2]) Hl')
        as (new & Hf & Hnd & Hnew).
      exists (sym2 :: new). split; [|split].
      * rewrite Hf. f_equal. f_equal.
        -- set_solver.
        -- by rewrite <- app_assoc.
      * constructor; [|done]. intros Hin. apply Hnew in Hin. set_solver.
      * intros s Hs. apply elem_of_cons in Hs as [->|Hs]; [done|].
        apply Hnew in Hs. set_solver.
    + by apply IH.
Qed.

Lemma grow_visited i sym1 (V : gset string) cs :
  sym1 ∈ V → grow m threshold (V, cs) (i, sym1) = Return (V, cs).
Proof. intros H. unfold grow. by rewrite bool_decide_true. Qed.

Lemma grow_fresh i sym1 (V V' : gset string) cs cl :
  sym1 ∉ V →
  foldM (absorb m threshold i sym1) (enumerate (columns m))
        ((V ∪ {[sym1]}), [sym1]) = Return (V', cl) →
  grow m threshold (V, cs) (i, sym1)
  = Return (V', if (1 <? length cl)%nat
                then cs ++ [{| symbols := cl;
                               avg_correlation := upper_mean cl (entry m);
                               size_ := length cl |}]
                else cs).
Proof.
  intros H Hf. unfold grow. rewrite (bool_decide_eq_false_2 _ H).
  rewrite Hf. cbn [mbind exn_bind]. by destruct (1 <? length cl)%nat.
Qed.

Lemma grow_fold (l : list (nat * string)) (V : gset string) cs :
  (∀ e, e ∈ l → e.2 ∈ columns m) →
  Spec.clusters_ok m V cs →
  ∃ V' cs',
    foldM (grow m threshold) l (V, cs) = Return (V', cs')
    ∧ Spec.clusters_ok m V' cs'.
Proof.
  revert V cs. induction l as [|[i sym1] l IH]; intros V cs Hl Hok.
  - exists V, cs. by split.
  - assert (Hsym1 : sym1 ∈ columns m) by (apply (Hl (i, sym1)); left).
    assert (Hl' : ∀ e, e ∈ l → e.2 ∈ columns m)
      by (intros e He; apply Hl; by right).
    cbn [foldM].
    destruct (decide (sym1 ∈ V)) as [Hv|Hv].
    { rewrite (grow_visited _ _ _ _ Hv). cbn. by apply IH. }
    destruct (absorb_fold i sym1 (enumerate (columns m)) (V ∪ {[sym1]})
                [sym1] Hsym1) as (new & Hf & Hnd & Hnew).
    { intros e He. by apply enumerate_elem. }
    rewrite (grow_fresh _ _ _ _ _ _ Hv Hf).
    cbn [mbind exn_bind app].
    destruct (1 <? length (sym1 :: new))%nat eqn:Hlen; cbn.
    + apply IH; [done|]. destruct Hok as (Hnd0 & Hin0 & Hlen0).
      unfold Spec.clusters_ok. rewrite map_app, concat_app. cbn.
      rewrite app_nil_r. split; [|split].
      * apply NoDup_app. split; [done|]. split.
        -- intros s Hs Hs'. apply Hin0 in Hs as [Hs _].
           apply elem_of_cons in Hs' as [->|Hs']; [done|].
           apply Hnew in Hs'. set_solver.
        -- constructor; [|done]. intros Hin. apply Hnew in Hin. set_solver.
      * intros s Hs. apply elem_of_app in Hs as [Hs|Hs].
        -- apply Hin0 in Hs. set_solver.
        -- apply elem_of_cons in Hs as [->|Hs]; [set_solver|].
           split; [apply elem_of_union_r; set_solver | by apply Hnew].
      * intros c Hc. apply elem_of_app in Hc as [Hc|Hc]; [by apply Hlen0|].
        apply list_elem_of_singleton in Hc as ->. cbn.
        apply Nat.ltb_lt in Hlen. cbn in Hlen. split; [lia|done].
    + apply IH; [done|]. destruct Hok as (Hnd0 & Hin0 & Hlen0).
      split; [done|]. split; [|done].
      intros s Hs. apply Hin0 in Hs. set_solver.
Qed.

End Clusters.

Lemma concat_NoDup_disjoint {A} (ls : list (list A)) i j a b :
  NoDup (concat ls) → ls !! i = Some a → ls !! j = Some b → i ≠ j →
  ∀ x, x ∈ a → x ∉ b.
Proof.
  revert i j. induction ls as [|l ls IH]; intros i j Hnd Hi Hj Hij x Ha Hb.
  { by rewrite lookup_nil in Hi. }
  cbn in Hnd. apply NoDup_app in Hnd as (Hl & Hdis & Hrest).
  destruct i as [|i], j as [|j]; cbn in Hi, Hj; simplify_eq.
  - apply (Hdis x Ha). apply list_elem_of_In, in_concat. exists b.
    split; apply list_elem_of_In; [|done]. by eapply list_elem_of_lookup_2.
  - apply (Hdis x Hb). apply list_elem_of_In, in_concat. exists a.
    split; apply list_elem_of_In; [|done]. by eapply list_elem_of_lookup_2.
  - eapply (IH i j); eauto.
Qed.

Lemma concat_NoDup_each {A} (ls : list (list A)) a :
  NoDup (concat ls) → a ∈ ls → NoDup a.
Proof.
  induction ls as [|l ls IH]; intros Hnd Ha; [by apply elem_of_nil in Ha|].
  cbn in Hnd. apply NoDup_app in Hnd as (Hl & _ & Hrest).
  apply elem_of_cons in Ha as [->|Ha]; auto.
Qed.

(** C9.  [identify_correlation_clusters] returns, without raising,
    clusters that are pairwise disjoint, each made of at least two
    distinct symbols, all of them labels of the input frame. *)
Theorem clusters_disjoint_and_proper (corr : option Correlation.corr_matrix)
    (threshold : Q) :
  ∃ cs, Correlation.identify_correlation_clusters corr threshold
        = Correlation.Return cs
  ∧ (∀ c, c ∈ cs →
       NoDup (Correlation.symbols c)
       ∧ 2 ≤ length (Correlation.symbols c)
       ∧ Correlation.size_ c = length (Correlation.symbols c)
       ∧ ∀ s, s ∈ Correlation.symbols c →
              ∃ m, corr = Some m ∧ s ∈ Correlation.columns m)
  ∧ (∀ i j c1 c2, cs !! i = Some c1 → cs !! j = Some c2 → i ≠ j →
       ∀ s, s ∈ Correlation.symbols c1 → s ∉ Correlation.symbols c2).
Proof.
  destruct corr as [m|]; cbn.
  2:{ exists []. split; [done|]. split.
      - intros c Hc. by apply elem_of_nil in Hc.
      - intros i j c1 c2 Hi. by rewrite lookup_nil in Hi. }
  destruct (grow_fold m threshold (Correlation.enumerate (Correlation.columns m)) ∅ [])
    as (V & cs & Hf & Hnd & Hin & Hlen).
  { intros e He. by apply enumerate_elem. }
  { split; [constructor|]. split; [|intros c Hc; by apply elem_of_nil in Hc].
    intros s Hs. by apply elem_of_nil in Hs. }
  exists cs. rewrite Hf. cbn. split; [done|]. split.
  - intros c Hc. split.
    { apply (concat_NoDup_each _ _ Hnd). apply list_elem_of_In, in_map.
      by apply list_elem_of_In. }
    destruct (Hlen c Hc) as [H2 Hsz]. split; [done|]. split; [done|].
    intros s Hs. exists m. split; [done|]. apply Hin.
    apply list_elem_of_In, in_concat. exists (Correlation.symbols c).
    split; [|by apply list_elem_of_In]. apply in_map. by apply list_elem_of_In.
  - intros i j c1 c2 Hi Hj Hij.
    apply (concat_NoDup_disjoint (map Correlation.symbols cs) i j); try done.
    + change map with (@fmap list _) . by rewrite list_lookup_fmap, Hi.
    + change map with (@fmap list _) . by rewrite list_lookup_fmap, Hj.
Qed.

(** ** Diversification score *)

Section Diversification.
Import Correlation Scenarios.

Lemma score_count_bounds n : (5 ≤ score_count n ≤ 25)%Z.
Proof. unfold score_count. repeat case_match; lia. Qed.

Lemma score_corr_bounds a : (5 ≤ score_corr a ≤ 35)%Z.
Proof. unfold score_corr. repeat case_match; lia. Qed.

Lemma score_effective_bounds r : (5 ≤ score_effective r ≤ 20)%Z.
Proof. unfold score_effective. repeat case_match; lia. Qed.

Lemma score_sector_bounds u : (5 ≤ score_sector u ≤ 20)%Z.
Proof. unfold score_sector. repeat case_match; lia. Qed.

(** The score of an empty list of holdings is 0 with the rating
    无持仓 ("no holdings"). *)
Lemma empty_holdings_score corr weights sector_data :
  ∃ d, calculate_diversification_score [] corr weights sector_data = Return d
       ∧ score d = 0%Z ∧ rating d = NO_HOLDINGS.
Proof. eexists. by split. Qed.

(** Whenever a score is returned it lies between 0 and 100. *)
Lemma returned_score_bounds holdings corr weights sector_data d :
  calculate_diversification_score holdings corr weights sector_data = Return d →
  (0 ≤ score d ≤ 100)%Z.
Proof.
  unfold calculate_diversification_score.
  destruct (length holdings =? 0)%nat.
  { intros [= <-]. cbn. lia. }
  destruct (calculate_effective_n holdings corr weights) as [e|lbl]; [|done].
  cbn [mbind exn_bind].
  set (sec := match sector_data with Some sd => _ | None => _ end).
  assert (Hsec : (5 ≤ sec.1 ≤ 20)%Z).
  { subst sec. destruct sector_data as [sd|]; [|cbn; lia].
    case_bool_decide; [cbn; lia|]. cbn. apply score_sector_bounds. }
  destruct sec as [ss us]. cbn in Hsec.
  intros [= <-]. cbn [score].
  pose proof (score_count_bounds (length holdings)).
  pose proof (score_effective_bounds
    (if (0 <? length holdings)%nat
     then (e / inject_Z (Z.of_nat (length holdings)))%Q else 0%Q)).
  destruct corr as [m|].
  - pose proof (score_corr_bounds (upper_mean (columns m) (entry m))). lia.
  - lia.
Qed.

Lemma upper_pairs_elem holdings p :
  p ∈ upper_pairs holdings → p.1 ∈ holdings ∧ p.2 ∈ holdings.
Proof.
  unfold upper_pairs. intros Hp.
  apply list_elem_of_In, in_flat_map in Hp as ([i s1] & H1 & Hp).
  apply list_elem_of_In, list_elem_of_omap in Hp as ([j s2] & H2 & Hp).
  destruct (i <? j)%nat; [|done]. injection Hp as <-.
  apply list_elem_of_In, enumerate_elem in H1.
  apply enumerate_elem in H2. by split.
Qed.

Lemma weigh_fold_returns m weights (ps : list (string * string)) st :
  (∀ p, p ∈ ps → p.1 ∈ columns m ∧ p.2 ∈ columns m) →
  ∃ st', foldM (weigh m weights) ps st = Return st'.
Proof.
  revert st. induction ps as [|p ps IH]; intros [wc tw] Hps.
  - by eexists.
  - destruct (Hps p) as [H1 H2]; [by left|].
    cbn [foldM]. unfold weigh at 2. unfold loc.
    rewrite !bool_decide_true by done. cbn [mbind exn_bind].
    apply IH. intros q Hq. apply Hps. by right.
Qed.

Lemma effective_n_returns holdings corr weights :
  (∀ m, corr = Some m → ∀ h, h ∈ holdings → h ∈ columns m) →
  ∃ e, calculate_effective_n holdings corr weights = Return e.
Proof.
  intros Hcols. unfold calculate_effective_n.
  destruct (length holdings =? 0)%nat; [by eexists|].
  destruct corr as [m|]; [|by eexists].
  destruct (weigh_fold_returns m (default (equal_weights holdings) weights)
              (upper_pairs holdings) (Fin 0, 0%Q)) as ([wc tw] & ->).
  { intros p Hp. apply upper_pairs_elem in Hp as [H1 H2].
    split; by apply (Hcols m). }
  cbn [mbind exn_bind]. destruct (Py.Qgtb tw 0); by eexists.
Qed.

(** With no frame, or with a frame that has every holding among its
    labels, a score is returned and lies between 0 and 100. *)
Lemma labelled_score_bounds holdings corr weights sector_data :
  (∀ m, corr = Some m → ∀ h, h ∈ holdings → h ∈ columns m) →
  ∃ d, calculate_diversification_score holdings corr weights sector_data
       = Return d
       ∧ (0 ≤ score d ≤ 100)%Z.
Proof.
  intros Hcols.
  destruct (effective_n_returns holdings corr weights Hcols) as [e He].
  assert (∃ d, calculate_diversification_score holdings corr weights
                 sector_data = Return d) as [d Hd].
  { unfold calculate_diversification_score.
    destruct (length holdings =? 0)%nat; [by eexists|].
    rewrite He. cbn [mbind exn_bind].
    destruct (match sector_data with Some sd => _ | None => _ end).
    by eexists. }
  exists d. split; [done|]. by eapply returned_score_bounds.
Qed.

(** C8 (evaluation at the failing input).  With the three holdings
    AAPL, MSFT, NVDA and a correlation frame over AAPL and MSFT only (NVDA
    has no price history in the window), the lookup
    [corr_matrix.loc['AAPL', 'NVDA']] of [calculate_effective_n] raises
    [KeyError]: no score is returned. *)
Theorem score_raises_on_unlabelled_holding :
  calculate_diversification_score three_holdings (Some corr_aapl_msft)
    None (Some ∅)
  = KeyError "NVDA"
  ∧ ¬ ∃ d, calculate_diversification_score three_holdings
             (Some corr_aapl_msft) None (Some ∅) = Return d
           ∧ (0 ≤ score d ≤ 100)%Z.
Proof.
  assert (H : calculate_diversification_score three_holdings
                (Some corr_aapl_msft) None (Some ∅) = KeyError "NVDA")
    by (vm_compute; reflexivity).
  split; [exact H|]. intros (d & Hd & _). congruence.
Qed.

End Diversification.

(** ** Insufficient-data guard of the correlation matrix *)

Section MatrixGuard.
Import Database Correlation Spec.

Variable db : Database.t.
Variables start_date end_date : Z.

Lemma dict_set_keys {V} (d : list (string * V)) k v :
  (dict_set d k v).*1 = if bool_decide (k ∈ d.*1) then d.*1 else d.*1 ++ [k].
Proof.
  unfold dict_set. case_bool_decide as Hk.
  - clear Hk. induction d as [|e d IH]; [done|]. cbn.
    rewrite IH. f_equal. by case_bool_decide; simplify_eq.
  - by rewrite fmap_app.
Qed.

Lemma dict_set_elem {V} (d : list (string * V)) k v e :
  e ∈ dict_set d k v → e = (k, v) ∨ e ∈ d.
Proof.
  unfold dict_set. case_bool_decide as Hk.
  - intros He. apply list_elem_of_In, in_map_iff in He as (e' & <- & He').
    apply list_elem_of_In in He'. case_bool_decide; auto.
  - intros He. apply elem_of_app in He as [He|He]; [auto|].
    apply list_elem_of_singleton in He. auto.
Qed.

Lemma collect_step_ok d symbol :
  returns_ok db start_date end_date d →
  returns_ok db start_date end_date (collect_step db start_date end_date d symbol)
  ∧ ∀ s, s ∈ (collect_step db start_date end_date d symbol).*1
         ↔ s ∈ d.*1 ∨ (s = symbol ∧ has_data db start_date end_date s).
Proof.
  intros [Hnd Hval]. unfold collect_step. cbv zeta.
  case_bool_decide as Hempty.
  { split; [by split|]. intros s. split; [auto|].
    intros [ ? | [ -> Hd ] ]; [done|]. by destruct Hd. }
  split; [split|].
  - rewrite dict_set_keys. case_bool_decide as Hk; [done|].
    apply NoDup_app. split; [done|]. split; [|apply NoDup_singleton].
    intros x Hx Hx'. apply list_elem_of_singleton in Hx' as ->. done.
  - intros e He. apply dict_set_elem in He as [->|He]; [|by apply Hval].
    by split.
  - intros s. rewrite dict_set_keys. case_bool_decide as Hk.
    + split; [auto|]. intros [ ? | [ -> _ ] ]; done.
    + rewrite elem_of_app, list_elem_of_singleton. split.
      * intros [ ? | -> ]; [auto|]. right. by split.
      * intros [ ? | [ -> _ ] ]; auto.
Qed.

Lemma collect_fold_ok (l : list string) d :
  returns_ok db start_date end_date d →
  returns_ok db start_date end_date (foldl (collect_step db start_date end_date) d l)
  ∧ ∀ s, s ∈ (foldl (collect_step db start_date end_date) d l).*1
         ↔ s ∈ d.*1 ∨ (s ∈ l ∧ has_data db start_date end_date s).
Proof.
  revert d. induction l as [|x l IH]; intros d Hd; cbn [foldl].
  - split; [done|]. intros s. split; [auto|]. intros [ ? | [ H _ ] ]; [done|].
    by apply elem_of_nil in H.
  - destruct (collect_step_ok d x Hd) as [Hok Hkeys].
    destruct (IH _ Hok) as [Hok' Hkeys']. split; [done|].
    intros s. rewrite Hkeys', Hkeys, elem_of_cons. naive_solver.
Qed.

Lemma collect_returns_ok (holdings : list string) :
  let data := collect_returns db holdings start_date end_date in
  returns_ok db start_date end_date data
  ∧ ∀ s, s ∈ data.*1 ↔ s ∈ symbols_with_data db holdings start_date end_date.
Proof.
  cbv zeta. unfold collect_returns.
  destruct (collect_fold_ok holdings []) as [Hok Hkeys].
  { split; [constructor|]. intros e He. by apply elem_of_nil in He. }
  split; [done|]. intros s. rewrite Hkeys. unfold symbols_with_data.
  rewrite elem_of_filter, elem_of_list_to_set. cbn.
  split; [intros [ H | [ ? ? ] ]; [by apply elem_of_nil in H|done] | intros [ ? ? ]; auto].
Qed.



End MatrixGuard.

Section Alignment.
Import Database Correlation Spec.








End Alignment.

Section Guard.
Import Database Correlation Spec.

Variable pearson : list Q → list Q → fval.



End Guard.

Section GuardWitness.
Import Database Correlation Spec Scenarios.


End GuardWitness.

(** ** Rebalance consistency of share targets *)

Section ShareTargets.
Import Database PositionManager Spec Scenarios.
#[local] Open Scope Q_scope.

Lemma mapR_elem {A B} (f : A → raising B) (l : list A) (ys : list B) x :
  mapR f l = Ok ys → x ∈ l → ∃ y, y ∈ ys ∧ f x = Ok y.
Proof.
  revert ys. induction l as [|a l IH]; intros ys Hm Hx.
  { by apply elem_of_nil in Hx. }
  cbn in Hm. destruct (f a) as [b| |] eqn:Hfa; [|done..]. cbn in Hm.
  destruct (mapR f l) as [bs| |] eqn:Hfl; [|done..]. cbn in Hm.
  injection Hm as <-.
  apply elem_of_cons in Hx as [ -> | Hx ].
  - exists b. split; [left|done].
  - destruct (IH bs eq_refl Hx) as (y & Hy & Hfy).
    exists y. split; [by right|done].
Qed.

(** The holding found among the priced rows is the priced holding of the
    summary. *)
Lemma priced_holding prices (stocks : list Calculator.stock_row) symbol :
  head (filter (λ s : priced_stock,
                  Is_true (Py.str_eq (Calculator.sr_symbol (stock s)) symbol))
               (map (price_stock prices) stocks))
  = price_stock prices
      <$> head (filter (λ s : Calculator.stock_row,
                          Is_true (Py.str_eq (Calculator.sr_symbol s) symbol))
                       stocks).
Proof.
  induction stocks as [|s stocks IH]; [done|].
  cbn [map]. rewrite !filter_cons. cbn [stock price_stock].
  destruct (decide (Py.str_eq (Calculator.sr_symbol s) symbol)); [done|].
  exact IH.
Qed.

(** Every row of the summary carries [avg_cost * shares] as its total
    invested. *)
Lemma summary_total_invested db account r :
  r ∈ Calculator.calculate_stock_summary db account →
  Calculator.total_invested r
  = Calculator.avg_cost r * inject_Z (Calculator.current_shares r).
Proof.
  unfold Calculator.calculate_stock_summary. intros Hr.
  apply list_elem_of_In, in_map_iff in Hr as (a & <- & _). reflexivity.
Qed.

Lemma holding_elem db account symbol h :
  holding db account symbol = Some h →
  h ∈ Calculator.calculate_stock_summary db (Some account).
Proof.
  unfold holding. intros Hh. apply head_Some_elem_of in Hh.
  by apply list_elem_of_filter in Hh as [_ Hh].
Qed.

(** The members of a sorted frame are the rows sorted. *)
Lemma elem_of_stable_sort {A} (before : A → A → bool) (l : list A) x :
  x ∈ Py.stable_sort before l ↔ x ∈ l.
Proof. by rewrite stable_sort_Permutation. Qed.

(** [abs(deviation) > threshold] is false exactly inside the band; a
    NaN threshold never flags. *)
Lemma band_false (dev : Q) (threshold : Py.fval) :
  Py.fgtb (Correlation.fabs (Py.Fin dev)) threshold = false
  ↔ ∀ th, threshold = Py.Fin th → Qabs dev <= th.
Proof.
  destruct threshold as [t|]; cbn.
  - rewrite negb_false_iff, Qle_bool_iff. split.
    + by intros H th [= <-].
    + intros H. by apply H.
  - split; [by intros _ th|done].
Qed.

(** In exact arithmetic the deviation of a holding valued at a positive
    price is that of its average cost from the price. *)
Lemma share_target_deviation_avg (count : Z) (avg p : Q) :
  (0 < count)%Z → 0 < p →
  share_target_deviation count (avg * inject_Z count) (Some p)
  == (avg / p - 1) * 100.
Proof.
  intros Hc Hp. unfold share_target_deviation.
  assert (Hn : 0 < inject_Z count) by (by rewrite <- (Zlt_Qlt 0)).
  assert (Hp0 : ¬ p == 0).
  { intros H0. rewrite H0 in Hp. by apply Qlt_irrefl in Hp. }
  assert (Hn0 : ¬ inject_Z count == 0).
  { intros H0. rewrite H0 in Hn. by apply Qlt_irrefl in Hn. }
  assert (Ht : Py.truthy_num p = true).
  { unfold Py.truthy_num. apply negb_true_iff.
    destruct (Qeq_bool p 0) eqn:E; [|done]. by apply Qeq_bool_eq in E. }
  assert (Hg : Py.Qgtb (inject_Z count * p) 0 = true).
  { apply Qgtb_true. rewrite <- (Qmult_0_l p). by apply Qmult_lt_compat_r. }
  rewrite Ht, Hg. cbn [andb]. field. by split.
Qed.

(** The row of a share target whose count is the held count. *)
Lemma analyze_share_target_met targets total_capital_ prices
    (summary : list Calculator.stock_row) target :
  let h := head (filter (λ s : Calculator.stock_row,
                           Is_true (Py.str_eq (Calculator.sr_symbol s)
                                              (pt_stock_symbol target)))
                        summary) in
  let dev :=
    share_target_deviation (shares_of h) (invested_of h)
      (valuation_price prices (pt_stock_symbol target) (avg_cost_of h)) in
  target_type target = Const.SHARES →
  or_z targets target_shares target 0 = Some (shares_of h) →
  ∃ r, analyze_target targets total_capital_ prices
         (map (price_stock prices) summary) target = Ok r
       ∧ a_symbol r = pt_stock_symbol target
       ∧ a_current_shares r = shares_of h
       ∧ a_target_type r = Some Const.SHARES
       ∧ action r = Some Const.HOLD
       ∧ action_shares r = Some 0%Z
       ∧ a_deviation_pct r = Some (Py.Fin dev)
       ∧ a_threshold r
         = Some (Py.cell_or targets rebalance_threshold target (Py.Fin 10))
       ∧ needs_rebalance r
         = Py.fgtb (Correlation.fabs (Py.Fin dev))
             (Py.cell_or targets rebalance_threshold target (Py.Fin 10)).
Proof.
  intros h dev Htype Hmet. unfold analyze_target.
  rewrite priced_holding. fold h.
  assert (Hsug : ∀ ap d,
    suggest targets prices target (shares_of h) ap d = Ok (Const.HOLD, 0%Z)).
  { intros ap d. unfold suggest. rewrite Htype.
    change (Py.str_eq Const.SHARES Const.SHARES) with true. cbv iota.
    rewrite Hmet. cbv zeta. rewrite Z.sub_diag. reflexivity. }
  assert (Hta : ∀ ap, ∃ ma,
    target_amounts targets total_capital_ prices ap target
    = Ok (match valuation_price prices (pt_stock_symbol target) ap with
          | Some p => if Py.truthy_num p
                      then Py.Fin (inject_Z (shares_of h) * p) else Py.Fin 0
          | None => Py.Fin 0
          end, ma)).
  { intros ap. unfold target_amounts, valuation_price. rewrite Htype.
    change (Py.str_eq Const.SHARES Const.PERCENT) with false.
    change (Py.str_eq Const.SHARES Const.SHARES) with true. cbv iota.
    rewrite Hmet. unfold max_shares_or.
    destruct (max_shares target) as [v|];
      [destruct (v =? 0)%Z|destruct (Py.float_column max_shares targets)];
      cbn [mbind raising_bind];
      (destruct (if dict_truthy prices then _ else _) as [p|];
         cbn [truthy_cell default of_count];
         [destruct (Py.truthy_num p)|]); eexists; reflexivity. }
  assert (Hdev : ∀ ca ap,
    (if Py.fgtb
          (match valuation_price prices (pt_stock_symbol target) ap with
           | Some p => if Py.truthy_num p
                       then Py.Fin (inject_Z (shares_of h) * p) else Py.Fin 0
           | None => Py.Fin 0
           end) (Py.Fin 0)
     then Py.ftimes
            (Py.fminus
               (Py.fover (Py.Fin ca)
                  (match valuation_price prices (pt_stock_symbol target) ap with
                   | Some p => if Py.truthy_num p
                               then Py.Fin (inject_Z (shares_of h) * p)
                               else Py.Fin 0
                   | None => Py.Fin 0
                   end))
               (Py.Fin 1))
            (Py.Fin 100)
     else Py.Fin 0)
    = Py.Fin (share_target_deviation (shares_of h) ca
                (valuation_price prices (pt_stock_symbol target) ap))).
  { intros ca ap. unfold share_target_deviation.
    destruct (valuation_price prices (pt_stock_symbol target) ap) as [p|];
      [|reflexivity].
    destruct (Py.truthy_num p); cbn [andb]; [|reflexivity].
    cbn [Py.fgtb]. unfold Py.Qgtb.
    by destruct (negb (Qle_bool (inject_Z (shares_of h) * p) 0)). }
  subst dev.
  destruct h as [r|] eqn:Hh; cbn [fmap option_fmap option_map shares_of
    avg_cost_of invested_of stock price_stock] in *.
  - destruct (Hta (Calculator.avg_cost r)) as [ma ->].
    cbn [mbind raising_bind]. rewrite Hsug. cbn [mbind raising_bind].
    eexists. split; [reflexivity|]. cbn [a_symbol a_current_shares
      a_target_type action action_shares a_deviation_pct a_threshold
      needs_rebalance]. rewrite Hdev, Htype. by repeat split.
  - destruct (Hta 0) as [ma ->].
    cbn [mbind raising_bind]. rewrite Hsug. cbn [mbind raising_bind].
    eexists. split; [reflexivity|]. cbn [a_symbol a_current_shares
      a_target_type action action_shares a_deviation_pct a_threshold
      needs_rebalance]. rewrite Hdev, Htype. by repeat split.
Qed.

(** C2 (amended).  For a share target whose count, as the analysis
    reads it, equals the held count, the analysis reports the action
    持有 ("hold") with 0 shares whatever the price and the average cost.
    Its deviation is [(current_amount / target_amount - 1) * 100] with
    the target amount the held count at the valuation price (0 without a
    usable price or a positive target amount), and it reports no need to
    rebalance exactly when the absolute deviation does not exceed the
    threshold of the target; a threshold read as NaN never flags. *)
Theorem share_target_met_holds (batch_get_prices : list string → gmap string Q)
    db account current_prices rows target :
  let targets := get_position_targets db (Some account) true in
  let symbol := pt_stock_symbol target in
  let prices :=
    resolve_prices batch_get_prices
      (Calculator.calculate_stock_summary db (Some account)) targets
      current_prices in
  let dev :=
    share_target_deviation (held_shares db account symbol)
      (held_amount db account symbol)
      (valuation_price prices symbol (held_avg_cost db account symbol)) in
  get_position_analysis batch_get_prices db account current_prices
  = Ok (Some rows) →
  target ∈ targets →
  target_type target = Const.SHARES →
  or_z targets target_shares target 0 = Some (held_shares db account symbol) →
  ∃ r, r ∈ rows
       ∧ a_symbol r = symbol
       ∧ a_current_shares r = held_shares db account symbol
       ∧ a_target_type r = Some Const.SHARES
       ∧ action r = Some Const.HOLD
       ∧ action_shares r = Some 0%Z
       ∧ a_deviation_pct r = Some (Py.Fin dev)
       ∧ a_threshold r
         = Some (Py.cell_or targets rebalance_threshold target (Py.Fin 10))
       ∧ (needs_rebalance r = false
          ↔ ∀ th, a_threshold r = Some (Py.Fin th) → Qabs dev <= th).
Proof.
  intros targets symbol prices dev Hrows Htarget Htype Hmet.
  unfold get_position_analysis in Hrows.
  destruct (filter _ (get_accounts db)) as [|info rest]; [done|].
  cbv zeta in Hrows.
  set (summary := Calculator.calculate_stock_summary db (Some account)) in *.
  fold targets prices in Hrows.
  destruct targets as [|t0 ts] eqn:Hts; [by apply elem_of_nil in Htarget|].
  rewrite <- Hts in *.
  destruct (mapR _ targets) as [analysis| |] eqn:Hmap; [|done..].
  cbn [mbind raising_bind] in Hrows. injection Hrows as <-.
  destruct (mapR_elem _ _ _ _ Hmap Htarget) as (y & Hy & Hfy).
  destruct (analyze_share_target_met targets (total_capital info) prices
              summary target Htype Hmet)
    as (r & Hr & H1 & H2 & H3 & H4 & H5 & H6 & H7 & H8).
  rewrite Hr in Hfy. injection Hfy as <-.
  exists r. split.
  { apply elem_of_stable_sort, elem_of_app. by left. }
  do 7 (split; [done|]).
  rewrite H8, H7. etransitivity; [apply band_false|]. split.
  - intros H th [= Hth]. by apply H.
  - intros H th Hth. apply H. by rewrite Hth.
Qed.

(** C2 as stated fails: 10 shares of NVDA bought at 100, a target of 10
    shares with a threshold of 10 percent and a live price of 200 give a
    row whose held count equals the target, whose action is "hold", and
    which is flagged as needing a rebalance (deviation of -50 percent). *)
Lemma share_target_met_needs_rebalance_counterexample :
  ∃ r, get_position_analysis no_prices store_target long_term
         (Some (nvda_at 200)) = Ok (Some [r])
       ∧ a_target_type r = Some Const.SHARES
       ∧ a_current_shares r = 10%Z
       ∧ target_shares target_10_nvda = Some 10%Z
       ∧ action r = Some Const.HOLD
       ∧ needs_rebalance r = true
       ∧ ¬ (needs_rebalance r = false ∧ action r = Some Const.HOLD).
Proof.
  eexists. split; [vm_compute; reflexivity|].
  repeat split; try done. by intros [? _].
Qed.

Lemma share_target_met_holds_witness :
  ∃ r, get_position_analysis no_prices store_target long_term
         (Some (nvda_at 105)) = Ok (Some [r])
       ∧ action r = Some Const.HOLD
       ∧ action_shares r = Some 0%Z
       ∧ needs_rebalance r = false.
Proof.
  destruct (share_target_met_holds no_prices store_target long_term
              (Some (nvda_at 105))
              (default [] (default None
                 (match get_position_analysis no_prices store_target
                          long_term (Some (nvda_at 105)) with
                  | Ok x => Some x | _ => None end)))
              target_10_nvda)
    as (r & Hr & _ & _ & _ & Ha & Hs & _ & Ht & Hn).
  - vm_compute. reflexivity.
  - vm_compute. apply list_elem_of_here.
  - reflexivity.
  - vm_compute. reflexivity.
  - assert (Hneeds : needs_rebalance r = false).
    { apply Hn. intros th Hth. rewrite Ht in Hth. vm_compute in Hth.
      injection Hth as <-. vm_compute. discriminate. }
    exists r. vm_compute in Hr.
    apply list_elem_of_singleton in Hr. subst r.
    split; [vm_compute; reflexivity|]. by repeat split.
Defined.

End ShareTargets.

(** ** Further properties of the stock summary *)

Section SummaryRows.
Import Database Calculator Scenarios.
#[local] Open Scope Q_scope.



Lemma group_keys_elem {A} (f : A → key) (l : list A) k :
  k ∈ group_keys f l ↔ ∃ x, x ∈ l ∧ f x = k.
Proof.
  unfold group_keys. rewrite merge_sort_Permutation, elem_of_remove_dups.
  rewrite list_elem_of_In, in_map_iff.
  split; intros (x & H1 & H2); exists x; [split; [by apply list_elem_of_In|done]
                                          |split; [done|by apply list_elem_of_In]].
Qed.

Lemma group_keys_NoDup {A} (f : A → key) (l : list A) :
  NoDup (group_keys f l).
Proof.
  unfold group_keys. rewrite merge_sort_Permutation. apply NoDup_remove_dups.
Qed.

(** The rows of the summary, one per group with a positive number of
    shares. *)
Lemma stock_summary_rows db account :
  ∃ locked,
    calculate_stock_summary db account
    = map (finish_row locked)
        (filter (λ a : agg_row, Is_true (0 <? agg_shares a)%Z)
           (map (λ k, aggregate k
                   (group tx_key k (get_transactions db account None None None)))
                (group_keys tx_key
                   (get_transactions db account None None None)))).
Proof. eexists. reflexivity. Qed.



(** X2.  The stock summary has one row per (symbol, account): the keys
    of its rows are pairwise distinct. *)
Theorem stock_summary_keys_distinct db account :
  NoDup (map (λ r, (sr_symbol r, sr_account r))
             (calculate_stock_summary db account)).
Proof.
  destruct (stock_summary_rows db account) as [locked ->].
  rewrite map_map. cbn [finish_row sr_symbol sr_account].
  erewrite map_ext; [|intros a; symmetry; apply surjective_pairing].
  set (keys := group_keys tx_key _).
  assert (Hnd : NoDup keys) by apply group_keys_NoDup.
  clearbody keys. induction keys as [|k keys IH]; [constructor|].
  apply NoDup_cons in Hnd as [Hk Hnd]. cbn [map]. rewrite filter_cons.
  destruct (decide _); [|by apply IH].
  cbn [map]. apply NoDup_cons. split; [|by apply IH].
  intros Hin. apply Hk.
  apply list_elem_of_In, in_map_iff in Hin as (a & Ha & Hin).
  apply list_elem_of_In, list_elem_of_filter in Hin as [_ Hin].
  apply list_elem_of_In, in_map_iff in Hin as (k' & <- & Hk').
  cbn in Ha. subst. by apply list_elem_of_In.
Qed.








(** X4.  A (symbol, account) pair has a row in the stock summary exactly
    when the signed shares of its transactions, summed as 64-bit
    integers, give a positive number, and the row carries that number:
    positions sold out are dropped, and so is a position whose sum
    wraps around to a negative number. *)
Theorem stock_summary_row_iff_net_shares_positive db account symbol acct :
  let net :=
    Py.wrap64 (Py.sumZ (map signed_shares
                 (group tx_key (symbol, acct)
                        (get_transactions db account None None None)))) in
  ((∃ r, r ∈ calculate_stock_summary db account
         ∧ sr_symbol r = symbol ∧ sr_account r = acct)
   ↔ (0 < net)%Z)
  ∧ ∀ r, r ∈ calculate_stock_summary db account →
         sr_symbol r = symbol → sr_account r = acct →
         current_shares r = net.
Proof.
  cbv zeta. split; [split|].
  - intros (r & Hr & <- & <-).
    destruct (stock_summary_row _ _ _ Hr) as (locked & _ & Hpos). exact Hpos.
  - intros Hpos.
    destruct (stock_summary_rows db account) as [locked Heq].
    set (txs := get_transactions db account None None None) in *.
    exists (finish_row locked (aggregate (symbol, acct)
                                 (group tx_key (symbol, acct) txs))).
    split; [|done]. rewrite Heq.
    apply list_elem_of_In. apply in_map. apply list_elem_of_In.
    apply list_elem_of_filter. split.
    { cbn. apply Is_true_true. by apply Z.ltb_lt. }
    apply list_elem_of_In.
    apply (in_map (λ k, aggregate k (group tx_key k txs))).
    apply list_elem_of_In, group_keys_elem.
    destruct (group tx_key (symbol, acct) txs) as [|x rest] eqn:Hg;
      [vm_compute in Hpos; discriminate|].
    assert (Hx : x ∈ group tx_key (symbol, acct) txs) by (rewrite Hg; left).
    apply list_elem_of_filter in Hx as [? ?]. by exists x.
  - intros r Hr <- <-.
    destruct (stock_summary_row _ _ _ Hr) as (locked & Heq & _).
    cbv zeta in Heq. by rewrite Heq at 1.
Qed.

(** Two purchases of 2^62 shares wrap around: no row is reported. *)
Lemma stock_summary_row_iff_net_shares_positive_witness :
  calculate_stock_summary store_wrapped None = []
  ∧ ¬ ∃ r, r ∈ calculate_stock_summary store_wrapped None
           ∧ sr_symbol r = "NVDA"%string ∧ sr_account r = long_term.
Proof.
  split; [vm_compute; reflexivity|].
  intros H.
  apply (proj1 (stock_summary_row_iff_net_shares_positive store_wrapped None
                  "NVDA" long_term)) in H.
  vm_compute in H. discriminate.
Defined.

End SummaryRows.

(** ** Further properties of the account overview *)

Section OverviewMore.
Import Database Calculator Scenarios.
#[local] Open Scope Q_scope.






(** X7.  The net cash flow of the overview counts the interest, deposit
    and withdrawal rows of the account and nothing else: trading flows
    never enter it. *)
Theorem overview_net_cash_flow_external db name prices ov :
  name ≠ ""%string →
  calculate_account_overview db name prices = Some ov →
  ov_net_cash_flow ov
  == Py.sumQ (map amount
       (filter (λ f, Is_true (Spec.external_flow_of name f))
               (cash_flows db))).
Proof.
  intros Hne. unfold calculate_account_overview.
  destruct (filter _ (get_accounts db)) as [|info rest]; [done|].
  intros [= <-]. cbn [ov_net_cash_flow].
  unfold get_cash_flows. rewrite sumQ_filter.
  rewrite (sumQ_map_perm _ _ _ (merge_sort_Permutation _ _)).
  rewrite !sumQ_filter. apply sumQ_map_ext. intros f _.
  rewrite (sel_str_name _ _ Hne). unfold Spec.external_flow_of, sel_str,
    sel_from, sel_to. cbn [Py.truthy_str].
  destruct (Py.str_eq (cf_account_name f) name); cbn [andb]; reflexivity.
Qed.

Lemma overview_net_cash_flow_external_witness :
  ∃ ov, calculate_account_overview store_withdrawn long_term None = Some ov
        ∧ ov_net_cash_flow ov == - (2000).
Proof.
  eexists. split; [vm_compute; reflexivity|].
  etransitivity.
  - apply (overview_net_cash_flow_external store_withdrawn long_term None).
    + discriminate.
    + vm_compute; reflexivity.
  - vm_compute; reflexivity.
Defined.

End OverviewMore.

(** ** Strategy alpha and realized profit *)

Section StrategyAlpha.
Import Database Scenarios.
#[local] Open Scope Q_scope.

Lemma filter_and3 {A} (p q r : A → bool) (l : list A) :
  filter (λ x, Is_true (r x))
    (filter (λ x, Is_true (q x)) (filter (λ x, Is_true (p x)) l))
  = filter (λ x, Is_true (p x && q x && r x)) l.
Proof.
  induction l as [|x l IH]; [done|].
  rewrite (filter_cons (λ x, Is_true (p x))),
    (filter_cons (λ x, Is_true (p x && q x && r x))).
  destruct (p x) eqn:Hp; cbn [andb].
  2:{ rewrite decide_False by tauto. rewrite decide_False by tauto. exact IH. }
  rewrite (decide_True (P := Is_true true)) by exact I.
  rewrite (filter_cons (λ x, Is_true (q x))).
  destruct (q x) eqn:Hq; cbn [andb].
  2:{ rewrite decide_False by tauto. rewrite decide_False by tauto. exact IH. }
  rewrite (decide_True (P := Is_true true)) by exact I.
  rewrite (filter_cons (λ x, Is_true (r x))).
  destruct (r x) eqn:Hr.
  - rewrite !(decide_True (P := Is_true true)) by exact I. by rewrite IH.
  - rewrite !(decide_False (P := Is_true false)) by tauto. exact IH.
Qed.

(** The two loops run over the same options of the same frame and add
    the same terms. *)
Lemma realized_in_period db account start_date end_date :
  Calculator.option_realized
    (Calculator.calculate_realized_pnl db account None
       (Some start_date) (Some end_date))
  = fold_left
      (λ acc opt,
         Py.fplus acc
           (Attribution.strategy_pnl_of
              (get_options_trades db account None None) opt))
      (filter (λ o, Is_true (Attribution.closed_in_period
                               start_date end_date o))
              (get_options_trades db account None None))
      (Py.Fin 0).
Proof.
  unfold Calculator.calculate_realized_pnl. cbn [Calculator.option_realized].
  rewrite filter_and3. reflexivity.
Qed.

(** X9.  The strategy alpha of an account over a period is the realized
    option profit that [calculate_realized_pnl] reports for the account
    and the period, divided by the total capital of the account; it is 0
    when the account is unknown or its capital is not positive, and NaN
    when the realized profit is NaN. *)
Theorem strategy_alpha_is_realized_over_capital db account
    start_date end_date :
  Py.same_float
    (Attribution._calculate_strategy_alpha db account start_date end_date)
    (match filter (λ a : Database.account,
                     Is_true (Py.str_eq (account_name a) account))
                  (accounts db) with
     | [] => Py.Fin 0
     | info :: _ =>
         if Py.Qgtb (total_capital info) 0
         then Py.fover
                (Calculator.option_realized
                   (Calculator.calculate_realized_pnl db (Some account) None
                      (Some start_date) (Some end_date)))
                (Py.Fin (total_capital info))
         else Py.Fin 0
     end).
Proof.
  unfold Attribution._calculate_strategy_alpha, get_accounts.
  rewrite realized_in_period.
  assert (Hrefl : ∀ x, Py.same_float x x).
  { intros [q|]; cbn; [reflexivity|exact I]. }
  assert (Hzero : ∀ c, Py.same_float (Py.Fin 0)
                         (Py.fover (Py.Fin 0) (Py.Fin c))).
  { intros c. cbn. unfold Qdiv. ring. }
  destruct (get_options_trades db (Some account) None None) as [|o os] eqn:Ho.
  { destruct (filter _ (accounts db)) as [|info rest]; [apply Hrefl|].
    destruct (Py.Qgtb _ 0); [|apply Hrefl]. apply Hzero. }
  rewrite <- Ho in *.
  destruct (filter (λ o, Is_true (Attribution.closed_in_period _ _ o)) _)
    as [|c cs] eqn:Hc.
  { destruct (filter _ (accounts db)) as [|info rest]; [apply Hrefl|].
    destruct (Py.Qgtb _ 0); [|apply Hrefl]. apply Hzero. }
  rewrite <- Hc in *.
  destruct (filter _ (accounts db)) as [|info rest]; [apply Hrefl|].
  destruct (Py.Qgtb _ 0); apply Hrefl.
Qed.

End StrategyAlpha.

(** ** Cash flows generated from trades *)

Section TradeFlows.
Import Database CashFlow.
#[local] Open Scope Q_scope.

Variable str_of_float : Q → string.
Variable str_of_int : Z → string.











(** X13.  Rows of a stock transaction: [auto_generate_from_transaction]
    only appends to the cash-flow table and leaves the transactions as
    they are; the first appended row is the trade row, whose identifier
    is returned and whose amount is the signed cash amount that
    [calculate_stock_summary] books for the transaction; a second row,
    the commission, follows exactly when the commission is positive; and
    every appended row carries the date, the account and the symbol of
    the transaction, points back to it and is flagged as generated. *)
Theorem transaction_rows_linked db tid trans :
  find_transaction db tid = Some trans →
  let res := auto_generate_from_transaction str_of_float str_of_int db tid in
  let rows := generated_rows db res.1 in
  cash_flows res.1 = cash_flows db ++ rows
  ∧ transactions res.1 = transactions db
  ∧ (∃ row rest,
       rows = row :: rest
       ∧ res.2 = Some (flow_id row)
       ∧ amount row = Calculator.signed_amount trans
       ∧ (if Py.Qgtb (commission trans) 0
          then ∃ fee, rest = [fee] ∧ flow_type fee = Const.COMMISSION
                      ∧ amount fee = - commission trans
          else rest = []))
  ∧ Forall (λ r : cash_flow,
              related_transaction_id r = Some tid
              ∧ flow_date r = transaction_date trans
              ∧ cf_account_name r = tx_account_name trans
              ∧ cf_stock_symbol r = Some (tx_stock_symbol trans)
              ∧ auto_generated r = true)
           rows.
Proof.
  intros Hfind res rows. subst rows res.
  unfold auto_generate_from_transaction, Calculator.signed_amount.
  rewrite Hfind. unfold generated_rows.
  destruct (Py.str_eq (transaction_type trans) Const.BUY);
    destruct (Py.Qgtb (commission trans) 0);
    cbn -[Qplus Qmult Qminus Qopp inject_Z];
    rewrite <- ?app_assoc, drop_app_length;
    (split; [reflexivity|]); (split; [reflexivity|]);
    (split; [do 2 eexists; split; [reflexivity|];
             split; [reflexivity|]; split; [reflexivity|];
             first [reflexivity | by eexists]
            | by repeat constructor]).
Qed.

Lemma find_none {A} (P : A → bool) (ids : A → Z) (l : list A) (id : Z) :
  (∀ x, P x = (ids x =? id)%Z) →
  id ∉ map ids l →
  head (filter (λ x, Is_true (P x)) l) = None.
Proof.
  intros HP Hid. induction l as [|x l IH]; [done|].
  cbn [map] in Hid. apply not_elem_of_cons in Hid as [Hx Hl].
  rewrite filter_cons_False; [by apply IH|].
  rewrite HP. intros H%Is_true_true%Z.eqb_eq. by apply Hx.
Qed.

(** X14.  Unknown identifiers: for an identifier that no transaction
    (no option) carries, the generators return no flow identifier and
    leave the store as it is, at the opening and at the close. *)
Theorem unknown_id_generates_nothing db id is_close :
  (id ∉ map transaction_id (transactions db) →
   auto_generate_from_transaction str_of_float str_of_int db id = (db, None))
  ∧ (id ∉ map option_id (options_trades db) →
     auto_generate_from_option str_of_float str_of_int db id is_close
     = Stored (db, None)).
Proof.
  split; intros Hid.
  - unfold auto_generate_from_transaction, find_transaction.
    by rewrite (find_none _ transaction_id _ id).
  - unfold auto_generate_from_option, find_option.
    by rewrite (find_none _ option_id _ id).
Qed.

End TradeFlows.

Section TradeFlowsWitnesses.
Import Database CashFlow Scenarios.
#[local] Open Scope Q_scope.



Lemma transaction_rows_linked_witness :
  let res := auto_generate_from_transaction no_text no_text
               store_buy_10_at_20 1 in
  let rows := generated_rows store_buy_10_at_20 res.1 in
  cash_flows res.1 = cash_flows store_buy_10_at_20 ++ rows
  ∧ transactions res.1 = transactions store_buy_10_at_20
  ∧ (∃ row rest,
       rows = row :: rest
       ∧ res.2 = Some (flow_id row)
       ∧ amount row = Calculator.signed_amount buy_10_at_20
       ∧ (if Py.Qgtb (commission buy_10_at_20) 0
          then ∃ fee, rest = [fee] ∧ flow_type fee = Const.COMMISSION
                      ∧ amount fee = - commission buy_10_at_20
          else rest = []))
  ∧ Forall (λ r : cash_flow,
              related_transaction_id r = Some 1%Z
              ∧ flow_date r = transaction_date buy_10_at_20
              ∧ cf_account_name r = tx_account_name buy_10_at_20
              ∧ cf_stock_symbol r = Some (tx_stock_symbol buy_10_at_20)
              ∧ auto_generated r = true)
           rows.
Proof.
  apply (transaction_rows_linked no_text no_text store_buy_10_at_20 1
           buy_10_at_20).
  reflexivity.
Defined.

Lemma unknown_id_generates_nothing_witness :
  auto_generate_from_transaction no_text no_text store_csp 7 = (store_csp, None)
  ∧ auto_generate_from_option no_text no_text store_csp 7 true
    = Stored (store_csp, None).
Proof.
  destruct (unknown_id_generates_nothing no_text no_text store_csp 7 true)
    as [H1 H2].
  split; [apply H1 | apply H2]; cbn; set_solver.
Defined.

End TradeFlowsWitnesses.

(** ** High-correlation pairs and clusters *)

Section HighPairs.
Import Correlation.
#[local] Open Scope Q_scope.

Lemma enumerate_lookup {A} (l : list A) (i : nat) (x : A) :
  (i, x) ∈ enumerate l ↔ l !! i = Some x.
Proof.
  unfold enumerate. split.
  - intros He. apply list_elem_of_lookup in He as [k Hk].
    apply list_lookup_imap_Some in Hk as (y & Hy & [= -> ->]). exact Hy.
  - intros Hl. apply list_elem_of_lookup. exists i.
    apply list_lookup_imap_Some. by exists x.
Qed.

(** The pairs visited under [if i < j] are the pairs of positions
    [i < j] of the list. *)
Lemma upper_pairs_lookup (l : list string) (p : string * string) :
  p ∈ upper_pairs l
  ↔ ∃ i j, (i < j)%nat ∧ l !! i = Some p.1 ∧ l !! j = Some p.2.
Proof.
  unfold upper_pairs. split.
  - intros Hp.
    apply list_elem_of_In, in_flat_map in Hp as ([i s1] & H1 & Hp).
    apply list_elem_of_In, list_elem_of_omap in Hp as ([j s2] & H2 & Hp).
    destruct (i <? j)%nat eqn:Hij; [|done]. injection Hp as <-.
    apply list_elem_of_In, enumerate_lookup in H1.
    apply enumerate_lookup in H2. apply Nat.ltb_lt in Hij.
    by exists i, j.
  - intros (i & j & Hij & H1 & H2). destruct p as [s1 s2]. cbn in H1, H2.
    apply list_elem_of_In, in_flat_map. exists (i, s1). split.
    { by apply list_elem_of_In, enumerate_lookup. }
    apply list_elem_of_In, list_elem_of_omap. exists (j, s2). split.
    { by apply enumerate_lookup. }
    apply Nat.ltb_lt in Hij. by rewrite Hij.
Qed.

Lemma collect_fold m threshold (l : list (string * string)) acc :
  (∀ p, p ∈ l → p.1 ∈ columns m ∧ p.2 ∈ columns m) →
  foldM (collect_pair m threshold) l acc
  = Return (acc ++ omap (Spec.high_pair_of m threshold) l).
Proof.
  revert acc. induction l as [|p l IH]; intros acc Hl.
  - cbn. by rewrite app_nil_r.
  - destruct (Hl p) as [H1 H2]; [by left|].
    cbn [foldM]. unfold collect_pair at 2.
    rewrite (loc_columns m _ _ H1 H2). cbn [mbind exn_bind].
    cbn [omap list_omap]. unfold Spec.high_pair_of at 1.
    destruct (fge (fabs (entry m p.1 p.2)) threshold); cbn [mbind exn_bind].
    + rewrite IH by (intros q Hq; apply Hl; by right).
      by rewrite <- app_assoc.
    + apply IH. intros q Hq. apply Hl. by right.
Qed.

Lemma fge_finite x b : fge (fabs x) b = true → ∃ q, x = Fin q ∧ b <= Qabs q.
Proof.
  destruct x as [q|]; [|done]. cbn. unfold Py.Qgeb. intros H.
  exists q. split; [done|]. by apply Qle_bool_iff.
Qed.

Lemma pair_before_asym a b :
  pair_before a b = true → pair_before b a = false.
Proof.
  unfold pair_before.
  destruct (fabs (correlation a)) as [x|], (fabs (correlation b)) as [y|];
    cbn; try done.
  unfold Py.Qltb. intros H%negb_true_iff. apply negb_false_iff.
  apply Qle_bool_iff, Qlt_le_weak, Qnot_le_lt. intros Hle.
  apply Qle_bool_iff in Hle. congruence.
Qed.

Lemma pair_before_finite a b x y :
  correlation a = Fin x → correlation b = Fin y →
  pair_before b a = false → Qabs y <= Qabs x.
Proof.
  unfold pair_before. intros -> ->. cbn. unfold Py.Qltb.
  intros H%negb_false_iff. by apply Qle_bool_iff.
Qed.

Lemma Sorted_finite (ps : list high_pair) :
  (∀ p, p ∈ ps → ∃ q, correlation p = Fin q) →
  Sorted (λ a b, pair_before b a = false) ps →
  Sorted (λ a b, ∃ x y, correlation a = Fin x ∧ correlation b = Fin y
                        ∧ Qabs y <= Qabs x) ps.
Proof.
  intros Hfin Hs. induction Hs as [|a l Hs IH Hhd]; [constructor|].
  constructor.
  - apply IH. intros p Hp. apply Hfin. by right.
  - destruct Hhd as [|b l Hab]; constructor.
    destruct (Hfin a) as [x Hx]; [by left|].
    destruct (Hfin b) as [y Hy]; [right; by left|].
    exists x, y. split; [done|]. split; [done|].
    by apply (pair_before_finite a b).
Qed.

Lemma high_pairs_returned (m : corr_matrix) (threshold : Q) :
  get_high_correlation_pairs (Some m) threshold
  = Return (Py.stable_sort pair_before
              (omap (Spec.high_pair_of m threshold)
                    (upper_pairs (columns m)))).
Proof.
  unfold get_high_correlation_pairs. rewrite collect_fold; [done|].
  intros p Hp. apply upper_pairs_lookup in Hp as (i & j & _ & H1 & H2).
  split; by eapply list_elem_of_lookup_2.
Qed.

Lemma high_pairs_mem (m : corr_matrix) (threshold : Q) (p : high_pair) :
  p ∈ Py.stable_sort pair_before
        (omap (Spec.high_pair_of m threshold) (upper_pairs (columns m)))
  ↔ ∃ i j q, (i < j)%nat
             ∧ columns m !! i = Some (symbol1 p)
             ∧ columns m !! j = Some (symbol2 p)
             ∧ entry m (symbol1 p) (symbol2 p) = Fin q
             ∧ correlation p = Fin q
             ∧ threshold <= Qabs q.
Proof.
  rewrite stable_sort_Permutation, list_elem_of_omap. split.
  - intros ([s1 s2] & Hin & Hp).
    apply upper_pairs_lookup in Hin as (i & j & Hij & H1 & H2).
    unfold Spec.high_pair_of in Hp. cbn in *.
    destruct (fge (fabs (entry m s1 s2)) threshold) eqn:Hge; [|done].
    injection Hp as <-. cbn.
    apply fge_finite in Hge as (q & Hq & Hle).
    exists i, j, q. by rewrite Hq.
  - intros (i & j & q & Hij & H1 & H2 & Hq & Hc & Hle).
    exists (symbol1 p, symbol2 p). split.
    { apply upper_pairs_lookup. by exists i, j. }
    unfold Spec.high_pair_of. cbn. rewrite Hq. cbn. unfold Py.Qgeb.
    apply Qle_bool_iff in Hle. rewrite Hle. f_equal.
    destruct p as [a b c]. cbn in *. by rewrite Hc.
Qed.

(** X15.  [get_high_correlation_pairs] never raises; it returns exactly
    the pairs of labels at positions [i < j] of the frame whose
    correlation is finite with an absolute value of at least the
    threshold, each with the cell of the frame as its correlation, in
    decreasing order of the absolute correlation; without a frame it
    returns no pair. *)
Theorem high_pairs_characterised (m : corr_matrix) (threshold : Q) :
  get_high_correlation_pairs None threshold = Return []
  ∧ ∃ ps,
      get_high_correlation_pairs (Some m) threshold = Return ps
      ∧ (∀ p, p ∈ ps
           ↔ ∃ i j q, (i < j)%nat
                      ∧ columns m !! i = Some (symbol1 p)
                      ∧ columns m !! j = Some (symbol2 p)
                      ∧ entry m (symbol1 p) (symbol2 p) = Fin q
                      ∧ correlation p = Fin q
                      ∧ threshold <= Qabs q)
      ∧ Sorted (λ a b, ∃ x y, correlation a = Fin x ∧ correlation b = Fin y
                              ∧ Qabs y <= Qabs x) ps.
Proof.
  split; [reflexivity|].
  eexists. split; [apply high_pairs_returned|].
  split; [apply high_pairs_mem|].
  apply Sorted_finite.
  - intros p Hp.
    apply high_pairs_mem in Hp as (_ & _ & q & _ & _ & _ & _ & Hc & _).
    by exists q.
  - apply stable_sort_Sorted, pair_before_asym.
Qed.

(** The inner loop absorbs only labels that were not visited, found at
    a position other than the seed's and correlated with the seed at
    the threshold or above. *)
Lemma absorb_fold_star m threshold i sym1 (l : list (nat * string))
    (V : gset string) cl :
  sym1 ∈ columns m →
  (∀ e, e ∈ l → e.2 ∈ columns m) →
  ∃ new,
    foldM (absorb m threshold i sym1) l (V, cl)
    = Return ((V ∪ list_to_set new), cl ++ new)
    ∧ ∀ s, s ∈ new →
        (s ∉ V)
        ∧ ∃ j, (j, s) ∈ l ∧ i ≠ j
               ∧ fge (fabs (entry m sym1 s)) threshold = true.
Proof.
  intros Hsym1. revert V cl.
  induction l as [|[j sym2] l IH]; intros V cl Hl.
  - exists []. simpl. split.
    + f_equal. f_equal; [set_solver | by rewrite app_nil_r].
    + intros s Hs. by apply elem_of_nil in Hs.
  - assert (Hsym2 : sym2 ∈ columns m) by (apply (Hl (j, sym2)); left).
    assert (Hl' : ∀ e, e ∈ l → e.2 ∈ columns m)
      by (intros e He; apply Hl; by right).
    cbn [foldM]. rewrite (absorb_step m threshold _ _ _ _ _ _ Hsym1 Hsym2).
    cbn [mbind exn_bind].
    destruct (negb (i =? j)%nat && negb (bool_decide (sym2 ∈ V))
              && fge (fabs (entry m sym1 sym2)) threshold) eqn:Hc.
    + apply andb_true_iff in Hc as [Hc Hge].
      apply andb_true_iff in Hc as [Hij Hv].
      apply negb_true_iff, bool_decide_eq_false in Hv.
      apply negb_true_iff, Nat.eqb_neq in Hij.
      destruct (IH (V ∪ {[sym2]}) (cl ++ [sym2]) Hl') as (new & Hf & Hnew).
      exists (sym2 :: new). split.
      * rewrite Hf. f_equal. f_equal.
        -- set_solver.
        -- by rewrite <- app_assoc.
      * intros s Hs. apply elem_of_cons in Hs as [->|Hs].
        -- split; [done|]. exists j. split; [by left|]. by split.
        -- destruct (Hnew s Hs) as (Hs' & j' & Hj' & Hne & Hge').
           split; [set_solver|]. exists j'. split; [by right|]. by split.
    + destruct (IH V cl Hl') as (new & Hf & Hnew).
      exists new. split; [done|]. intros s Hs.
      destruct (Hnew s Hs) as (Hs' & j' & Hj' & Hne & Hge').
      split; [done|]. exists j'. split; [by right|]. by split.
Qed.

(** The outer loop keeps every label before the current position
    visited, and only adds stars. *)
Lemma grow_fold_star m threshold (l : list (nat * string)) (k : nat)
    (V : gset string) cs :
  drop k (enumerate (columns m)) = l →
  (∀ j s, (j < k)%nat → columns m !! j = Some s → s ∈ V) →
  Forall (Spec.star m threshold) cs →
  ∃ V' cs',
    foldM (grow m threshold) l (V, cs) = Return (V', cs')
    ∧ Forall (Spec.star m threshold) cs'.
Proof.
  revert k V cs. induction l as [|[i sym1] l IH]; intros k V cs Hdrop Hvis Hok.
  - exists V, cs. by split.
  - assert (Hk : enumerate (columns m) !! k = Some (i, sym1)).
    { rewrite <- (Nat.add_0_r k), <- lookup_drop, Hdrop. done. }
    assert (Hrest : drop (S k) (enumerate (columns m)) = l).
    { rewrite (drop_S _ _ _ Hk) in Hdrop. by injection Hdrop. }
    unfold enumerate in Hk.
    apply list_lookup_imap_Some in Hk as (y & Hy & [= -> ->]).
    assert (Hsym1 : y ∈ columns m) by (by eapply list_elem_of_lookup_2).
    cbn [foldM].
    destruct (decide (y ∈ V)) as [Hv|Hv].
    { rewrite (grow_visited m threshold _ _ _ _ Hv). cbn [mbind exn_bind].
      apply (IH (S k)); [done| |done].
      intros j s Hj Hs. destruct (decide (j = k)) as [->|Hne].
      - rewrite Hy in Hs. by injection Hs as <-.
      - apply (Hvis j); [lia|done]. }
    destruct (absorb_fold_star m threshold k y (enumerate (columns m))
                (V ∪ {[y]}) [y] Hsym1) as (new & Hf & Hnew).
    { intros e He. by apply enumerate_elem. }
    rewrite (grow_fresh m threshold _ _ _ _ _ _ Hv Hf).
    cbn [mbind exn_bind app].
    apply (IH (S k)); [done| |].
    { intros j s Hj Hs. destruct (decide (j = k)) as [->|Hne].
      - rewrite Hy in Hs. injection Hs as <-. set_solver.
      - assert (s ∈ V) by (apply (Hvis j); [lia|done]). set_solver. }
    destruct (1 <? length (y :: new))%nat eqn:Hlen; [|done].
    apply Forall_app. split; [done|]. constructor; [|constructor].
    exists k, y, new. cbn [symbols]. split; [done|]. split.
    { intros ->. cbn in Hlen. done. }
    split; [done|]. intros s Hs.
    destruct (Hnew s Hs) as (Hs' & j & Hj & Hne & Hge).
    apply enumerate_lookup in Hj.
    exists j. split; [|by split].
    destruct (decide (j < k)%nat) as [Hlt|Hge']; [|lia].
    exfalso. apply Hs'. apply elem_of_union_l. by apply (Hvis j).
Qed.

(** X16.  Clusters and pairs agree: every cluster returned by
    [identify_correlation_clusters] is a star around its first symbol,
    each further member forming with it one of the pairs that
    [get_high_correlation_pairs] reports for the same frame and threshold
    (so its correlation with the first symbol is finite and at least the
    threshold in absolute value); when no pair is reported, no cluster
    is. *)
Theorem clusters_made_of_high_pairs (m : corr_matrix) (threshold : Q) :
  ∃ cs ps,
    identify_correlation_clusters (Some m) threshold = Return cs
    ∧ get_high_correlation_pairs (Some m) threshold = Return ps
    ∧ (∀ c, c ∈ cs →
         ∃ seed rest,
           symbols c = seed :: rest
           ∧ rest ≠ []
           ∧ ∀ s, s ∈ rest →
               ∃ p, p ∈ ps ∧ symbol1 p = seed ∧ symbol2 p = s)
    ∧ (ps = [] → cs = []).
Proof.
  destruct (grow_fold_star m threshold (enumerate (columns m)) 0 ∅ [])
    as (V & cs & Hf & Hstars); [done|intros; lia|constructor|].
  exists cs. eexists.
  split; [cbn; by rewrite Hf|]. split; [apply high_pairs_returned|].
  assert (Hmem : ∀ c, c ∈ cs →
    ∃ seed rest,
      symbols c = seed :: rest ∧ rest ≠ []
      ∧ ∀ s, s ∈ rest →
          ∃ p, p ∈ Py.stable_sort pair_before
                     (omap (Spec.high_pair_of m threshold)
                           (upper_pairs (columns m)))
               ∧ symbol1 p = seed ∧ symbol2 p = s).
  { intros c Hc. rewrite Forall_forall in Hstars.
    destruct (Hstars c Hc) as (i & seed & rest & Hsym & Hne & Hi & Hrest).
    exists seed, rest. split; [done|]. split; [done|]. intros s Hs.
    destruct (Hrest s Hs) as (j & Hij & Hj & Hge).
    apply fge_finite in Hge as (q & Hq & Hle).
    exists {| symbol1 := seed; symbol2 := s; correlation := Fin q |}.
    split; [|done]. apply high_pairs_mem. by exists i, j, q. }
  split; [exact Hmem|].
  intros Hps. destruct cs as [|c cs]; [done|]. exfalso.
  destruct (Hmem c) as (seed & rest & _ & Hne & Hrest); [by left|].
  destruct rest as [|s rest]; [done|].
  destruct (Hrest s) as (p & Hp & _); [by left|].
  rewrite Hps in Hp. by apply elem_of_nil in Hp.
Qed.

End HighPairs.

(** ** Effective number of holdings *)

Section EffectiveN.
Import Correlation.
#[local] Open Scope Q_scope.

Lemma max1_ge x : 1 <= max1 x.
Proof.
  unfold max1. destruct x as [q|]; [|apply Qle_refl].
  destruct (Py.Qgtb q 1) eqn:E; [|apply Qle_refl].
  apply Qgtb_true in E. by apply Qlt_le_weak.
Qed.

(** The accumulation over the pairs raises exactly when a pair has a
    component that is not a label, and then with such a component. *)
Lemma weigh_fold_outcome m weights (ps : list (string * string)) st :
  match foldM (weigh m weights) ps st with
  | Return _ => ∀ p, p ∈ ps → p.1 ∈ columns m ∧ p.2 ∈ columns m
  | KeyError s => ∃ p, p ∈ ps ∧ (s = p.1 ∨ s = p.2) ∧ s ∉ columns m
  end.
Proof.
  revert st. induction ps as [|p ps IH]; intros [wc tw].
  - cbn. intros p Hp. by apply elem_of_nil in Hp.
  - cbn [foldM]. unfold weigh at 2. unfold loc.
    case_bool_decide as H1; [case_bool_decide as H2|]; cbn [mbind exn_bind].
    + specialize (IH (fadd wc (fmul (default 0 (weights !! p.1)
                                      * default 0 (weights !! p.2))
                                     (fabs (entry m p.1 p.2))),
                      tw + default 0 (weights !! p.1)
                           * default 0 (weights !! p.2))).
      destruct (foldM _ ps _) as [st'|s].
      * intros q Hq. apply elem_of_cons in Hq as [->|Hq]; [done|by apply IH].
      * destruct IH as (q & Hq & Hs & Hn). exists q. split; [by right|done].
    + exists p. split; [by left|]. split; [by left|done].
    + exists p. split; [by left|]. split; [by right|done].
Qed.

(** X17.  Outcome of [calculate_effective_n]: a returned value is 0 for
    an empty list of holdings and at least 1 otherwise; the only error is
    a [KeyError] for a holding that is not a label of the frame. *)
Theorem effective_n_outcome holdings corr weights :
  match calculate_effective_n holdings corr weights with
  | Return q => if (length holdings =? 0)%nat then q = 0 else 1 <= q
  | KeyError s => ∃ m, corr = Some m ∧ s ∈ holdings ∧ s ∉ columns m
  end.
Proof.
  unfold calculate_effective_n.
  destruct (length holdings =? 0)%nat eqn:Hn; [done|].
  destruct corr as [m|]; cbn [mbind exn_bind]; [|apply max1_ge].
  pose proof (weigh_fold_outcome m (default (equal_weights holdings) weights)
                (upper_pairs holdings) (Fin 0, 0)) as Hw.
  destruct (foldM _ (upper_pairs holdings) _) as [[wc tw]|s];
    cbn [mbind exn_bind].
  - destruct (Py.Qgtb tw 0); cbn [mbind exn_bind]; apply max1_ge.
  - destruct Hw as (p & Hp & Hs & Hnot). exists m. split; [done|].
    split; [|done]. apply upper_pairs_elem in Hp as [H1 H2].
    by destruct Hs as [->| ->].
Qed.

Lemma in_some_pair (holdings : list string) (h : string) :
  (2 ≤ length holdings)%nat → h ∈ holdings →
  ∃ p, p ∈ upper_pairs holdings ∧ (h = p.1 ∨ h = p.2).
Proof.
  intros Hlen Hh. apply list_elem_of_lookup in Hh as [k Hk].
  destruct k as [|k].
  - destruct (lookup_lt_is_Some_2 holdings 1) as [x Hx]; [lia|].
    exists (h, x). split; [|by left].
    apply upper_pairs_lookup. exists 0%nat, 1%nat. cbn. split; [lia|done].
  - destruct (lookup_lt_is_Some_2 holdings 0) as [x Hx]; [lia|].
    exists (x, h). split; [|by right].
    apply upper_pairs_lookup. exists 0%nat, (S k). cbn. split; [lia|done].
Qed.

Lemma effective_n_raises holdings m weights h :
  (2 ≤ length holdings)%nat → h ∈ holdings → h ∉ columns m →
  ∃ s, calculate_effective_n holdings (Some m) weights = KeyError s.
Proof.
  intros Hlen Hh Hnot. unfold calculate_effective_n.
  pose proof (weigh_fold_outcome m (default (equal_weights holdings) weights)
                (upper_pairs holdings) (Fin 0, 0)) as Hw.
  destruct (length holdings =? 0)%nat eqn:Hn.
  { apply Nat.eqb_eq in Hn. lia. }
  cbn [mbind exn_bind].
  destruct (foldM _ (upper_pairs holdings) _) as [[wc tw]|s'];
    cbn [mbind exn_bind]; [|by eexists].
  exfalso. destruct (in_some_pair holdings h Hlen Hh) as (p & Hp & Hhp).
  destruct (Hw p Hp) as [H1 H2]. by destruct Hhp as [->| ->].
Qed.

(** X18.  With a frame, [calculate_effective_n] raises exactly when
    there are at least two holdings and one of them is not a label of
    the frame. *)
Theorem effective_n_raises_iff holdings m weights :
  (∃ s, calculate_effective_n holdings (Some m) weights = KeyError s)
  ↔ (2 ≤ length holdings)%nat ∧ ∃ h, h ∈ holdings ∧ h ∉ columns m.
Proof.
  split.
  - intros [s Hs]. unfold calculate_effective_n in Hs.
    pose proof (weigh_fold_outcome m
                  (default (equal_weights holdings) weights)
                  (upper_pairs holdings) (Fin 0, 0)) as Hw.
    destruct (length holdings =? 0)%nat; [done|].
    cbn [mbind exn_bind] in Hs.
    destruct (foldM _ (upper_pairs holdings) _) as [[wc tw]|s'];
      cbn [mbind exn_bind] in Hs.
    { by destruct (Py.Qgtb tw 0). }
    destruct Hw as (p & Hp & Hs' & Hnot).
    apply upper_pairs_lookup in Hp as (i & j & Hij & H1 & H2).
    split.
    { apply lookup_lt_Some in H2. lia. }
    exists s'. split; [|done].
    destruct Hs' as [->| ->]; by eapply list_elem_of_lookup_2.
  - intros [Hlen (h & Hh & Hnot)]. by apply (effective_n_raises _ _ _ h).
Qed.

End EffectiveN.

(** ** Position analysis *)

Section Analysis.
Import Database PositionManager Spec.
#[local] Open Scope Q_scope.

Lemma str_eq_true a b : Py.str_eq a b = true ↔ a = b.
Proof. apply String.eqb_eq. Qed.

(** The columns of a row that are copied from its target. *)
Lemma analyze_target_fields targets total_capital_ prices stocks target r :
  analyze_target targets total_capital_ prices stocks target = Ok r →
  a_symbol r = pt_stock_symbol target
  ∧ a_target_type r = Some (target_type target)
  ∧ a_priority r = Some (priority target)
  ∧ is_Some (action r).
Proof.
  unfold analyze_target.
  destruct (head (filter _ stocks)) as [h|];
    destruct (target_amounts _ _ _ _ _) as [[ta ma]| |]; try done;
    cbn [mbind raising_bind];
    destruct (suggest _ _ _ _ _ _) as [[act n]| |]; try done;
    cbn [mbind raising_bind]; intros [= <-]; by cbn.
Qed.

Lemma mapR_rows {A B} (f : A → raising B) (l : list A) (ys : list B) y :
  mapR f l = Ok ys → y ∈ ys → ∃ x, x ∈ l ∧ f x = Ok y.
Proof.
  revert ys. induction l as [|a l IH]; intros ys Hm Hy.
  { cbn in Hm. injection Hm as <-. by apply elem_of_nil in Hy. }
  cbn in Hm. destruct (f a) as [b| |] eqn:Hfa; [|done..]. cbn in Hm.
  destruct (mapR f l) as [bs| |] eqn:Hfl; [|done..]. cbn in Hm.
  injection Hm as <-.
  apply elem_of_cons in Hy as [ -> | Hy ].
  - exists a. split; [left|done].
  - destruct (IH bs eq_refl Hy) as (x & Hx & Hfx).
    exists x. split; [by right|done].
Qed.

(** A loop over a list fails with the exception of the first element
    that raises. *)
Lemma mapR_first_failure {A B} (f : A → raising B) (l : list A) :
  (mapR f l = ZeroDivisionError
   ↔ ∃ i x, l !! i = Some x ∧ f x = ZeroDivisionError
            ∧ ∀ j y, (j < i)%nat → l !! j = Some y → ∃ b, f y = Ok b)
  ∧ (mapR f l = ValueError
     ↔ ∃ i x, l !! i = Some x ∧ f x = ValueError
              ∧ ∀ j y, (j < i)%nat → l !! j = Some y → ∃ b, f y = Ok b).
Proof.
  induction l as [|a l [IHz IHv]].
  { cbn. split; (split; [done|]); by intros (i & x & Hx & _). }
  assert (Hshift : ∀ (e : raising B),
    (∃ i x, l !! i = Some x ∧ f x = e
            ∧ ∀ j y, (j < i)%nat → l !! j = Some y → ∃ b, f y = Ok b) →
    (∃ b, f a = Ok b) →
    ∃ i x, (a :: l) !! i = Some x ∧ f x = e
           ∧ ∀ j y, (j < i)%nat → (a :: l) !! j = Some y → ∃ b, f y = Ok b).
  { intros e (i & x & Hx & Hfx & Hbefore) Ha. exists (S i), x.
    split; [done|]. split; [done|]. intros [|j] y Hj Hy.
    - cbn in Hy. by injection Hy as <-.
    - cbn in Hy. apply (Hbefore j); [lia|done]. }
  assert (Hunshift : ∀ (e : raising B) b,
    f a = Ok b →
    (∀ b', e ≠ Ok b') →
    (∃ i x, (a :: l) !! i = Some x ∧ f x = e
            ∧ ∀ j y, (j < i)%nat → (a :: l) !! j = Some y
                     → ∃ b, f y = Ok b) →
    ∃ i x, l !! i = Some x ∧ f x = e
           ∧ ∀ j y, (j < i)%nat → l !! j = Some y → ∃ b, f y = Ok b).
  { intros e b Ha Hne (i & x & Hx & Hfx & Hbefore). destruct i as [|i].
    - cbn in Hx. injection Hx as <-. exfalso. apply (Hne b). congruence.
    - exists i, x. split; [done|]. split; [done|].
      intros j y Hj Hy. apply (Hbefore (S j)); [lia|done]. }
  assert (Hfirst : ∀ (e : raising B),
    f a = e → (∀ b', e ≠ Ok b') →
    ∃ i x, (a :: l) !! i = Some x ∧ f x = e
           ∧ ∀ j y, (j < i)%nat → (a :: l) !! j = Some y → ∃ b, f y = Ok b).
  { intros e Ha _. exists 0%nat, a. split; [done|]. split; [done|]. lia. }
  assert (Hhead : ∀ (e e' : raising B),
    f a = e' → (∀ b', e' ≠ Ok b') → e ≠ e' →
    ¬ ∃ i x, (a :: l) !! i = Some x ∧ f x = e
             ∧ ∀ j y, (j < i)%nat → (a :: l) !! j = Some y
                      → ∃ b, f y = Ok b).
  { intros e e' Ha Hne Hdiff (i & x & Hx & Hfx & Hbefore). destruct i as [|i].
    - cbn in Hx. injection Hx as <-. congruence.
    - destruct (Hbefore 0%nat a) as [b Hb]; [lia|done|].
      apply (Hne b). congruence. }
  cbn [mapR]. destruct (f a) as [b| |] eqn:Hfa; cbn [mbind raising_bind].
  - destruct (mapR f l) as [bs| |]; cbn [mbind raising_bind].
    + split; (split; [done|]); intros H.
      * apply (Hunshift _ b eq_refl) in H; [|done]. by apply IHz in H.
      * apply (Hunshift _ b eq_refl) in H; [|done]. by apply IHv in H.
    + split; split; try done.
      * intros _. apply Hshift; [by apply IHz|by exists b].
      * intros H. apply (Hunshift _ b eq_refl) in H; [|done].
        by apply IHv in H.
    + split; split; try done.
      * intros H. apply (Hunshift _ b eq_refl) in H; [|done].
        by apply IHz in H.
      * intros _. apply Hshift; [by apply IHv|by exists b].
  - split; split; try done.
    + intros _. by apply Hfirst.
    + intros H. exfalso. revert H. by apply (Hhead _ ZeroDivisionError).
  - split; split; try done.
    + intros H. exfalso. revert H. by apply (Hhead _ ValueError).
    + intros _. by apply Hfirst.
Qed.

Lemma by_priority_sorted (rows : list analysis_row) :
  Sorted by_priority (Py.stable_sort priority_before rows).
Proof.
  eapply Sorted_weaken; [|apply stable_sort_Sorted].
  - intros a b H. unfold priority_before in H. unfold by_priority.
    apply Is_true_true, Z.leb_le. apply Z.ltb_ge in H. lia.
  - intros a b H. unfold priority_before in *.
    apply Z.ltb_lt in H. apply Z.ltb_ge. lia.
Qed.

(** X20.  Coverage of the analysis: when [get_position_analysis] returns
    a frame, every active target of the account has a row carrying its
    symbol, type and priority, every holding of the stock summary has a
    row with its symbol, every row stems from a target or from a holding,
    and with targets the rows come in increasing order of priority. *)
Theorem analysis_covers_targets_and_holdings
    (batch_get_prices : list string → gmap string Q)
    db account current_prices rows :
  get_position_analysis batch_get_prices db account current_prices
  = Ok (Some rows) →
  let targets := get_position_targets db (Some account) true in
  let summary := Calculator.calculate_stock_summary db (Some account) in
  (∀ target, target ∈ targets →
     ∃ r, r ∈ rows ∧ a_symbol r = pt_stock_symbol target
          ∧ a_target_type r = Some (target_type target)
          ∧ a_priority r = Some (priority target))
  ∧ (∀ s, s ∈ summary → ∃ r, r ∈ rows ∧ a_symbol r = Calculator.sr_symbol s)
  ∧ (∀ r, r ∈ rows →
       (∃ target, target ∈ targets ∧ a_symbol r = pt_stock_symbol target)
       ∨ (∃ s, s ∈ summary ∧ a_symbol r = Calculator.sr_symbol s))
  ∧ (targets ≠ [] → Sorted by_priority rows).
Proof.
  intros Hrows targets summary. unfold get_position_analysis in Hrows.
  destruct (filter _ (get_accounts db)) as [|info rest]; [done|].
  cbv zeta in Hrows. fold targets summary in Hrows.
  set (prices := resolve_prices batch_get_prices summary targets
                   current_prices) in *.
  destruct targets as [|t0 ts] eqn:Hts.
  { injection Hrows as <-. split; [intros t Ht; by apply elem_of_nil in Ht|].
    split; [|split; [|done]].
    - intros s Hs. exists (untargeted_row None None (price_stock prices s)).
      split; [|done]. rewrite map_map.
      apply list_elem_of_In, in_map_iff. exists s.
      split; [done|by apply list_elem_of_In].
    - intros r Hr. right. rewrite map_map in Hr.
      apply list_elem_of_In, in_map_iff in Hr as (s & <- & Hs).
      exists s. split; [by apply list_elem_of_In|done]. }
  rewrite <- Hts in *.
  destruct (mapR _ targets) as [analysis| |] eqn:Hmap; [|done..].
  cbn [mbind raising_bind] in Hrows. injection Hrows as <-.
  assert (Hcov : ∀ target, target ∈ targets →
    ∃ r, r ∈ analysis ∧ a_symbol r = pt_stock_symbol target
         ∧ a_target_type r = Some (target_type target)
         ∧ a_priority r = Some (priority target)).
  { intros target Ht.
    destruct (mapR_elem _ _ _ _ Hmap Ht) as (y & Hy & Hfy).
    apply analyze_target_fields in Hfy as (H1 & H2 & H3 & _).
    by exists y. }
  split; [|split; [|split]].
  - intros target Ht. destruct (Hcov target Ht) as (r & Hr & Hprops).
    exists r. split; [|done].
    rewrite stable_sort_Permutation. apply elem_of_app. by left.
  - intros s Hs.
    destruct (decide (Calculator.sr_symbol s ∈ map pt_stock_symbol targets))
      as [Hin|Hout].
    + apply list_elem_of_In, in_map_iff in Hin as (target & Hsym & Ht).
      apply list_elem_of_In in Ht.
      destruct (Hcov target Ht) as (r & Hr & Hr1 & _).
      exists r. split; [|congruence].
      rewrite stable_sort_Permutation. apply elem_of_app. by left.
    + set (symbol := Calculator.sr_symbol s) in *.
      destruct (head (filter (λ p : priced_stock,
                   Is_true (Py.str_eq (Calculator.sr_symbol (stock p)) symbol))
                   (map (price_stock prices) summary))) as [p|] eqn:Hhead.
      2:{ exfalso. apply head_None in Hhead.
          assert (Hp : price_stock prices s
                       ∈ filter (λ p : priced_stock,
                           Is_true (Py.str_eq
                                      (Calculator.sr_symbol (stock p)) symbol))
                           (map (price_stock prices) summary)).
          { apply list_elem_of_filter. split.
            - cbn. apply Is_true_true, str_eq_true. done.
            - apply list_elem_of_In, in_map, list_elem_of_In. done. }
          rewrite Hhead in Hp. by apply elem_of_nil in Hp. }
      assert (Hsym : Calculator.sr_symbol (stock p) = symbol).
      { apply head_Some_elem_of, list_elem_of_filter in Hhead as [Hp _].
        by apply Is_true_true, str_eq_true in Hp. }
      exists (untargeted_row (Some Const.NO_TARGET) (Some 999%Z) p).
      split; [|done]. rewrite stable_sort_Permutation. apply elem_of_app.
      right. apply list_elem_of_In, in_map, list_elem_of_In.
      apply list_elem_of_omap. exists symbol. split; [|done].
      apply list_elem_of_filter. split; [done|].
      apply elem_of_remove_dups. rewrite map_map.
      apply list_elem_of_In, in_map_iff. exists s.
      split; [done|by apply list_elem_of_In].
  - intros r Hr. rewrite stable_sort_Permutation in Hr.
    apply elem_of_app in Hr as [Hr|Hr].
    + left. destruct (mapR_rows _ _ _ _ Hmap Hr) as (target & Ht & Hf).
      apply analyze_target_fields in Hf as (H1 & _).
      by exists target.
    + right. apply list_elem_of_In, in_map_iff in Hr as (p & <- & Hp).
      apply list_elem_of_In, list_elem_of_omap in Hp as (symbol & _ & Hhead).
      apply head_Some_elem_of, list_elem_of_filter in Hhead as [_ Hp].
      apply list_elem_of_In, in_map_iff in Hp as (s & <- & Hs).
      exists s. split; [by apply list_elem_of_In|done].
  - intros _. apply by_priority_sorted.
Qed.

(** The outcome of the target and ceiling amounts. *)
Lemma target_amounts_outcome targets total_capital_ prices avg target :
  (target_amounts targets total_capital_ prices avg target = ValueError
   ↔ count_unreadable targets target)
  ∧ target_amounts targets total_capital_ prices avg target
    ≠ ZeroDivisionError.
Proof.
  unfold target_amounts, count_unreadable.
  destruct (Py.str_eq (target_type target) Const.PERCENT) eqn:Hp.
  { apply str_eq_true in Hp. split; [|done]. split; [done|].
    intros (Ht & _). rewrite Hp in Ht. discriminate. }
  destruct (Py.str_eq (target_type target) Const.SHARES) eqn:Hs.
  2:{ split; [|done]. split; [done|]. intros (Ht & _).
      apply str_eq_true in Ht. congruence. }
  apply str_eq_true in Hs. unfold max_shares_or, or_z.
  destruct (target_shares target) as [n|] eqn:Hn.
  { split.
    - split; [|by intros (_ & ? & _)].
      destruct (max_shares target) as [v|];
        [destruct (v =? 0)%Z|destruct (Py.float_column max_shares targets)];
        done.
    - destruct (max_shares target) as [v|];
        [destruct (v =? 0)%Z|destruct (Py.float_column max_shares targets)];
        done. }
  destruct (Py.float_column target_shares targets) eqn:Hf.
  2:{ split.
      - split; [|by intros (_ & _ & ? & _)].
        destruct (max_shares target) as [v|];
          [destruct (v =? 0)%Z|destruct (Py.float_column max_shares targets)];
          done.
      - destruct (max_shares target) as [v|];
          [destruct (v =? 0)%Z|destruct (Py.float_column max_shares targets)];
          done. }
  destruct (max_shares target) as [v|] eqn:Hm.
  - destruct (Z.eqb_spec v 0) as [->|Hv]; cbn [mbind raising_bind].
    + split; [|done]. split; [|done]. intros _. by repeat split; [|left].
    + split; [|done]. split; [done|].
      intros (_ & _ & _ & [[= ->]|[? _]]); done.
  - destruct (Py.float_column max_shares targets) eqn:Hfm;
      cbn [mbind raising_bind].
    + split; [|done]. split; [done|].
      intros (_ & _ & _ & [?|[_ ?]]); done.
    + split; [|done]. split; [|done]. intros _. by repeat split; [|right].
Qed.

(** The row of a share target: its suggestion is the difference of the
    share counts, and 持有 when the count reads as NaN. *)
Lemma analyze_share_target targets total_capital_ prices
    (summary : list Calculator.stock_row) target r :
  let h := head (filter (λ s : Calculator.stock_row,
                           Is_true (Py.str_eq (Calculator.sr_symbol s)
                                              (pt_stock_symbol target)))
                        summary) in
  let held := shares_of h in
  target_type target = Const.SHARES →
  analyze_target targets total_capital_ prices
    (map (price_stock prices) summary) target = Ok r →
  a_current_shares r = held
  ∧ match or_z targets target_shares target 0 with
    | Some wanted =>
        ((wanted < held)%Z →
         action r = Some Const.REDUCE
         ∧ action_shares r = Some (held - wanted)%Z)
        ∧ ((held < wanted)%Z →
           action r = Some (if (held =? 0)%Z then Const.OPEN_POSITION
                            else Const.ADD)
           ∧ action_shares r = Some (wanted - held)%Z)
        ∧ (wanted = held →
           action r = Some Const.HOLD ∧ action_shares r = Some 0%Z)
    | None => action r = Some Const.HOLD ∧ action_shares r = Some 0%Z
    end.
Proof.
  intros h held Htype. unfold analyze_target.
  rewrite priced_holding. fold h.
  assert (Hsug : ∀ ap dev act n,
    suggest targets prices target held ap dev = Ok (act, n) →
    match or_z targets target_shares target 0 with
    | Some wanted =>
        ((wanted < held)%Z →
         Some act = Some Const.REDUCE ∧ Some n = Some (held - wanted)%Z)
        ∧ ((held < wanted)%Z →
           Some act = Some (if (held =? 0)%Z then Const.OPEN_POSITION
                            else Const.ADD)
           ∧ Some n = Some (wanted - held)%Z)
        ∧ (wanted = held → Some act = Some Const.HOLD ∧ Some n = Some 0%Z)
    | None => Some act = Some Const.HOLD ∧ Some n = Some 0%Z
    end).
  { intros ap dev act n. unfold suggest. rewrite Htype.
    change (Py.str_eq Const.SHARES Const.SHARES) with true. cbv iota.
    destruct (or_z targets target_shares target 0) as [wanted|];
      [|by intros [= <- <-]].
    cbv zeta. destruct (Z.ltb_spec 0 (held - wanted)).
    { intros [= <- <-]. split; [done|]. split; lia. }
    destruct (Z.ltb_spec (held - wanted) 0).
    { intros [= <- <-]. split; [lia|]. split; [|lia]. intros _.
      split; [done|]. f_equal. lia. }
    intros [= <- <-]. split; [lia|]. split; [lia|]. done. }
  subst held.
  destruct h as [s|] eqn:Hh; cbn [fmap option_fmap option_map shares_of
    stock price_stock] in *;
    (destruct (target_amounts _ _ _ _ _) as [[ta ma]| |]; [|done..]);
    cbn [mbind raising_bind];
    (destruct (suggest _ _ _ _ _ _) as [[act n]| |] eqn:Hact; [|done..]);
    cbn [mbind raising_bind]; intros [= <-];
    cbn [a_current_shares action action_shares];
    (split; [done|]); by eapply Hsug.
Qed.

(** X21.  Direction of a share target: for a target in shares, the
    analysis suggests to reduce by the excess when more than the target
    count is held, to add (to open, when nothing is held) the missing
    shares when less is held, and to hold when the counts agree, so that
    the suggested trade brings the holding to the target count; a target
    whose count reads as NaN gets 持有 with 0 shares. *)
Theorem share_target_direction (batch_get_prices : list string → gmap string Q)
    db account current_prices rows target :
  let targets := get_position_targets db (Some account) true in
  get_position_analysis batch_get_prices db account current_prices
  = Ok (Some rows) →
  target ∈ targets →
  target_type target = Const.SHARES →
  let held := held_shares db account (pt_stock_symbol target) in
  ∃ r, r ∈ rows
       ∧ a_symbol r = pt_stock_symbol target
       ∧ a_current_shares r = held
       ∧ match or_z targets target_shares target 0 with
         | Some wanted =>
             ((wanted < held)%Z →
              action r = Some Const.REDUCE
              ∧ action_shares r = Some (held - wanted)%Z)
             ∧ ((held < wanted)%Z →
                action r = Some (if (held =? 0)%Z then Const.OPEN_POSITION
                                 else Const.ADD)
                ∧ action_shares r = Some (wanted - held)%Z)
             ∧ (wanted = held →
                action r = Some Const.HOLD ∧ action_shares r = Some 0%Z)
         | None => action r = Some Const.HOLD ∧ action_shares r = Some 0%Z
         end.
Proof.
  intros targets Hrows Htarget Htype held.
  unfold get_position_analysis in Hrows.
  destruct (filter _ (get_accounts db)) as [|info rest]; [done|].
  cbv zeta in Hrows.
  set (summary := Calculator.calculate_stock_summary db (Some account)) in *.
  fold targets in Hrows.
  set (prices := resolve_prices batch_get_prices summary targets
                   current_prices) in *.
  destruct targets as [|t0 ts] eqn:Hts; [by apply elem_of_nil in Htarget|].
  rewrite <- Hts in *.
  destruct (mapR _ targets) as [analysis| |] eqn:Hmap; [|done..].
  cbn [mbind raising_bind] in Hrows. injection Hrows as <-.
  destruct (mapR_elem _ _ _ _ Hmap Htarget) as (r & Hr & Hfr).
  exists r. split.
  { rewrite stable_sort_Permutation. apply elem_of_app. by left. }
  split; [by apply analyze_target_fields in Hfr as (H1 & _)|].
  by apply (analyze_share_target targets (total_capital info) prices summary).
Qed.

Lemma Qltb_true x y : Py.Qltb x y = true ↔ x < y.
Proof. apply (Qgtb_true y x). Qed.

Lemma truthy_num_false p : Py.truthy_num p = false ↔ p == 0.
Proof.
  unfold Py.truthy_num. rewrite negb_false_iff. apply Qeq_bool_iff.
Qed.

(** The suggestion divides by the live price only for an amount or
    percentage target that is under its target amount, and it raises
    nothing else. *)
Lemma suggest_raises targets prices target held avg dev :
  (suggest targets prices target held avg dev = ZeroDivisionError
   ↔ target_type target ≠ Const.SHARES
     ∧ (∃ d, dev = Py.Fin d ∧ d < 0)
     ∧ ∃ p, prices !! pt_stock_symbol target = Some p ∧ p == 0)
  ∧ suggest targets prices target held avg dev ≠ ValueError.
Proof.
  unfold suggest.
  destruct (Py.str_eq (target_type target) Const.SHARES) eqn:Ht.
  { apply str_eq_true in Ht. split.
    - split; [by repeat case_match|]. by intros [? _].
    - by repeat case_match. }
  assert (Hne : target_type target ≠ Const.SHARES).
  { intros H. apply str_eq_true in H. congruence. }
  destruct dev as [d|].
  2:{ split; [|done]. split; [done|]. by intros (_ & (d & ? & _) & _). }
  destruct (Py.Qgtb d 0) eqn:Hg.
  { apply Qgtb_true in Hg. split; [|done]. split; [done|].
    intros (_ & (d' & [= <-] & Hlt) & _).
    exfalso. apply (Qlt_irrefl 0). by eapply Qlt_trans. }
  destruct (Py.Qltb d 0) eqn:Hl.
  2:{ split; [|done]. split; [done|]. intros (_ & (d' & [= <-] & Hlt) & _).
      apply Qltb_true in Hlt. congruence. }
  apply Qltb_true in Hl.
  destruct (dict_truthy prices) eqn:Hd.
  2:{ split; [|done]. split; [done|]. intros (_ & _ & p & Hp & _). exfalso.
      unfold dict_truthy in Hd. apply negb_false_iff, bool_decide_eq_true in Hd.
      rewrite Hd in Hp. by rewrite lookup_empty in Hp. }
  destruct (prices !! pt_stock_symbol target) as [p|] eqn:Hp.
  2:{ split; [|done]. split; [done|]. by intros (_ & _ & p & ? & _). }
  destruct (Py.truthy_num p) eqn:Hz.
  - split; [|done]. split; [done|]. intros (_ & _ & p' & [= <-] & H0).
    apply truthy_num_false in H0. congruence.
  - apply truthy_num_false in Hz. split; [|done]. split; [|done]. intros _.
    split; [done|]. split; [by exists d|]. by exists p.
Qed.

(** The three outcomes of the loop body. *)
Lemma analyze_target_raises targets total_capital_ prices
    (summary : list Calculator.stock_row) target :
  let h := head (filter (λ s : Calculator.stock_row,
                           Is_true (Py.str_eq (Calculator.sr_symbol s)
                                              (pt_stock_symbol target)))
                        summary) in
  (analyze_target targets total_capital_ prices
     (map (price_stock prices) summary) target = ZeroDivisionError
   ↔ zero_priced targets total_capital_ prices (invested_of h)
       (avg_cost_of h) target)
  ∧ (analyze_target targets total_capital_ prices
       (map (price_stock prices) summary) target = ValueError
     ↔ count_unreadable targets target).
Proof.
  intros h. unfold analyze_target, zero_priced. rewrite priced_holding. fold h.
  assert (Hdev : ∀ a b : Q, a - b < 0 ↔ a < b).
  { intros a b. split; intros H.
    - apply (Qplus_lt_l _ _ (- b)). by rewrite Qplus_opp_r.
    - apply (Qplus_lt_l _ _ (- b)) in H. by rewrite Qplus_opp_r in H. }
  assert (Hcase : ∀ held invested avg,
    ((x ← target_amounts targets total_capital_ prices avg target;
      let '(ta, ma) := x in
      y ← suggest targets prices target held avg
            (Py.fminus (Py.Fin invested) ta);
      Ok y) = ZeroDivisionError
     ↔ target_type target ≠ Const.SHARES
       ∧ (∃ p, prices !! pt_stock_symbol target = Some p ∧ p == 0)
       ∧ ∃ ta ma, target_amounts targets total_capital_ prices avg target
                  = Ok (Py.Fin ta, ma) ∧ invested < ta)
    ∧ ((x ← target_amounts targets total_capital_ prices avg target;
        let '(ta, ma) := x in
        y ← suggest targets prices target held avg
              (Py.fminus (Py.Fin invested) ta);
        Ok y) = ValueError
       ↔ count_unreadable targets target)).
  { intros held invested avg.
    destruct (target_amounts_outcome targets total_capital_ prices avg target)
      as [Hv Hz].
    destruct (target_amounts targets total_capital_ prices avg target)
      as [[ta ma]| |] eqn:Hta; cbn [mbind raising_bind]; [| done |].
    - destruct (suggest_raises targets prices target held avg
                  (Py.fminus (Py.Fin invested) ta)) as [Hs Hsv].
      destruct (suggest _ _ _ _ _ _) as [[act n]| |] eqn:Hsug;
        cbn [mbind raising_bind]; [| |done].
      + split; split; try done.
        * intros (Hne & Hp & ta' & ma' & [= -> ->] & Hlt).
          apply Hs. split; [done|]. split; [|done].
          exists (invested - ta'). split; [done|]. by apply Hdev.
        * intros H. by apply Hv in H.
      + split; [|split; [done|intros H; by apply Hv in H]].
        split; [|done]. intros _.
        destruct (proj1 Hs eq_refl) as (Hne & (d & Hd & Hlt) & Hp).
        split; [done|]. split; [done|].
        destruct ta as [t|]; [|done]. cbn in Hd. injection Hd as <-.
        exists t, ma. split; [done|]. by apply Hdev.
    - split; [|split; [by intros _; apply Hv|done]].
      split; [done|]. by intros (_ & _ & ta & ma & ? & _). }
  destruct h as [r|]; cbn [fmap option_fmap option_map invested_of avg_cost_of
    stock price_stock].
  - destruct (Hcase (Calculator.current_shares r) (Calculator.total_invested r)
                (Calculator.avg_cost r)) as [H1 H2].
    rewrite <- H1, <- H2.
    destruct (target_amounts _ _ _ _ _) as [[ta ma]| |];
      cbn [mbind raising_bind]; [|done..].
    destruct (suggest _ _ _ _ _ _) as [[act n]| |];
      cbn [mbind raising_bind]; done.
  - destruct (Hcase 0%Z 0 0) as [H1 H2].
    rewrite <- H1, <- H2.
    destruct (target_amounts _ _ _ _ _) as [[ta ma]| |];
      cbn [mbind raising_bind]; [|done..].
    destruct (suggest _ _ _ _ _ _) as [[act n]| |];
      cbn [mbind raising_bind]; done.
Qed.

(** X22.  Failures of the analysis.  The analysis raises
    [ZeroDivisionError] exactly when the account exists and the first of
    its active targets, in the order of the query, that fails is an
    amount or percentage target above the cost basis held while the
    price dictionary holds a price of 0 for its symbol; it raises
    [ValueError] exactly when that first failing target is a share
    target whose count reads as NaN while its ceiling has to be computed
    from the count. *)
Theorem analysis_raises_at_first_failure
    (batch_get_prices : list string → gmap string Q)
    db account current_prices :
  let targets := get_position_targets db (Some account) true in
  let prices :=
    resolve_prices batch_get_prices
      (Calculator.calculate_stock_summary db (Some account)) targets
      current_prices in
  let found :=
    head (filter (λ a : Database.account,
                    Is_true (Py.str_eq (account_name a) account))
                 (accounts db)) in
  let divides info target :=
    zero_priced targets (total_capital info) prices
      (held_amount db account (pt_stock_symbol target))
      (held_avg_cost db account (pt_stock_symbol target)) target in
  let first info (i : nat) :=
    ∀ j t, (j < i)%nat → targets !! j = Some t →
           ¬ divides info t ∧ ¬ count_unreadable targets t in
  (get_position_analysis batch_get_prices db account current_prices
   = ZeroDivisionError
   ↔ ∃ info i target,
       found = Some info ∧ targets !! i = Some target
       ∧ divides info target ∧ first info i)
  ∧ (get_position_analysis batch_get_prices db account current_prices
     = ValueError
     ↔ ∃ info i target,
         found = Some info ∧ targets !! i = Some target
         ∧ count_unreadable targets target ∧ first info i).
Proof.
  intros targets prices found divides first.
  subst found. unfold get_position_analysis, get_accounts.
  destruct (filter _ (accounts db)) as [|info rest].
  { split; (split; [done|]); by intros (? & ? & ? & ? & _). }
  cbv zeta. fold targets prices. cbn [head].
  set (summary := Calculator.calculate_stock_summary db (Some account)).
  set (f := analyze_target targets (total_capital info) prices
              (map (price_stock prices) summary)).
  assert (Hz : ∀ t, f t = ZeroDivisionError ↔ divides info t).
  { intros t. apply (analyze_target_raises targets). }
  assert (Hv : ∀ t, f t = ValueError ↔ count_unreadable targets t).
  { intros t. apply (analyze_target_raises targets (total_capital info)). }
  assert (Hok : ∀ t, (∃ b, f t = Ok b)
                     ↔ ¬ divides info t ∧ ¬ count_unreadable targets t).
  { intros t. rewrite <- Hz, <- Hv. destruct (f t); split.
    - done.
    - intros _. by eexists.
    - by intros [? ?].
    - by intros [? _].
    - by intros [? ?].
    - by intros [_ ?]. }
  assert (Hfirst : ∀ i,
    (∀ j y, (j < i)%nat → targets !! j = Some y → ∃ b, f y = Ok b)
    ↔ first info i).
  { intros i. subst first. cbv beta. split; intros H j t Hj Ht.
    - apply Hok. by apply (H j).
    - apply Hok. by apply (H j). }
  destruct (mapR_first_failure f targets) as [Mz Mv].
  assert (Gz : mapR f targets = ZeroDivisionError
    ↔ ∃ info' i target,
        Some info = Some info' ∧ targets !! i = Some target
        ∧ divides info' target ∧ first info' i).
  { rewrite Mz. split.
    - intros (i & x & Hx & Hfx & Hb). exists info, i, x.
      split; [done|]. split; [done|]. split; [by apply Hz|by apply Hfirst].
    - intros (info' & i & x & [= <-] & Hx & Hd & Hb). exists i, x.
      split; [done|]. split; [by apply Hz|by apply Hfirst]. }
  assert (Gv : mapR f targets = ValueError
    ↔ ∃ info' i target,
        Some info = Some info' ∧ targets !! i = Some target
        ∧ count_unreadable targets target ∧ first info' i).
  { rewrite Mv. split.
    - intros (i & x & Hx & Hfx & Hb). exists info, i, x.
      split; [done|]. split; [done|]. split; [by apply Hv|by apply Hfirst].
    - intros (info' & i & x & [= <-] & Hx & Hd & Hb). exists i, x.
      split; [done|]. split; [by apply Hv|by apply Hfirst]. }
  destruct targets as [|t0 ts] eqn:Hts.
  { split; (split; [done|]); intros (? & i & ? & _ & Ht & _);
      by rewrite lookup_nil in Ht. }
  rewrite <- Hts in *. rewrite <- Gz, <- Gv.
  fold f. destruct (mapR f targets); cbn [mbind raising_bind]; by split.
Qed.

End Analysis.

Section AnalysisWitnesses.
Import Database PositionManager Spec Scenarios.
#[local] Open Scope Q_scope.

Lemma analysis_covers_targets_and_holdings_witness :
  ∃ r, r ∈ default [] (default None
             (match get_position_analysis no_prices store_target
                      long_term (Some (nvda_at 100)) with
              | Ok x => Some x | _ => None end))
       ∧ a_symbol r = "NVDA"%string.
Proof.
  destruct (analysis_covers_targets_and_holdings no_prices store_target
              long_term (Some (nvda_at 100))
              (default [] (default None
                 (match get_position_analysis no_prices store_target
                          long_term (Some (nvda_at 100)) with
                  | Ok x => Some x | _ => None end))))
    as (Ht & _).
  - vm_compute. reflexivity.
  - destruct (Ht target_10_nvda) as (r & Hr & Hsym & _).
    + vm_compute. apply list_elem_of_here.
    + exists r. by split.
Defined.

Lemma share_target_direction_witness :
  ∃ r, r ∈ default [] (default None
             (match get_position_analysis no_prices store_target_30
                      long_term (Some (nvda_at 100)) with
              | Ok x => Some x | _ => None end))
       ∧ action r = Some Const.ADD
       ∧ action_shares r = Some 20%Z.
Proof.
  destruct (share_target_direction no_prices store_target_30
              long_term (Some (nvda_at 100))
              (default [] (default None
                 (match get_position_analysis no_prices store_target_30
                          long_term (Some (nvda_at 100)) with
                  | Ok x => Some x | _ => None end)))
              target_30_nvda)
    as (r & Hr & _ & _ & _ & Hadd).
  - vm_compute. reflexivity.
  - vm_compute. apply list_elem_of_here.
  - reflexivity.
  - exists r. split; [exact Hr|]. apply Hadd. vm_compute. reflexivity.
Defined.

Lemma analysis_raises_at_first_failure_witness :
  get_position_analysis no_prices store_no_count long_term
    (Some (nvda_at 100)) = ValueError.
Proof.
  apply (proj2 (analysis_raises_at_first_failure no_prices store_no_count
                  long_term (Some (nvda_at 100)))).
  exists (long_term_account 150000), 0%nat, target_aapl_no_count.
  split; [reflexivity|]. split; [vm_compute; reflexivity|]. split.
  - unfold count_unreadable. split; [reflexivity|]. split; [reflexivity|].
    split; [vm_compute; reflexivity|]. right.
    split; [reflexivity|vm_compute; reflexivity].
  - intros j t Hj. lia.
Defined.

End AnalysisWitnesses.

(** ** Position limits and weights *)

Section Limits.
Import Database PositionManager.
#[local] Open Scope Q_scope.





(** X24.  Failures of [check_position_limits]: it reports a missing
    account exactly when no account has the given name, and it fails
    with a division by zero exactly when the account found has a total
    capital of 0. *)
Theorem position_limits_failures db account symbol additional_amount :
  let found :=
    head (filter (λ a : Database.account,
                    Is_true (Py.str_eq (account_name a) account))
                 (accounts db)) in
  (check_position_limits db account symbol additional_amount
   = Ok AccountMissing ↔ found = None)
  ∧ (check_position_limits db account symbol additional_amount
     = ZeroDivisionError
     ↔ ∃ info, found = Some info ∧ total_capital info == 0).
Proof.
  intros found. subst found. unfold check_position_limits, get_accounts.
  destruct (filter _ (accounts db)) as [|info rest]; cbn [head].
  { split; [done|]. split; [done|]. by intros (? & ? & _). }
  cbv zeta. destruct (Py.truthy_num (total_capital info)) eqn:Ht; cbn [negb].
  - assert (Hnz : ¬ total_capital info == 0).
    { intros H0. apply truthy_num_false in H0. congruence. }
    split.
    + split; [|done]. repeat case_match; done.
    + split; [repeat case_match; done|].
      by intros (info' & [= <-] & H0).
  - apply truthy_num_false in Ht. split; [done|].
    split; [|done]. intros _. by exists info.
Qed.

Lemma total_invested_nonneg db account r :
  r ∈ Calculator.calculate_stock_summary db account →
  0 <= Calculator.total_invested r.
Proof.
  intros Hr. destruct (stock_summary_rows db account) as [locked Heq].
  rewrite Heq in Hr.
  apply list_elem_of_In, in_map_iff in Hr as (a & <- & Ha).
  apply list_elem_of_In, list_elem_of_filter in Ha as [Hpos _].
  apply Is_true_true in Hpos.
  cbn [Calculator.finish_row Calculator.total_invested].
  unfold Calculator.average_cost. rewrite Hpos. apply Z.ltb_lt in Hpos.
  assert (HS : 0 < inject_Z (Calculator.agg_shares a))
    by (by rewrite <- (Zlt_Qlt 0)).
  apply Qmult_le_0_compat; [|by apply Qlt_le_weak].
  apply Qle_shift_div_l; [done|]. rewrite Qmult_0_l. apply Qabs_nonneg.
Qed.

Lemma sumQ_nonneg (l : list Q) : (∀ x, x ∈ l → 0 <= x) → 0 <= Py.sumQ l.
Proof.
  induction l as [|x l IH]; intros H; cbn; [apply Qle_refl|].
  apply (Qle_trans _ (0 + 0)); [discriminate|].
  apply Qplus_le_compat; [apply H; left|].
  apply IH. intros y Hy. apply H. by right.
Qed.

Lemma sumQ_elem_le (l : list Q) (x : Q) :
  (∀ y, y ∈ l → 0 <= y) → x ∈ l → x <= Py.sumQ l.
Proof.
  induction l as [|a l IH]; intros H Hx; [by apply elem_of_nil in Hx|].
  cbn. apply elem_of_cons in Hx as [ -> | Hx ].
  - apply (Qle_trans _ (a + 0)); [rewrite Qplus_0_r; apply Qle_refl|].
    apply Qplus_le_compat; [apply Qle_refl|].
    apply sumQ_nonneg. intros y Hy. apply H. by right.
  - apply (Qle_trans _ (0 + x)); [rewrite Qplus_0_l; apply Qle_refl|].
    apply Qplus_le_compat; [apply H; left|].
    apply IH; [|done]. intros y Hy. apply H. by right.
Qed.

(** X25.  Portfolio weights: when the amounts invested do not sum to 0,
    [calculate_portfolio_weight] gives every holding of the stock summary,
    in the order of the summary, a finite weight between 0 and 100: 100
    times its share of the total invested. *)
Theorem portfolio_weights_bounded db account :
  let stocks := Calculator.calculate_stock_summary db account in
  let total := Py.sumQ (map Calculator.total_invested stocks) in
  ¬ total == 0 →
  map w_symbol (calculate_portfolio_weight db account)
  = map Calculator.sr_symbol stocks
  ∧ map w_weight (calculate_portfolio_weight db account)
    = map (λ s, Correlation.Fin (100 * (Calculator.total_invested s / total)))
          stocks
  ∧ ∀ s, s ∈ stocks →
         0 <= 100 * (Calculator.total_invested s / total) <= 100.
Proof.
  intros stocks total Hne.
  assert (Hnn : ∀ y, y ∈ map Calculator.total_invested stocks → 0 <= y).
  { intros y Hy. apply list_elem_of_In, in_map_iff in Hy as (r & <- & Hr).
    apply (total_invested_nonneg db account). by apply list_elem_of_In. }
  assert (Hpos : 0 < total).
  { destruct (proj1 (Qle_lteq _ _) (sumQ_nonneg _ Hnn)) as [H|H]; [done|].
    exfalso. apply Hne. by symmetry. }
  assert (Ht : Py.truthy_num total = true).
  { destruct (Py.truthy_num total) eqn:E; [done|].
    by apply truthy_num_false in E. }
  assert (Hrows : calculate_portfolio_weight db account
    = map (λ s : Calculator.stock_row,
             {| w_symbol := Calculator.sr_symbol s;
                w_shares := Calculator.current_shares s;
                w_invested := Calculator.total_invested s;
                w_weight := Correlation.Fin
                  (100 * (Calculator.total_invested s / total)) |}) stocks).
  { unfold calculate_portfolio_weight. fold stocks. fold total.
    unfold column_div. rewrite Ht. cbn [Correlation.fmul].
    by destruct stocks. }
  rewrite Hrows, !map_map. cbn [w_weight w_symbol].
  split; [done|]. split; [done|].
  intros r Hr.
  assert (Hr0 : 0 <= Calculator.total_invested r).
  { apply Hnn. apply list_elem_of_In, in_map. by apply list_elem_of_In. }
  assert (Hr1 : Calculator.total_invested r <= total).
  { apply sumQ_elem_le; [done|].
    apply list_elem_of_In, in_map. by apply list_elem_of_In. }
  split.
  - apply Qmult_le_0_compat; [discriminate|].
    apply Qle_shift_div_l; [done|]. by rewrite Qmult_0_l.
  - apply (Qle_trans _ (100 * 1)); [|discriminate].
    apply Qmult_le_l; [reflexivity|].
    apply Qle_shift_div_r; [done|]. by rewrite Qmult_1_l.
Qed.

End Limits.

Section LimitsWitnesses.
Import Database PositionManager Scenarios.
#[local] Open Scope Q_scope.


Lemma portfolio_weights_bounded_witness :
  let stocks := Calculator.calculate_stock_summary store_nvda None in
  let total := Py.sumQ (map Calculator.total_invested stocks) in
  map w_symbol (calculate_portfolio_weight store_nvda None) = ["NVDA"%string]
  ∧ total == 10001
  ∧ Forall (λ s, 0 <= 100 * (Calculator.total_invested s / total) <= 100)
           stocks.
Proof.
  cbv zeta.
  destruct (portfolio_weights_bounded store_nvda None) as (Hs & _ & Hb).
  - vm_compute. discriminate.
  - split; [exact Hs|]. split; [vm_compute; reflexivity|].
    apply Forall_forall. exact Hb.
Defined.

End LimitsWitnesses.

(** ** From the matrix to the score *)

Section MatrixToScore.
Import Database Correlation Spec.

(** X26.  Missing price history breaks the score: when
    [calculate_correlation_matrix] returns a frame for a list of holdings
    of which one has no price row in the window, that holding is not a
    label of the frame, and both [calculate_effective_n] and
    [calculate_diversification_score] called with the same holdings and
    this frame raise [KeyError]. *)
Theorem missing_history_breaks_score (pearson : list Q → list Q → fval)
    db holdings lookback_days today m st h weights sector_data :
  calculate_correlation_matrix pearson db holdings lookback_days today
  = Some (m, st) →
  h ∈ holdings →
  ¬ has_data db (today - lookback_days)%Z today h →
  (h ∉ columns m)
  ∧ (∃ s, calculate_effective_n holdings (Some m) weights = KeyError s)
  ∧ (∃ s, calculate_diversification_score holdings (Some m) weights
            sector_data = KeyError s).
Proof.
  intros Hm Hh Hno. unfold calculate_correlation_matrix in Hm.
  destruct (Nat.ltb_spec (length holdings) 2) as [|Hlen]; [done|].
  cbv zeta in Hm.
  destruct (length (collect_returns _ _ _ _) <? 2)%nat; [done|].
  destruct (length (dropna _) <? 10)%nat; [done|].
  injection Hm as <- _.
  assert (Hnot : h ∉ columns
            (corr_of pearson
               (collect_returns db holdings (today - lookback_days)%Z today)
               (dropna (collect_returns db holdings (today - lookback_days)%Z
                          today)))).
  { cbn [columns corr_of]. intros Hin.
    destruct (collect_returns_ok db (today - lookback_days)%Z today holdings)
      as [_ Hkeys].
    apply Hkeys in Hin. unfold symbols_with_data in Hin.
    apply elem_of_filter in Hin as [Hd _]. done. }
  split; [exact Hnot|].
  assert (Hraise : ∃ s, calculate_effective_n holdings
            (Some (corr_of pearson
               (collect_returns db holdings (today - lookback_days)%Z today)
               (dropna (collect_returns db holdings (today - lookback_days)%Z
                          today)))) weights = KeyError s).
  { by apply (effective_n_raises _ _ _ h). }
  split; [exact Hraise|].
  destruct Hraise as [s Hs]. exists s.
  unfold calculate_diversification_score.
  destruct (Nat.eqb_spec (length holdings) 0) as [H0|_]; [lia|].
  by rewrite Hs.
Qed.

End MatrixToScore.

Section MatrixToScoreWitness.
Import Database Correlation Spec Scenarios.

Lemma missing_history_breaks_score_witness :
  ∃ m, fst <$> calculate_correlation_matrix no_corr store_history
                 three_holdings 90%Z 10%Z = Some m
       ∧ ("NVDA"%string ∉ columns m)
       ∧ (∃ s, calculate_effective_n three_holdings (Some m) None
               = KeyError s)
       ∧ (∃ s, calculate_diversification_score three_holdings (Some m) None
                 None = KeyError s).
Proof.
  destruct (calculate_correlation_matrix no_corr store_history
              three_holdings 90%Z 10%Z) as [[m st]|] eqn:E.
  - exists m. split; [done|].
    apply (missing_history_breaks_score no_corr store_history three_holdings
             90%Z 10%Z m st "NVDA" None None E).
    + unfold three_holdings. set_solver.
    + intros Hd. apply Hd. vm_compute. reflexivity.
  - vm_compute in E. discriminate.
Defined.

End MatrixToScoreWitness.

(** ** Unrealized profit *)

Section Unrealized.
Import Database Calculator.
#[local] Open Scope Q_scope.

(** X27.  Unrealized profit and account valuation agree: when the price
    dictionary has a non-zero price for every holding of the stock
    summary, every row of [calculate_unrealized_pnl] has a finite
    unrealized profit, shares times price minus the cost basis, and these
    profits sum to the gain by which [calculate_account_overview] values
    the same holdings above their cost. *)
Theorem unrealized_pnl_matches_valuation db account prices :
  let stocks := calculate_stock_summary db account in
  (∀ s, s ∈ stocks → ∃ p, prices !! sr_symbol s = Some p ∧ ¬ p == 0) →
  ∃ gains : list Q,
    map u_pnl (calculate_unrealized_pnl db account (Some prices))
    = map Some gains
    ∧ map u_stock (calculate_unrealized_pnl db account (Some prices)) = stocks
    ∧ Py.sumQ gains == Spec.unrealized_gain (Some prices) stocks.
Proof.
  intros stocks Hpriced.
  exists (map (λ s, inject_Z (current_shares s)
                    * default 0 (prices !! sr_symbol s)
                    - total_invested s) stocks).
  assert (Hrows : calculate_unrealized_pnl db account (Some prices)
                  = map (unrealized_of prices) stocks).
  { unfold calculate_unrealized_pnl. fold stocks.
    destruct stocks as [|s0 rest] eqn:Hs; [done|].
    case_bool_decide as Hd; [|done]. exfalso.
    destruct (Hpriced s0) as (p & Hp & _); [left|].
    rewrite Hd in Hp. by rewrite lookup_empty in Hp. }
  rewrite Hrows, !map_map. split; [|split].
  - apply map_ext_in. intros s Hs. apply list_elem_of_In in Hs.
    destruct (Hpriced s Hs) as (p & Hp & _).
    cbn [unrealized_of u_pnl]. by rewrite Hp.
  - cbn [unrealized_of u_stock]. apply map_id.
  - unfold Spec.unrealized_gain. apply sumQ_map_ext. intros s Hs.
    destruct (Hpriced s Hs) as (p & Hp & Hnz).
    unfold holding_value. rewrite Hp. cbn [default].
    destruct (Py.truthy_num p) eqn:Ht.
    + unfold id. ring.
    + apply truthy_num_false in Ht. done.
Qed.

End Unrealized.

(** ** Suggested share counts *)

Section Suggested.
Import Database PositionManager Spec.
#[local] Open Scope Q_scope.

Lemma py_round_nonneg (x : Q) : 0 <= x → (0 ≤ py_round x)%Z.
Proof.
  intros Hx. unfold py_round. cbv zeta.
  assert (Hf : (0 ≤ Qfloor x)%Z).
  { change 0%Z with (Qfloor 0). by apply Qfloor_resp_le. }
  repeat case_match; lia.
Qed.

Lemma Qdiv_nonneg (x d : Q) : 0 <= x → 0 < d → 0 <= x / d.
Proof.
  intros Hx Hd. apply Qle_shift_div_l; [done|]. by rewrite Qmult_0_l.
Qed.

Lemma by_cost_nonneg (avg x : Q) :
  0 <= x →
  (0 ≤ (if Py.Qgtb avg 0 then py_round (x / avg) else 0%Z))%Z.
Proof.
  intros Hx. destruct (Py.Qgtb avg 0) eqn:E; [|done].
  apply Qgtb_true in E. apply py_round_nonneg. by apply Qdiv_nonneg.
Qed.

Lemma suggest_nonneg targets prices target held avg dev act n :
  (∀ p, prices !! pt_stock_symbol target = Some p → 0 <= p) →
  suggest targets prices target held avg dev = Ok (act, n) → (0 ≤ n)%Z.
Proof.
  intros Hp. unfold suggest.
  destruct (Py.str_eq (target_type target) Const.SHARES).
  { destruct (or_z targets target_shares target 0) as [wanted|];
      [|intros [= <- <-]; lia].
    cbv zeta. destruct (Z.ltb_spec 0 (held - wanted)).
    { intros [= <- <-]. lia. }
    destruct (Z.ltb_spec (held - wanted) 0).
    { intros [= <- <-]. lia. }
    intros [= <- <-]. lia. }
  destruct dev as [d|]; [|intros [= <- <-]; lia].
  destruct (Py.Qgtb d 0) eqn:Hg.
  { intros [= <- <-]. apply by_cost_nonneg.
    apply Qgtb_true in Hg. by apply Qlt_le_weak. }
  destruct (Py.Qltb d 0); [|intros [= <- <-]; lia].
  destruct (if dict_truthy prices then prices !! pt_stock_symbol target
            else None) as [p|] eqn:Hlook.
  2:{ intros [= <- <-]. apply by_cost_nonneg. apply Qabs_nonneg. }
  destruct (Py.truthy_num p) eqn:Ht; [|done].
  intros [= <- <-]. apply py_round_nonneg. apply Qdiv_nonneg.
  { apply Qabs_nonneg. }
  assert (H0 : 0 <= p).
  { apply Hp. destruct (dict_truthy prices); [done|discriminate]. }
  destruct (proj1 (Qle_lteq _ _) H0) as [Hlt|Heq]; [done|].
  exfalso. symmetry in Heq. apply truthy_num_false in Heq. congruence.
Qed.

(** X28.  Suggested share counts are never negative: when no price of
    the dictionary used by the analysis is negative, every row of
    [get_position_analysis] that carries a suggested number of shares
    carries a non-negative one, whatever the type of its target. *)
Theorem suggested_shares_nonnegative
    (batch_get_prices : list string → gmap string Q)
    db account current_prices rows :
  let prices :=
    resolve_prices batch_get_prices
      (Calculator.calculate_stock_summary db (Some account))
      (get_position_targets db (Some account) true) current_prices in
  get_position_analysis batch_get_prices db account current_prices
  = Ok (Some rows) →
  (∀ s p, prices !! s = Some p → 0 <= p) →
  ∀ r n, r ∈ rows → action_shares r = Some n → (0 ≤ n)%Z.
Proof.
  intros prices Hrows Hprices r n Hr Hn.
  unfold get_position_analysis in Hrows.
  destruct (filter _ (get_accounts db)) as [|info rest]; [done|].
  cbv zeta in Hrows. fold prices in Hrows.
  set (summary := Calculator.calculate_stock_summary db (Some account)) in *.
  set (targets := get_position_targets db (Some account) true) in *.
  destruct targets as [|t0 ts] eqn:Hts.
  { injection Hrows as <-.
    apply list_elem_of_In, in_map_iff in Hr as (s & <- & _). done. }
  rewrite <- Hts in *.
  destruct (mapR _ targets) as [analysis| |] eqn:Hmap; [|done..].
  cbn [mbind raising_bind] in Hrows. injection Hrows as <-.
  rewrite stable_sort_Permutation in Hr. apply elem_of_app in Hr as [Hr|Hr].
  2:{ apply list_elem_of_In, in_map_iff in Hr as (s & <- & _). done. }
  destruct (mapR_rows _ _ _ _ Hmap Hr) as (target & _ & Hf).
  unfold analyze_target in Hf.
  destruct (head (filter _ _)) as [h|];
    (destruct (target_amounts _ _ _ _ _) as [[ta ma]| |]; [|done..]);
    cbn [mbind raising_bind] in Hf;
    (destruct (suggest _ _ _ _ _ _) as [[act k]| |] eqn:Hs; [|done..]);
    cbn [mbind raising_bind] in Hf; injection Hf as <-;
    cbn in Hn; injection Hn as <-;
    (eapply suggest_nonneg; [|exact Hs]); intros p; apply Hprices.
Qed.

End Suggested.

Section SuggestedWitnesses.
Import Database Calculator PositionManager Spec Scenarios.
#[local] Open Scope Q_scope.

Lemma unrealized_pnl_matches_valuation_witness :
  ∃ gains : list Q,
    map u_pnl (calculate_unrealized_pnl store_nvda None (Some (nvda_at 110)))
    = map Some gains
    ∧ map u_stock
        (calculate_unrealized_pnl store_nvda None (Some (nvda_at 110)))
      = calculate_stock_summary store_nvda None
    ∧ Py.sumQ gains
      == Spec.unrealized_gain (Some (nvda_at 110))
           (calculate_stock_summary store_nvda None).
Proof.
  apply (unrealized_pnl_matches_valuation store_nvda None (nvda_at 110)).
  intros s Hs. vm_compute in Hs. apply list_elem_of_singleton in Hs.
  subst s. exists 110. split; [reflexivity|discriminate].
Defined.

Lemma suggested_shares_nonnegative_witness :
  Forall (λ r, ∀ n, action_shares r = Some n → (0 ≤ n)%Z)
    (default [] (default None
       (match get_position_analysis no_prices store_target_30
                long_term (Some (nvda_at 100)) with
        | Ok x => Some x | _ => None end))).
Proof.
  apply Forall_forall. intros r Hr n Hn.
  eapply (suggested_shares_nonnegative no_prices store_target_30 long_term
            (Some (nvda_at 100))); [| |exact Hr|exact Hn].
  - vm_compute. reflexivity.
  - intros s p Hp. cbn [resolve_prices] in Hp. unfold nvda_at in Hp.
    apply lookup_singleton_Some in Hp as [_ <-]. discriminate.
Defined.

End SuggestedWitnesses.
